(** * cush, the customizable shell: job control core

    A shallow embedding of [custom-shell.c]: the job registry
    ([add_job], [delete_job], [get_job_from_jid]), the status reconciler
    ([handle_child_status]), the foreground waiter ([wait_for_job]), the
    builtins and the pipeline executor ([run_command]).

    The C program mutates global tables and job records through pointers and
    talks to the operating system.  Here the shell is a record [shell] that
    holds the heap of job records, the two registry structures, the history,
    a chronological log of everything the shell did to the outside world
    ([event]) and the scripted answers of the operating system
    ([environment]).  Every C function becomes a function in the monad
    [M A := shell -> outcome A]. *)

From Stdlib Require Import ZArith List String Ascii Bool Lia.
From stdpp Require Import base gmap list strings pretty.

Local Open Scope string_scope.
Local Open Scope Z_scope.

(** ** Characters and strings of the C library *)

Definition NUL : ascii := "000"%char.
Definition TAB : string := String "009"%char EmptyString.
Definition NL : string := String "010"%char EmptyString.

(** [s[k]] for a NUL-terminated C string: the terminator is read at
    [k = length s].  The source never indexes a string past its terminator. *)
Fixpoint char_at (s : string) (k : nat) : ascii :=
  match s, k with
  | EmptyString, _ => NUL
  | String c _, O => c
  | String _ r, S k' => char_at r k'
  end.

(** [&s[k]] *)
Fixpoint string_from (s : string) (k : nat) : string :=
  match s, k with
  | EmptyString, _ => EmptyString
  | _, O => s
  | String _ r, S k' => string_from r k'
  end.

Definition isdigit (c : ascii) : bool :=
  ((48 <=? nat_of_ascii c) && (nat_of_ascii c <=? 57))%nat.

Definition isspace (c : ascii) : bool :=
  let n := nat_of_ascii c in
  ((n =? 32) || ((9 <=? n) && (n <=? 13)))%nat.

Definition digit_val (c : ascii) : Z := Z.of_nat (nat_of_ascii c) - 48.

Fixpoint atoi_digits (acc : Z) (s : string) : Z :=
  match s with
  | String c r => if isdigit c then atoi_digits (10 * acc + digit_val c) r else acc
  | EmptyString => acc
  end.

Fixpoint skip_space (s : string) : string :=
  match s with
  | String c r => if isspace c then skip_space r else s
  | EmptyString => s
  end.

(** [strtol(s, NULL, 10)]: leading white space, an optional sign, then
    decimal digits; 0 when there is no digit; a value that does not fit a
    [long] is replaced by [LONG_MAX] or [LONG_MIN]. *)
Definition LONG_MAX : Z := 2 ^ 63 - 1.
Definition LONG_MIN : Z := - 2 ^ 63.

Definition strtol (s : string) : Z :=
  let v := match skip_space s with
           | String "-"%char r => - atoi_digits 0 r
           | String "+"%char r => atoi_digits 0 r
           | t => atoi_digits 0 t
           end in
  Z.max LONG_MIN (Z.min LONG_MAX v).

(** The conversion of a [long] to [int]: the low 32 bits, as a signed
    number. *)
Definition to_int (v : Z) : Z := (v + 2 ^ 31) mod 2 ^ 32 - 2 ^ 31.

(** [atoi], as the C library implements it: [(int) strtol(s, NULL, 10)].
    A number that does not fit an [int] wraps around: [atoi "4294967297"] is
    1. *)
Definition atoi (s : string) : Z := to_int (strtol s).

(** [strtok(line, " ")] followed by [strtok(NULL, " ")], as the history
    recall uses them.  The first call skips leading blanks and returns the
    first token; it overwrites the blank that ends the token with NUL, so the
    string [line] itself is cut after its first token. *)
Fixpoint span_blank (s : string) : string * string :=
  match s with
  | String c r =>
      if Ascii.eqb c " "%char then let '(b, t) := span_blank r in (String c b, t)
      else (EmptyString, s)
  | EmptyString => (EmptyString, EmptyString)
  end.

Fixpoint span_token (s : string) : string * string :=
  match s with
  | String c r =>
      if Ascii.eqb c " "%char then (EmptyString, s)
      else let '(t, u) := span_token r in (String c t, u)
  | EmptyString => (EmptyString, EmptyString)
  end.

Record strtok_result := {
  tok1 : string;           (* first token *)
  tok2 : option string;    (* second token, NULL when there is none *)
  cut_line : string        (* what [line] reads as afterwards *)
}.

Definition strtok2 (line : string) : option strtok_result :=
  let '(blanks, rest) := span_blank line in
  match span_token rest with
  | (EmptyString, _) => None
  | (t1, after) =>
      let '(_, rest2) := span_blank after in
      let t2 := match span_token rest2 with
                | (EmptyString, _) => None
                | (t, _) => Some t
                end in
      Some {| tok1 := t1; tok2 := t2; cut_line := blanks ++ t1 |}
  end.

(** ** Data model *)

(** [pid_t] is an integer; a job record lives at an address of the heap. *)
Abbreviation pid_t := Z.
Abbreviation addr := positive.

(** An opaque snapshot of terminal modes ([struct termios]). *)
Record termios := Termios { modes : Z }.

(** [struct ast_command] and [struct ast_pipeline], with the fields the
    shell reads.  [argv] is the NULL-terminated vector; [argv !! k = None]
    is the terminator. *)
Record ast_command := {
  argv : list string;
  dup_stderr_to_stdout : bool
}.

Record ast_pipeline := {
  commands : list ast_command;
  iored_input : option string;
  iored_output : option string;
  append_to_output : bool;
  bg_job : bool
}.

(** [enum job_status] is a C [int]: a record fresh from [malloc] holds any
    value there. *)
Definition FOREGROUND : Z := 0.
Definition BACKGROUND : Z := 1.
Definition STOPPED : Z := 2.
Definition NEEDSTERMINAL : Z := 3.

Record job := {
  pipe : ast_pipeline;
  jid : Z;
  status : Z;
  num_processes_alive : Z;
  saved_tty_state : termios;
  termStateIsSaved : bool;
  pgid : Z;
  pids : option (list pid_t)     (* None is the NULL pointer *)
}.

Definition MAXJOBS : Z := 2 ^ 16.

(** [sizeof(job->pids)]: the size of a pointer, 8 on the LP64 targets the
    shell builds for. *)
Definition sizeof_pids : nat := 8.

(** Signal numbers (Linux). *)
Definition SIGABRT : Z := 6.
Definition SIGFPE : Z := 8.
Definition SIGKILL : Z := 9.
Definition SIGSEGV : Z := 11.
Definition SIGTERM : Z := 15.
Definition SIGCONT : Z := 18.
Definition SIGSTOP : Z := 19.
Definition SIGTSTP : Z := 20.

(** What [waitpid] stores in [status], as the W* macros classify it. *)
Inductive wait_status :=
| WExited (code : Z)
| WSignaled (sig : Z)
| WStopped (sig : Z)
| WContinued.

Inductive file_action :=
| AddOpen (fd : Z) (path : string) (append : bool) (write : bool)
| AddDup2 (from to : Z).

(** Everything the shell does to the outside world, in program order. *)
Inductive event :=
| Stdout (text : string)
| Stderr (text : string)
| Perror (text : string)
| Killpg (pgrp : Z) (sig : Z)
| TermstateSample
| TermstateSave
| GiveTerminalBackToShell
| GiveTerminalTo (saved : option termios) (pgrp : Z)
| SignalBlock
| SignalUnblock
| Pipe2
| Close (fd : Z)
| Spawn (args : list string) (actions : list file_action) (pgroup : Z) (tcsetpgrp : bool)
| Waitpid
| Chdir (path : string).

(** The answers of the operating system, consumed front to back, and what
    the heap holds behind the pid array of the job at an address:
    [stray_cells a i] is what [job->pids[i]] reads when [i] is past the cells
    that were allocated. *)
Record environment := {
  job_mallocs : list (addr * job);            (* address and stale contents *)
  pids_mallocs : list (option (list pid_t));  (* None: malloc returned NULL *)
  pipe2_results : list (option (Z * Z));      (* read end, write end *)
  spawn_results : list (option pid_t);        (* None: posix_spawnp failed *)
  killpg_results : list Z;
  waitpid_results : list (pid_t * wait_status);  (* pid -1: waitpid failed *)
  chdir_results : list Z;                     (* 0 or errno *)
  home : option string;                       (* getenv("HOME") *)
  stray_cells : positive -> nat -> Z          (* memory behind a pid array *)
}.

Record shell := {
  heap : gmap addr job;          (* the job records that are allocated *)
  job_list : list addr;          (* struct list job_list *)
  jid2job : gmap Z addr;         (* jid2job[]; absent is NULL *)
  history : list string;         (* readline's history, oldest first *)
  history_guard_null : bool;     (* does cmd_history[-1] read as NULL *)
  sigchld_blocked : bool;
  tty : termios;                 (* what tcgetattr(0) would return *)
  out : list event;
  env : environment
}.

Inductive halt :=
| HExit (code : Z)        (* exit() *)
| HAbort                  (* abort() or a failed assert *)
| HFatal                  (* utils_fatal_error *)
| HUndefined              (* a read the C standard leaves undefined *)
| HBlocked.               (* the scripted environment has no answer left *)

Inductive outcome (A : Type) :=
| Ok (a : A) (s : shell)
| Halt (h : halt) (s : shell).
Arguments Ok {A} a s.
Arguments Halt {A} h s.

Definition M (A : Type) : Type := shell -> outcome A.

Definition ret {A} (a : A) : M A := fun s => Ok a s.

Definition bind {A B} (m : M A) (k : A -> M B) : M B :=
  fun s => match m s with
           | Ok a s' => k a s'
           | Halt h s' => Halt h s'
           end.

Definition stop {A} (h : halt) : M A := fun s => Halt h s.

Notation "'let!' x ':=' m 'in' k" := (bind m (fun x => k))
  (at level 10, x pattern, m at level 100, k at level 200).
Notation "m ';;;' k" := (bind m (fun _ => k))
  (at level 100, k at level 200, right associativity).

(** *** State access *)

Definition set_heap (h : gmap addr job) (s : shell) : shell :=
  {| heap := h; job_list := job_list s; jid2job := jid2job s;
     history := history s; history_guard_null := history_guard_null s;
     sigchld_blocked := sigchld_blocked s; tty := tty s; out := out s;
     env := env s |}.

Definition set_job_list (l : list addr) (s : shell) : shell :=
  {| heap := heap s; job_list := l; jid2job := jid2job s;
     history := history s; history_guard_null := history_guard_null s;
     sigchld_blocked := sigchld_blocked s; tty := tty s; out := out s;
     env := env s |}.

Definition set_jid2job (t : gmap Z addr) (s : shell) : shell :=
  {| heap := heap s; job_list := job_list s; jid2job := t;
     history := history s; history_guard_null := history_guard_null s;
     sigchld_blocked := sigchld_blocked s; tty := tty s; out := out s;
     env := env s |}.

Definition set_history (h : list string) (s : shell) : shell :=
  {| heap := heap s; job_list := job_list s; jid2job := jid2job s;
     history := h; history_guard_null := history_guard_null s;
     sigchld_blocked := sigchld_blocked s; tty := tty s; out := out s;
     env := env s |}.

Definition set_blocked (b : bool) (s : shell) : shell :=
  {| heap := heap s; job_list := job_list s; jid2job := jid2job s;
     history := history s; history_guard_null := history_guard_null s;
     sigchld_blocked := b; tty := tty s; out := out s;
     env := env s |}.

Definition set_out (o : list event) (s : shell) : shell :=
  {| heap := heap s; job_list := job_list s; jid2job := jid2job s;
     history := history s; history_guard_null := history_guard_null s;
     sigchld_blocked := sigchld_blocked s; tty := tty s; out := o;
     env := env s |}.

Definition set_env (e : environment) (s : shell) : shell :=
  {| heap := heap s; job_list := job_list s; jid2job := jid2job s;
     history := history s; history_guard_null := history_guard_null s;
     sigchld_blocked := sigchld_blocked s; tty := tty s; out := out s;
     env := e |}.

(** The rest of a script after one answer was consumed. *)
Definition set_job_mallocs (v : list (addr * job)) (e : environment) : environment :=
  {| job_mallocs := v;
     pids_mallocs := pids_mallocs e;
     pipe2_results := pipe2_results e;
     spawn_results := spawn_results e;
     killpg_results := killpg_results e;
     waitpid_results := waitpid_results e;
     chdir_results := chdir_results e;
     home := home e;
     stray_cells := stray_cells e |}.

Definition set_pids_mallocs (v : list (option (list pid_t))) (e : environment) : environment :=
  {| job_mallocs := job_mallocs e;
     pids_mallocs := v;
     pipe2_results := pipe2_results e;
     spawn_results := spawn_results e;
     killpg_results := killpg_results e;
     waitpid_results := waitpid_results e;
     chdir_results := chdir_results e;
     home := home e;
     stray_cells := stray_cells e |}.

Definition set_pipe2_results (v : list (option (Z * Z))) (e : environment) : environment :=
  {| job_mallocs := job_mallocs e;
     pids_mallocs := pids_mallocs e;
     pipe2_results := v;
     spawn_results := spawn_results e;
     killpg_results := killpg_results e;
     waitpid_results := waitpid_results e;
     chdir_results := chdir_results e;
     home := home e;
     stray_cells := stray_cells e |}.

Definition set_spawn_results (v : list (option pid_t)) (e : environment) : environment :=
  {| job_mallocs := job_mallocs e;
     pids_mallocs := pids_mallocs e;
     pipe2_results := pipe2_results e;
     spawn_results := v;
     killpg_results := killpg_results e;
     waitpid_results := waitpid_results e;
     chdir_results := chdir_results e;
     home := home e;
     stray_cells := stray_cells e |}.

Definition set_killpg_results (v : list Z) (e : environment) : environment :=
  {| job_mallocs := job_mallocs e;
     pids_mallocs := pids_mallocs e;
     pipe2_results := pipe2_results e;
     spawn_results := spawn_results e;
     killpg_results := v;
     waitpid_results := waitpid_results e;
     chdir_results := chdir_results e;
     home := home e;
     stray_cells := stray_cells e |}.

Definition set_waitpid_results (v : list (pid_t * wait_status)) (e : environment) : environment :=
  {| job_mallocs := job_mallocs e;
     pids_mallocs := pids_mallocs e;
     pipe2_results := pipe2_results e;
     spawn_results := spawn_results e;
     killpg_results := killpg_results e;
     waitpid_results := v;
     chdir_results := chdir_results e;
     home := home e;
     stray_cells := stray_cells e |}.

Definition set_chdir_results (v : list Z) (e : environment) : environment :=
  {| job_mallocs := job_mallocs e;
     pids_mallocs := pids_mallocs e;
     pipe2_results := pipe2_results e;
     spawn_results := spawn_results e;
     killpg_results := killpg_results e;
     waitpid_results := waitpid_results e;
     chdir_results := v;
     home := home e;
     stray_cells := stray_cells e |}.

Definition set_stray_cells (v : positive -> nat -> Z) (e : environment) : environment :=
  {| job_mallocs := job_mallocs e;
     pids_mallocs := pids_mallocs e;
     pipe2_results := pipe2_results e;
     spawn_results := spawn_results e;
     killpg_results := killpg_results e;
     waitpid_results := waitpid_results e;
     chdir_results := chdir_results e;
     home := home e;
     stray_cells := v |}.

Definition emit (e : event) : M unit :=
  fun s => Ok tt (set_out (out s ++ [e]) s).

(** [*a]: reading through a pointer to a freed record is undefined. *)
Definition load (a : addr) : M job :=
  fun s => match heap s !! a with
           | Some j => Ok j s
           | None => Halt HUndefined s
           end.

Definition store (a : addr) (j : job) : M unit :=
  fun s => Ok tt (set_heap (<[a := j]> (heap s)) s).

(** Field updates of a job record. *)
Definition job_with_jid (v : Z) (j : job) : job :=
  {| pipe := pipe j; jid := v; status := status j;
     num_processes_alive := num_processes_alive j;
     saved_tty_state := saved_tty_state j;
     termStateIsSaved := termStateIsSaved j; pgid := pgid j; pids := pids j |}.

Definition job_with_status (v : Z) (j : job) : job :=
  {| pipe := pipe j; jid := jid j; status := v;
     num_processes_alive := num_processes_alive j;
     saved_tty_state := saved_tty_state j;
     termStateIsSaved := termStateIsSaved j; pgid := pgid j; pids := pids j |}.

Definition job_with_alive (v : Z) (j : job) : job :=
  {| pipe := pipe j; jid := jid j; status := status j;
     num_processes_alive := v;
     saved_tty_state := saved_tty_state j;
     termStateIsSaved := termStateIsSaved j; pgid := pgid j; pids := pids j |}.

Definition job_with_saved_tty (v : termios) (j : job) : job :=
  {| pipe := pipe j; jid := jid j; status := status j;
     num_processes_alive := num_processes_alive j;
     saved_tty_state := v;
     termStateIsSaved := termStateIsSaved j; pgid := pgid j; pids := pids j |}.

Definition job_with_saved_flag (v : bool) (j : job) : job :=
  {| pipe := pipe j; jid := jid j; status := status j;
     num_processes_alive := num_processes_alive j;
     saved_tty_state := saved_tty_state j;
     termStateIsSaved := v; pgid := pgid j; pids := pids j |}.

Definition job_with_pgid (v : Z) (j : job) : job :=
  {| pipe := pipe j; jid := jid j; status := status j;
     num_processes_alive := num_processes_alive j;
     saved_tty_state := saved_tty_state j;
     termStateIsSaved := termStateIsSaved j; pgid := v; pids := pids j |}.

Definition job_with_pids (v : option (list pid_t)) (j : job) : job :=
  {| pipe := pipe j; jid := jid j; status := status j;
     num_processes_alive := num_processes_alive j;
     saved_tty_state := saved_tty_state j;
     termStateIsSaved := termStateIsSaved j; pgid := pgid j; pids := v |}.

Definition job_with_pipe (v : ast_pipeline) (j : job) : job :=
  {| pipe := v; jid := jid j; status := status j;
     num_processes_alive := num_processes_alive j;
     saved_tty_state := saved_tty_state j;
     termStateIsSaved := termStateIsSaved j; pgid := pgid j; pids := pids j |}.

(** [job->field = v] through the pointer [a]. *)
Definition modify (a : addr) (f : job -> job) : M unit :=
  let! j := load a in store a (f j).

(** *** Calls into the operating system and the helper libraries *)

(** [signal_block] and [signal_unblock] of signal_support.h, for SIGCHLD. *)
Definition signal_block : M unit :=
  fun s => Ok tt (set_blocked true (set_out (out s ++ [SignalBlock]) s)).

Definition signal_unblock : M unit :=
  fun s => Ok tt (set_blocked false (set_out (out s ++ [SignalUnblock]) s)).

(** [assert(c)] *)
Definition assert (c : bool) : M unit :=
  if c then ret tt else stop HAbort.

(** [utils_fatal_error]: print the diagnostic and terminate the process. *)
Definition utils_fatal_error {A} (msg : string) : M A :=
  emit (Stderr msg) ;;; stop HFatal.

(** [killpg] where the source inspects the result: the next scripted answer.
    Where the source ignores the result only the event is recorded. *)
Definition killpg (pgrp sig : Z) : M Z :=
  emit (Killpg pgrp sig) ;;;
  fun s => match killpg_results (env s) with
           | r :: rest =>
               Ok r (set_env (set_killpg_results rest (env s)) s)
           | [] => Halt HBlocked s
           end.

Definition killpg_ (pgrp sig : Z) : M unit := emit (Killpg pgrp sig).

(** Blocking [waitpid(-1, &status, WUNTRACED)]. *)
Definition waitpid : M (pid_t * wait_status) :=
  emit Waitpid ;;;
  fun s => match waitpid_results (env s) with
           | r :: rest =>
               Ok r (set_env (set_waitpid_results rest (env s)) s)
           | [] => Halt HBlocked s
           end.

Definition malloc_job : M (addr * job) :=
  fun s => match job_mallocs (env s) with
           | r :: rest =>
               Ok r (set_env (set_job_mallocs rest (env s)) s)
           | [] => Halt HBlocked s
           end.

(** [malloc(sizeof(pid_t) * n)]: NULL, or [n] cells with stale contents. *)
Definition malloc_pids (n : nat) : M (option (list pid_t)) :=
  fun s => match pids_mallocs (env s) with
           | r :: rest =>
               Ok (resize n 0 <$> r)
                  (set_env (set_pids_mallocs rest (env s)) s)
           | [] => Halt HBlocked s
           end.

Definition pipe2 : M (option (Z * Z)) :=
  emit Pipe2 ;;;
  fun s => match pipe2_results (env s) with
           | r :: rest =>
               Ok r (set_env (set_pipe2_results rest (env s)) s)
           | [] => Halt HBlocked s
           end.

Definition posix_spawnp (args : list string) (actions : list file_action)
    (pgroup : Z) (tcsetpgrp : bool) : M (option pid_t) :=
  emit (Spawn args actions pgroup tcsetpgrp) ;;;
  fun s => match spawn_results (env s) with
           | r :: rest =>
               Ok r (set_env (set_spawn_results rest (env s)) s)
           | [] => Halt HBlocked s
           end.

Definition chdir (path : string) : M Z :=
  emit (Chdir path) ;;;
  fun s => match chdir_results (env s) with
           | r :: rest =>
               Ok r (set_env (set_chdir_results rest (env s)) s)
           | [] => Halt HBlocked s
           end.

(** ** The job registry *)

(** [get_job_from_jid] *)
Definition get_job_from_jid (i : Z) (s : shell) : option addr :=
  if (0 <? i) && (i <? MAXJOBS) then jid2job s !! i else None.

(** The [for] loop of [add_job]: the first [i] in [lo, lo + n) with
    [jid2job[i] == NULL]. *)
Fixpoint first_free (t : gmap Z addr) (lo : Z) (n : nat) : option Z :=
  match n with
  | O => None
  | S n' => match t !! lo with
            | None => Some lo
            | Some _ => first_free t (lo + 1) n'
            end
  end.

(** [add_job].  The record comes from [malloc]; the fields the function
    does not assign keep the stale contents. *)
Definition add_job (p : ast_pipeline) : M addr :=
  let! (a, stale) := malloc_job in
  let j := job_with_saved_flag false (job_with_alive 0 (job_with_pipe p stale)) in
  store a j ;;;
  (fun s => Ok tt (set_job_list (job_list s ++ [a]) s)) ;;;
  fun s =>
    match first_free (jid2job s) 1 (Z.to_nat (MAXJOBS - 1)) with
    | Some i =>
        (store a (job_with_jid i j) ;;;
         fun s => Ok a (set_jid2job (<[i := a]> (jid2job s)) s)) s
    | None =>
        (emit (Stderr ("Maximum number of jobs exceeded" ++ NL)) ;;;
         stop HAbort) s
    end.

(** [delete_job] *)
Definition delete_job (a : addr) : M unit :=
  let! j := load a in
  assert (negb (jid j =? -1)) ;;;
  fun s =>
    (if (0 <=? jid j) && (jid j <? MAXJOBS) then
       match jid2job s !! jid j with
       | Some b =>
           modify b (job_with_jid (-1)) ;;;
           (fun s => Ok tt (set_jid2job (delete (jid j) (jid2job s)) s)) ;;;
           fun s => Ok tt (set_heap (delete a (heap s)) s)
       | None => stop HUndefined
       end
     else stop HUndefined) s.

(** [list_remove(&job->elem)] *)
Definition list_remove (a : addr) : M unit :=
  fun s => Ok tt (set_job_list (filter (fun b => b <> a) (job_list s)) s).

(** ** Printing *)

Definition get_status (st : Z) : string :=
  if st =? FOREGROUND then "Foreground"
  else if st =? BACKGROUND then "Running"
  else if st =? STOPPED then "Stopped"
  else if st =? NEEDSTERMINAL then "Stopped (tty)"
  else "Unknown".

Definition print_argv (args : list string) : string :=
  match args with
  | [] => "(null)"
  | a0 :: rest => a0 ++ fold_right (fun a acc => " " ++ a ++ acc) EmptyString rest
  end.

Fixpoint print_cmds (first : bool) (cs : list ast_command) : string :=
  match cs with
  | [] => EmptyString
  | c :: rest =>
      (if first then EmptyString else "| ") ++ print_argv (argv c)
        ++ print_cmds false rest
  end.

(** [print_cmdline], as the text it sends to stdout *)
Definition print_cmdline (p : ast_pipeline) : string := print_cmds true (commands p).

Definition job_line (j : job) : string :=
  "[" ++ pretty (jid j) ++ "]" ++ TAB ++ get_status (status j) ++ TAB ++ TAB
      ++ "(" ++ print_cmdline (pipe j) ++ ")" ++ NL.

Definition bg_line (j : job) : string :=
  "[" ++ pretty (jid j) ++ "] " ++ pretty (pgid j) ++ NL.

(** [print_job] *)
Definition print_job (a : addr) : M unit :=
  let! j := load a in emit (Stdout (job_line j)).

(** [print_bg] *)
Definition print_bg (a : addr) : M unit :=
  let! j := load a in emit (Stdout (bg_line j)).

(** ** The status reconciler *)

Definition fatal_signal_message (sig : Z) : option string :=
  if sig =? SIGFPE then Some ("Floating point exception" ++ NL)%string
  else if sig =? SIGSEGV then Some ("Segmentation fault" ++ NL)%string
  else if sig =? SIGABRT then Some ("Aborted" ++ NL)%string
  else if sig =? SIGKILL then Some ("Killed" ++ NL)%string
  else if sig =? SIGTERM then Some ("Terminated" ++ NL)%string
  else None.

Definition decr_alive (j : job) : job :=
  job_with_alive (num_processes_alive j - 1) j.

(** The body of [if (job->pids[i] == pid) { ... }] in
    [handle_child_status]. *)
Definition on_child_status (a : addr) (st : wait_status) : M unit :=
  match st with
  | WExited _ =>
      let! j := load a in
      (if status j =? FOREGROUND
       then emit TermstateSample ;;; emit GiveTerminalBackToShell
       else ret tt) ;;;
      modify a decr_alive
  | WSignaled sig =>
      modify a decr_alive ;;;
      match fatal_signal_message sig with
      | Some m => emit (Stderr m)
      | None => ret tt
      end
  | WStopped sig =>
      let! j := load a in
      (if status j =? FOREGROUND
       then fun s =>
              modify a (fun j => job_with_saved_flag true
                                   (job_with_saved_tty (tty s) j)) s
       else ret tt) ;;;
      modify a (job_with_status STOPPED) ;;;
      (if sig =? SIGTSTP then print_job a else ret tt) ;;;
      emit TermstateSave ;;;
      emit GiveTerminalBackToShell
  | WContinued =>
      let! j := load a in
      if (status j =? STOPPED) || (status j =? NEEDSTERMINAL)
      then modify a (job_with_status BACKGROUND)
      else ret tt
  end.

(** [job->pids[i]]: a cell of the array, or, past the cells that were
    allocated, whatever the heap holds there. *)
Definition read_cell (s : shell) (a : addr) (cells : list pid_t) (i : nat) : pid_t :=
  match cells !! i with
  | Some p => p
  | None => stray_cells (env s) a i
  end.

(** The inner loop [for (int i = 0; i < sizeof(job->pids); i++)], from
    index [i] with [n] iterations to go.  The loop does not stop at the end of
    the array, and it does not stop at a match. *)
Fixpoint scan_pids (a : addr) (pid : pid_t) (st : wait_status) (i n : nat) : M unit :=
  match n with
  | O => ret tt
  | S n' =>
      let! j := load a in
      match pids j with
      | None => stop HUndefined                 (* NULL[i] *)
      | Some cells =>
          (fun s =>
             (if read_cell s a cells i =? pid then on_child_status a st else ret tt) s) ;;;
          scan_pids a pid st (S i) n'
      end
  end.

(** The outer loop over [job_list].  [list_entry] of a list element is never
    NULL, so the branch that prints "this pid is not associated with a job"
    cannot be taken and has no counterpart here. *)
Fixpoint scan_jobs (l : list addr) (pid : pid_t) (st : wait_status) : M unit :=
  match l with
  | [] => ret tt
  | a :: rest => scan_pids a pid st 0 sizeof_pids ;;; scan_jobs rest pid st
  end.

Definition handle_child_status (pid : pid_t) (st : wait_status) : M unit :=
  fun s =>
    match job_list s with
    | [] => emit (Stderr ("job list is empty" ++ NL)) s
    | l => scan_jobs l pid st s
    end.

(** ** The foreground waiter *)

(** The [while] loop of [wait_for_job].  Every iteration consumes one
    scripted [waitpid] answer, so [fuel] above the length of the script is
    never used up. *)
Fixpoint wait_loop (fuel : nat) (a : addr) : M unit :=
  match fuel with
  | O => stop HBlocked
  | S fuel' =>
      let! j := load a in
      if (status j =? FOREGROUND) && (0 <? num_processes_alive j) then
        let! r := waitpid in
        if negb (r.1 =? -1) then
          handle_child_status r.1 r.2 ;;; wait_loop fuel' a
        else utils_fatal_error "waitpid failed, see code for explanation"
      else ret tt
  end.

Definition wait_for_job (a : addr) : M unit :=
  (fun s => assert (sigchld_blocked s) s) ;;;
  (fun s => wait_loop (S (length (waitpid_results (env s)))) a s) ;;;
  emit GiveTerminalBackToShell ;;;
  signal_unblock.

(** [sigchld_handler]: drain every child that has changed state.  The
    non-blocking [waitpid] returns 0 when the script is empty. *)
Fixpoint sigchld_drain (fuel : nat) : M unit :=
  match fuel with
  | O => ret tt
  | S fuel' =>
      fun s =>
        match waitpid_results (env s) with
        | [] => Ok tt s
        | _ => (let! r := waitpid in
                if 0 <? r.1 then handle_child_status r.1 r.2 ;;; sigchld_drain fuel'
                else ret tt) s
        end
  end.

Definition sigchld_handler : M unit :=
  fun s => sigchld_drain (length (waitpid_results (env s))) s.

(** ** Builtins *)

Fixpoint repeat_m (n : nat) (m : M unit) : M unit :=
  match n with
  | O => ret tt
  | S n' => m ;;; repeat_m n' m
  end.

Definition fg_builtin (cmd : ast_command) : M unit :=
  match argv cmd !! 1%nat with
  | None => emit (Perror "No argument given with fg")
  | Some arg =>
      let jobID := atoi arg in
      fun s =>
        match get_job_from_jid jobID s with
        | None =>
            emit (Stderr ("fg " ++ pretty jobID ++ " failed, no such job" ++ NL)) s
        | Some a =>
            (modify a (job_with_status FOREGROUND) ;;;
             let! j := load a in
             (if termStateIsSaved j then
                emit (GiveTerminalTo (Some (saved_tty_state j)) (pgid j)) ;;;
                modify a (job_with_saved_flag false)
              else emit (GiveTerminalTo None (pgid j))) ;;;
             print_job a ;;;
             let! r := killpg (pgid j) SIGCONT in
             if negb (r =? 0) then
               utils_fatal_error ("kill pgid failed " ++ pretty (pgid j))
             else wait_for_job a) s
        end
  end.

Definition bg_builtin (cmd : ast_command) : M unit :=
  match argv cmd !! 1%nat with
  | None => emit (Stderr ("bg: not enough arguments" ++ NL))
  | Some arg =>
      let jobID := atoi arg in
      fun s =>
        match get_job_from_jid jobID s with
        | None =>
            emit (Stderr ("bg " ++ pretty jobID ++ " failed, no such job" ++ NL)) s
        | Some a =>
            (let! j := load a in
             if negb (status j =? STOPPED) then
               emit (Stderr ("this job: " ++ pretty jobID ++ " is already running" ++ NL))
             else
               modify a (job_with_status BACKGROUND) ;;;
               print_job a ;;;
               let! r := killpg (pgid j) SIGCONT in
               if negb (r =? 0) then
                 utils_fatal_error ("kill pgid failed " ++ pretty (pgid j))
               else wait_for_job a) s
        end
  end.

Fixpoint jobs_loop (i : Z) (n : nat) : M unit :=
  match n with
  | O => ret tt
  | S n' =>
      (fun s => match get_job_from_jid i s with
                | Some a => print_job a s
                | None => Ok tt s
                end) ;;;
      jobs_loop (i + 1) n'
  end.

Definition jobs_builtin : M unit := jobs_loop 1 (Z.to_nat (MAXJOBS - 1)).

(** [kill_builtin] and [stop_builtin] differ in the message and the signal. *)
Definition signal_job (what : string) (sig : Z) (cmd : ast_command) : M unit :=
  match argv cmd !! 1%nat with
  | None => emit (Stderr (what ++ ": not enough arguments" ++ NL))
  | Some arg =>
      let jobID := atoi arg in
      fun s =>
        match get_job_from_jid jobID s with
        | None =>
            emit (Stderr ("attempt to " ++ what ++ " " ++ pretty jobID
                            ++ " failed, no such process" ++ NL)) s
        | Some a =>
            (let! j := load a in
             if jid j =? atoi arg then
               modify a (job_with_status STOPPED) ;;;
               repeat_m (Z.to_nat (num_processes_alive j)) (killpg_ (pgid j) sig)
             else ret tt) s
        end
  end.

Definition kill_builtin : ast_command -> M unit := signal_job "kill" SIGKILL.
Definition stop_builtin : ast_command -> M unit := signal_job "stop" SIGSTOP.

Fixpoint exit_loop (i : Z) (n : nat) : M unit :=
  match n with
  | O => ret tt
  | S n' =>
      (fun s => match get_job_from_jid i s with
                | Some a => delete_job a s
                | None => Ok tt s
                end) ;;;
      exit_loop (i + 1) n'
  end.

Definition exit_builtin : M unit :=
  exit_loop 1 (Z.to_nat (MAXJOBS - 1)) ;;; stop (HExit 0).

Definition EACCES : Z := 13.
Definition ENOTDIR : Z := 20.
Definition ENOENT : Z := 2.

Definition cd_custom_builtin (cmd : ast_command) : M unit :=
  match argv cmd !! 1%nat with
  | None =>
      fun s =>
        match home (env s) with
        | None => emit (Stderr ("cd: HOME env variable not set" ++ NL)) s
        | Some h =>
            (let! r := chdir h in
             if negb (r =? 0)
             then emit (Stderr ("cd: Changing directory to HOME failed:" ++ NL))
             else ret tt) s
        end
  | Some path =>
      let! r := chdir path in
      if negb (r =? 0) then
        if r =? EACCES then emit (Stderr ("cd: Permission denied!" ++ NL))
        else if r =? ENOTDIR then
          emit (Stderr ("cd: Can't change directory to a file: " ++ path ++ NL))
        else if r =? ENOENT then
          emit (Stderr ("cd: No such file or directory: " ++ path ++ NL))
        else emit (Perror "cd: Could not change directory")
      else ret tt
  end.

Fixpoint history_lines (i : Z) (h : list string) : list event :=
  match h with
  | [] => []
  | line :: rest =>
      Stdout ("[" ++ pretty (i + 1) ++ "]: " ++ line ++ NL) :: history_lines (i + 1) rest
  end.

Definition history_custom_builtin : M unit :=
  fun s => Ok tt (set_out (out s ++ history_lines 0 (history s)) s).

(** ** The pipeline executor *)

(** What an iteration of the stage loop does next: go on, or [return] from
    [run_command]. *)
Inductive flow := Continue | Return.

Definition is_last (rest : list ast_command) : bool :=
  match rest with [] => true | _ => false end.

Definition command_with_argv (v : list string) (c : ast_command) : ast_command :=
  {| argv := v; dup_stderr_to_stdout := dup_stderr_to_stdout c |}.

Definition pipeline_with_commands (cs : list ast_command) (p : ast_pipeline) : ast_pipeline :=
  {| commands := cs; iored_input := iored_input p; iored_output := iored_output p;
     append_to_output := append_to_output p; bg_job := bg_job p |}.

(** [int size = -1; while (cmd_history[size] != NULL) size++;]
    The loop starts one cell before the array.  [history_list()] is NULL
    while the history is empty. *)
Definition history_size : M Z :=
  fun s =>
    match history s with
    | [] => Halt HUndefined s
    | h => if history_guard_null s then Ok (-1) s
           else Ok (Z.of_nat (length h)) s
    end.

(** From [strtok(cmd_history[i]->line, " ")] to the [printf]: the entry is
    cut by [strtok], the command of stage [k] gets the new vector. *)
Definition recall_entry (a : addr) (k : nat) (cmd : ast_command) (i : Z) : M ast_command :=
  fun s =>
    if i <? 0 then Halt HUndefined s
    else
      match history s !! Z.to_nat i with
      | None => Halt HUndefined s
      | Some line =>
          match strtok2 line with
          | None => Halt HUndefined s        (* strdup(NULL) *)
          | Some r =>
              let cmd' := command_with_argv
                            (tok1 r :: match tok2 r with Some t => [t] | None => [] end)
                            cmd in
              ((fun s => Ok tt (set_history (<[Z.to_nat i := cut_line r]> (history s)) s)) ;;;
               modify a (fun j => job_with_pipe
                           (pipeline_with_commands
                              (<[k := cmd']> (commands (pipe j))) (pipe j)) j) ;;;
               emit (Stdout ("Running command from history: " ++ cut_line r ++ NL)) ;;;
               ret cmd') s
          end
      end.

(** The branch [else if (cmd->argv[0][0] == '!')].  [None]: the function
    returned; [Some c]: the stage goes on with the rewritten command. *)
Definition history_recall (a : addr) (k : nat) (cmd : ast_command) (name : string)
    : M (option ast_command) :=
  if Ascii.eqb (char_at name 1) "-"%char && isdigit (char_at name 2) then
    let n := atoi (string_from name 2) in
    let! size := history_size in
    if negb (size =? -1) then
      let size := size + 1 in
      let! c := recall_entry a k cmd (size - n - 2) in ret (Some c)
    else
      emit (Stderr ("Improper n-value for !-n cmd" ++ NL)) ;;; ret None
  else if isdigit (char_at name 1) then
    let n := atoi (string_from name 1) in
    let! size := history_size in
    if negb (size =? -1) then
      let size := size + 1 in
      if (size <=? n) || (n <? 1) then
        emit (Stderr ("Improper n-value for !n cmd" ++ NL)) ;;; ret None
      else
        let! c := recall_entry a k cmd (n - 1) in ret (Some c)
    else
      emit (Stderr ("Improper n-value for !n cmd" ++ NL)) ;;; ret None
  else
    emit (Stderr ("Invalid event designator format, accepted use-cases: {!n, !-n}" ++ NL)) ;;;
    ret None.

Definition file_actions (p : ast_pipeline) (cmd : ast_command) (k : nat)
    (last : bool) (prev_fd write_end : Z) : list file_action :=
  (match iored_input p, k with
   | Some path, O => [AddOpen 0 path false false]
   | _, _ => []
   end)
  ++ (match iored_output p with
      | Some path => if last then [AddOpen 1 path (append_to_output p) true] else []
      | None => []
      end)
  ++ (if negb (prev_fd =? -1) then [AddDup2 prev_fd 0] else [])
  ++ (if negb last then [AddDup2 write_end 1] else [])
  ++ (if dup_stderr_to_stdout cmd then [AddDup2 1 2] else []).

(** From the creation of the pipe to the end of the loop body, for stage
    [k] (the C variable [idx]).  Returns the new [gid] and [prev_fd]. *)
Definition spawn_stage (a : addr) (p : ast_pipeline) (k : nat) (cmd : ast_command)
    (last : bool) (gid prev_fd : Z) : M (flow * (Z * Z)) :=
  let! fds := (if negb last then pipe2 else ret (Some (-1, -1))) in
  match fds with
  | None =>
      emit (Perror "pipe2 failed") ;;;
      signal_unblock ;;;
      delete_job a ;;;
      ret (Return, (gid, prev_fd))
  | Some (read_end, write_end) =>
      let! r := posix_spawnp (argv cmd)
                  (file_actions p cmd k last prev_fd write_end)
                  (match k with O => 0 | _ => gid end)
                  (negb (bg_job p)) in
      match r with
      | None =>
          emit (Perror "posix_spawnp failed") ;;;
          signal_unblock ;;;
          delete_job a ;;;
          emit GiveTerminalBackToShell ;;;
          ret (Return, (gid, prev_fd))
      | Some pid =>
          let gid' := match k with O => pid | _ => gid end in
          (match k with O => modify a (job_with_pgid pid) | _ => ret tt end) ;;;
          (let! j := load a in
           match pids j with
           | Some cells =>
               if (k <? length cells)%nat
               then store a (job_with_pids (Some (<[k := pid]> cells)) j)
               else stop HUndefined
           | None => stop HUndefined
           end) ;;;
          modify a (fun j => job_with_alive (num_processes_alive j + 1) j) ;;;
          (if negb (prev_fd =? -1) then emit (Close prev_fd) else ret tt) ;;;
          (if negb last then emit (Close write_end)
           else if negb (prev_fd =? -1) then emit (Close prev_fd) else ret tt) ;;;
          (if bg_job p then modify a (job_with_status BACKGROUND) ;;; print_bg a
           else modify a (job_with_status FOREGROUND)) ;;;
          ret (Continue, (gid', if negb last then read_end else prev_fd))
      end
  end.

(** One iteration of the loop over the commands of a pipeline. *)
Definition run_stage (a : addr) (p : ast_pipeline) (k : nat) (cmd : ast_command)
    (last : bool) (gid prev_fd : Z) : M (flow * (Z * Z)) :=
  emit TermstateSample ;;;
  match argv cmd with
  | [] => stop HUndefined                      (* strcmp(NULL, ...) *)
  | name :: _ =>
      let returned := ret (Return, (gid, prev_fd)) in
      if String.eqb name "jobs" then jobs_builtin ;;; signal_unblock ;;; returned
      else if String.eqb name "fg" then fg_builtin cmd ;;; signal_unblock ;;; returned
      else if String.eqb name "bg" then bg_builtin cmd ;;; signal_unblock ;;; returned
      else if String.eqb name "kill" then kill_builtin cmd ;;; signal_unblock ;;; returned
      else if String.eqb name "exit" then exit_builtin ;;; signal_unblock ;;; returned
      else if String.eqb name "stop" then stop_builtin cmd ;;; signal_unblock ;;; returned
      else if String.eqb name "cd" then cd_custom_builtin cmd ;;; signal_unblock ;;; returned
      else if String.eqb name "history" then
        history_custom_builtin ;;; signal_unblock ;;; returned
      else if Ascii.eqb (char_at name 0) "!"%char then
        let! c := history_recall a k cmd name in
        match c with
        | None => returned
        | Some cmd' => spawn_stage a p k cmd' last gid prev_fd
        end
      else spawn_stage a p k cmd last gid prev_fd
  end.

Fixpoint run_stages (a : addr) (p : ast_pipeline) (cmds : list ast_command)
    (k : nat) (gid prev_fd : Z) : M flow :=
  match cmds with
  | [] => ret Continue
  | cmd :: rest =>
      let! r := run_stage a p k cmd (is_last rest) gid prev_fd in
      match r with
      | (Return, _) => ret Return
      | (Continue, (gid', prev_fd')) => run_stages a p rest (S k) gid' prev_fd'
      end
  end.

(** The body of the loop over the pipelines of a command line. *)
Definition run_pipeline (p : ast_pipeline) : M flow :=
  let! a := add_job p in
  let! cells := malloc_pids (length (commands p)) in
  modify a (job_with_pids cells) ;;;
  match cells with
  | None =>
      emit (Stderr ("memory allocation failed for job PIDs list" ++ NL)) ;;;
      ret Return
  | Some _ =>
      let! r := run_stages a p (commands p) 0 0 (-1) in
      match r with
      | Return => ret Return
      | Continue => signal_block ;;; wait_for_job a ;;; ret Continue
      end
  end.

Fixpoint run_pipelines (ps : list ast_pipeline) : M flow :=
  match ps with
  | [] => ret Continue
  | p :: rest =>
      let! r := run_pipeline p in
      match r with
      | Return => ret Return
      | Continue => run_pipelines rest
      end
  end.

(** [run_command] *)
Definition run_command (cmdline : list ast_pipeline) : M unit :=
  emit TermstateSample ;;;
  signal_block ;;;
  let! r := run_pipelines cmdline in
  match r with
  | Return => ret tt
  | Continue => signal_unblock ;;; emit GiveTerminalBackToShell
  end.

(** ** The read loop *)

(** The loop of [main] that frees the jobs with no process left. *)
Fixpoint reap_loop (i : Z) (n : nat) : M unit :=
  match n with
  | O => ret tt
  | S n' =>
      (fun s =>
         match get_job_from_jid i s with
         | Some a =>
             (let! j := load a in
              if num_processes_alive j =? 0
              then list_remove a ;;; delete_job a
              else ret tt) s
         | None => Ok tt s
         end) ;;;
      reap_loop (i + 1) n'
  end.



(** ** Sample commands and states *)

Definition command_of (args : list string) : ast_command :=
  {| argv := args; dup_stderr_to_stdout := false |}.

Definition pipeline_of (cs : list (list string)) (bg : bool) : ast_pipeline :=
  {| commands := command_of <$> cs; iored_input := None; iored_output := None;
     append_to_output := false; bg_job := bg |}.

(** What a record fresh from [malloc] may hold. *)
Definition stale_job : job :=
  {| pipe := pipeline_of [] false; jid := 77; status := 5;
     num_processes_alive := 42; saved_tty_state := Termios 0;
     termStateIsSaved := true; pgid := 4242; pids := None |}.

Definition no_answers : environment :=
  {| job_mallocs := []; pids_mallocs := []; pipe2_results := [];
     spawn_results := []; killpg_results := []; waitpid_results := [];
     chdir_results := []; home := None;
     stray_cells := fun _ _ => 0 |}.

Definition empty_shell (e : environment) : shell :=
  {| heap := ∅; job_list := []; jid2job := ∅; history := ["ls -l"; "sleep 100"];
     history_guard_null := false; sigchld_blocked := false; tty := Termios 7;
     out := []; env := e |}.

(** A shell with one job, [sleep 100], stopped by ^Z while in the foreground. *)
Definition stopped_job : job :=
  {| pipe := pipeline_of [["sleep"; "100"]] false; jid := 1; status := STOPPED;
     num_processes_alive := 1; saved_tty_state := Termios 5;
     termStateIsSaved := true; pgid := 100; pids := Some [100] |}.

Definition stopped_shell : shell :=
  {| heap := {[ 1%positive := stopped_job ]}; job_list := [1%positive];
     jid2job := {[ 1 := 1%positive ]}; history := ["sleep 100"; "bg 1"];
     history_guard_null := false; sigchld_blocked := true; tty := Termios 7;
     out := [];
     env := set_waitpid_results [(100, WExited 0)]
              (set_killpg_results [0] no_answers) |}.

(** The same shell when the operating system will refuse the next signal
    ([killpg] answers -1). *)
Definition stopped_shell_refused : shell :=
  set_env (set_killpg_results [-1] (env stopped_shell)) stopped_shell.

(** The same shell when the word behind the one-cell pid array of the job
    happens to hold the pid 100 as well. *)
Definition stopped_shell_echo : shell :=
  set_env (set_stray_cells (fun _ i => if (i =? 1)%nat then 100 else 0)
             (env stopped_shell))
    stopped_shell.

(** A job of [n] stages with the pids [first], [first + 1], ... *)
Definition wide_job (n : nat) (first : Z) : job :=
  {| pipe := pipeline_of (replicate n ["cat"]) true; jid := 1; status := BACKGROUND;
     num_processes_alive := Z.of_nat n; saved_tty_state := Termios 0;
     termStateIsSaved := false; pgid := first; pids := Some (seqZ first (Z.of_nat n)) |}.

Definition wide_shell (n : nat) : shell :=
  {| heap := {[ 1%positive := wide_job n 101 ]}; job_list := [1%positive];
     jid2job := {[ 1 := 1%positive ]}; history := ["cat | cat &"];
     history_guard_null := false; sigchld_blocked := true; tty := Termios 7;
     out := []; env := no_answers |}.

(** The background job [cat &] after its one process was reported as
    exited: no process is counted any more, the record is not yet freed. *)
Definition finished_shell : shell :=
  set_heap {[ 1%positive := decr_alive (wide_job 1 101) ]} (wide_shell 1).

(** Two jobs: [sleep 100], stopped, under the id 1, and under the id 2 a
    job [cat &] whose process has exited. *)
Definition two_jobs_shell : shell :=
  {| heap := <[ 2%positive := job_with_jid 2 (decr_alive (wide_job 1 101)) ]>
               {[ 1%positive := stopped_job ]};
     job_list := [1%positive; 2%positive];
     jid2job := <[ 2 := 2%positive ]> {[ 1 := 1%positive ]};
     history := ["sleep 100"; "cat &"];
     history_guard_null := false; sigchld_blocked := false; tty := Termios 7;
     out := []; env := no_answers |}.

(** A shell whose job table is full: ids 1 .. MAXJOBS - 1 all name a
    running background job. *)
Definition busy_job (i : Z) : job :=
  {| pipe := pipeline_of [["sleep"; "1000"]] true; jid := i; status := BACKGROUND;
     num_processes_alive := 1; saved_tty_state := Termios 0;
     termStateIsSaved := false; pgid := 100000 + i; pids := Some [100000 + i] |}.

Definition all_ids : list Z := seqZ 1 (MAXJOBS - 1).

Definition full_shell : shell :=
  {| heap := list_to_map ((fun i => (Z.to_pos i, busy_job i)) <$> all_ids);
     job_list := Z.to_pos <$> all_ids;
     jid2job := list_to_map ((fun i => (i, Z.to_pos i)) <$> all_ids);
     history := ["sleep 1000 &"];
     history_guard_null := false; sigchld_blocked := true; tty := Termios 7;
     out := [];
     env := set_job_mallocs [(Z.to_pos MAXJOBS, stale_job)] no_answers |}.

(** The lines [jobs_builtin] prints for the ids [i], [i + 1], ..., [n] of
    them. *)
Fixpoint jobs_lines (s : shell) (i : Z) (n : nat) : list event :=
  match n with
  | O => []
  | S n' =>
      match get_job_from_jid i s with
      | Some a => match heap s !! a with
                  | Some j => [Stdout (job_line j)]
                  | None => []
                  end
      | None => []
      end ++ jobs_lines s (i + 1) n'
  end.

(** How many cells of a job's pid array name a process that is not among
    the processes reported as exited. *)
Definition not_yet_exited (exited : list pid_t) (j : job) : Z :=
  match pids j with
  | Some cells => Z.of_nat (length (filter (fun p => p ∉ exited) cells))
  | None => 0
  end.

(** The operating system of the sample runs: allocation succeeds, the
    first two spawns give the pids 100 and 101, further ones fail. *)
Definition sample_answers (spawns : list (option pid_t)) : environment :=
  {| job_mallocs := [(1%positive, stale_job)]; pids_mallocs := [Some []];
     pipe2_results := [Some (3, 4)]; spawn_results := spawns;
     killpg_results := []; waitpid_results := []; chdir_results := [];
     home := None;
     stray_cells := fun _ _ => 0 |}.

(** How often a text was printed to stdout. *)
Fixpoint count_stdout (text : string) (l : list event) : nat :=
  match l with
  | [] => O
  | Stdout t :: rest =>
      if String.eqb t text then S (count_stdout text rest) else count_stdout text rest
  | _ :: rest => count_stdout text rest
  end.

(** The shell at the moment the stage loop of a pipeline starts: the
    record at [a] holds the new job under the id [i], the pid array is
    allocated, and the job is in both registry structures. *)
Definition submitted_job (p : ast_pipeline) (stale : job) (i : Z)
    (cells : list pid_t) : job :=
  job_with_pids (Some (resize (length (commands p)) 0 cells))
    (job_with_jid i
       (job_with_saved_flag false (job_with_alive 0 (job_with_pipe p stale)))).

Definition submitted (s : shell) (p : ast_pipeline) (a : addr) (stale : job)
    (i : Z) (cells : list pid_t) (rest_j : list (addr * job))
    (rest_p : list (option (list pid_t))) : shell :=
  set_heap (<[a := submitted_job p stale i cells]> (heap s))
    (set_jid2job (<[i := a]> (jid2job s))
       (set_job_list (job_list s ++ [a])
          (set_env (set_pids_mallocs rest_p (set_job_mallocs rest_j (env s))) s))).



(** Every id the table knows leads to an allocated record that carries
    that id: what [add_job] establishes and [delete_job] keeps. *)
Definition registry_consistent (s : shell) : Prop :=
  forall (i : Z) (a : addr),
    jid2job s !! i = Some a -> exists j, heap s !! a = Some j /\ jid j = i.

(** The record [add_job] builds before it looks for an id. *)
Definition fresh_job (p : ast_pipeline) (stale : job) : job :=
  job_with_saved_flag false (job_with_alive 0 (job_with_pipe p stale)).

(** Every id of the table leads to an allocated record. *)
Definition registry_live (s : shell) : Prop :=
  forall (i : Z) (a : addr), jid2job s !! i = Some a -> is_Some (heap s !! a).


(** ** Further predicates and sample states *)

(** The cells of job [b] that the reconciler looks at never hold [pid]. *)
Definition scans_clean (s : shell) (pid : pid_t) (b : addr) : Prop :=
  exists j cells,
    heap s !! b = Some j /\ pids j = Some cells /\
    forall k, (k < sizeof_pids)%nat -> exists p, cells !! k = Some p /\ p <> pid.

(** The shell with the stopped job, when [malloc] will next return the
    address 2. *)
Definition stopped_shell_ready : shell :=
  set_env (set_pids_mallocs [Some []]
             (set_job_mallocs [(2%positive, stale_job)] (env stopped_shell)))
    stopped_shell.

(** The same, when the pid array [malloc] returns next still holds the pid
    100 from an earlier use. *)
Definition stopped_shell_stale_pids : shell :=
  set_env (set_pids_mallocs [Some [100]] (env stopped_shell_ready)) stopped_shell_ready.

(** The state an action ends in, whether it returned or halted. *)
Definition final_state {A} (o : outcome A) : shell :=
  match o with
  | Ok _ s => s
  | Halt _ s => s
  end.

(** What the reaping loop of [main] has done to the shell after the
    iterations for the ids [i], ..., [i + n - 1]: a registered job with no
    process alive and an id in that range is gone from the table, the heap and
    the job list; every other registered job is as it was; the job list has
    lost the records that were freed and nothing else, and has kept its order;
    nothing is added. *)
Definition reaped (i : Z) (n : nat) (s s' : shell) : Prop :=
  registry_consistent s' /\ out s' = out s /\
  job_list s' =
    filter (fun b => ~ (is_Some (heap s !! b) /\ heap s' !! b = None)) (job_list s) /\
  (forall k a j,
     get_job_from_jid k s = Some a -> heap s !! a = Some j ->
     (i <= k < i + Z.of_nat n /\ num_processes_alive j = 0 ->
        get_job_from_jid k s' = None /\ heap s' !! a = None /\ a ∉ job_list s') /\
     (~ (i <= k < i + Z.of_nat n /\ num_processes_alive j = 0) ->
        get_job_from_jid k s' = Some a /\ heap s' !! a = Some j)) /\
  (forall k, get_job_from_jid k s = None -> get_job_from_jid k s' = None) /\
  (forall b, heap s !! b = None -> heap s' !! b = None) /\
  (forall b, b ∉ job_list s -> b ∉ job_list s').

(** The same for the loop of [exit_builtin], which deletes every job. *)
Definition cleared (i : Z) (n : nat) (s s' : shell) : Prop :=
  registry_consistent s' /\ out s' = out s /\ job_list s' = job_list s /\
  (forall k a,
     get_job_from_jid k s = Some a ->
     (i <= k < i + Z.of_nat n ->
        get_job_from_jid k s' = None /\ heap s' !! a = None) /\
     (~ (i <= k < i + Z.of_nat n) ->
        get_job_from_jid k s' = Some a /\ heap s' !! a = heap s !! a)) /\
  (forall k, get_job_from_jid k s = None -> get_job_from_jid k s' = None) /\
  (forall b, heap s !! b = None -> heap s' !! b = None).

(** A foreground job of eight stages (pids 101 .. 108) that the shell is
    about to wait for; the next [waitpid] reports that process 103 was stopped
    from the keyboard. *)
Definition foreground_shell : shell :=
  {| heap := {[ 1%positive := job_with_status FOREGROUND (wide_job 8 101) ]};
     job_list := [1%positive];
     jid2job := {[ 1 := 1%positive ]}; history := ["cat | cat"];
     history_guard_null := false; sigchld_blocked := true; tty := Termios 7;
     out := [];
     env := set_waitpid_results [(103, WStopped SIGTSTP)] no_answers |}.

(** The one-stage job [sleep 100] in the foreground, its pid array one cell
    long; the next [waitpid] reports that its process has exited. *)
Definition sleeping_shell : shell :=
  set_heap {[ 1%positive := job_with_status FOREGROUND stopped_job ]} stopped_shell.

(** The transition table of the reconciler as a function on the job
    record: what [on_child_status] leaves in the record of the owning job,
    [t] being the terminal modes at that moment, and what it prints or asks
    of the terminal. *)
Definition transition (st : wait_status) (t : termios) (j : job) : job :=
  match st with
  | WExited _ => decr_alive j
  | WSignaled _ => decr_alive j
  | WStopped _ =>
      job_with_status STOPPED
        (if status j =? FOREGROUND
         then job_with_saved_flag true (job_with_saved_tty t j)
         else j)
  | WContinued =>
      if (status j =? STOPPED) || (status j =? NEEDSTERMINAL)
      then job_with_status BACKGROUND j
      else j
  end.

Definition transition_events (st : wait_status) (t : termios) (j : job) : list event :=
  match st with
  | WExited _ =>
      if status j =? FOREGROUND then [TermstateSample; GiveTerminalBackToShell] else []
  | WSignaled sig =>
      match fatal_signal_message sig with
      | Some m => [Stderr m]
      | None => []
      end
  | WStopped sig =>
      (if sig =? SIGTSTP then [Stdout (job_line (transition st t j))] else [])
        ++ [TermstateSave; GiveTerminalBackToShell]
  | WContinued => []
  end.

(** What the reconciler and the waiter leave alone: the registry
    structures, the history, which records are allocated, and in every record
    the id, the pipeline, the process group and the pid array; the count of
    live processes never grows. *)
Definition same_jobs (s s' : shell) : Prop :=
  jid2job s' = jid2job s /\ job_list s' = job_list s /\ history s' = history s /\
  (forall b, heap s !! b = None -> heap s' !! b = None) /\
  (forall b j, heap s !! b = Some j ->
     exists j', heap s' !! b = Some j' /\ jid j' = jid j /\ pipe j' = pipe j /\
                pgid j' = pgid j /\ pids j' = pids j /\
                num_processes_alive j' <= num_processes_alive j).

(** Every job of the list is an allocated record whose pid array was
    allocated: what holds while no launch has failed. *)
Definition jobs_allocated (s : shell) : Prop :=
  forall a, a ∈ job_list s ->
    exists j cells, heap s !! a = Some j /\ pids j = Some cells.

(** The line [jobs] prints for the id [i], if a job is registered there. *)
Definition job_event (s : shell) (i : Z) : option event :=
  match get_job_from_jid i s with
  | Some a => match heap s !! a with
              | Some j => Some (Stdout (job_line j))
              | None => None
              end
  | None => None
  end.

(** The command a history recall builds from a history line: the first
    word and, if there is one, the second. *)
Definition recalled_command (r : strtok_result) (cmd : ast_command) : ast_command :=
  command_with_argv (tok1 r :: match tok2 r with Some t => [t] | None => [] end) cmd.

(** The shell after a successful recall of the history entry [i] for
    stage [k] of the job at [a]. *)
Definition recalled (s : shell) (a : addr) (j : job) (k i : nat)
    (r : strtok_result) (cmd : ast_command) : shell :=
  set_out (out s ++ [Stdout ("Running command from history: " ++ cut_line r ++ NL)])
    (set_heap (<[a := job_with_pipe
                         (pipeline_with_commands
                            (<[k := recalled_command r cmd]> (commands (pipe j)))
                            (pipe j)) j]> (heap s))
       (set_history (<[i := cut_line r]> (history s)) s)).

(** The names [run_command] treats as builtins, and the commands it
    launches as programs: those whose name is no builtin and does not start
    with an exclamation mark. *)
Definition builtin_name (name : string) : bool :=
  String.eqb name "jobs" || String.eqb name "fg" || String.eqb name "bg"
  || String.eqb name "kill" || String.eqb name "exit" || String.eqb name "stop"
  || String.eqb name "cd" || String.eqb name "history".

Definition external (c : ast_command) : bool :=
  match argv c with
  | [] => false
  | name :: _ => negb (builtin_name name) && negb (Ascii.eqb (char_at name 0) "!"%char)
  end.

(** The process group requested by each [posix_spawnp] of a log, and the
    texts printed to stdout, in order. *)
Fixpoint spawn_groups (l : list event) : list Z :=
  match l with
  | [] => []
  | Spawn _ _ g _ :: rest => g :: spawn_groups rest
  | _ :: rest => spawn_groups rest
  end.

Fixpoint stdout_texts (l : list event) : list string :=
  match l with
  | [] => []
  | Stdout t :: rest => t :: stdout_texts rest
  | _ :: rest => stdout_texts rest
  end.

(** The [posix_spawnp] calls of a log, in order, and the argument vector of
    each. *)
Fixpoint spawn_events (l : list event) : list event :=
  match l with
  | [] => []
  | Spawn args acts g tc :: rest => Spawn args acts g tc :: spawn_events rest
  | _ :: rest => spawn_events rest
  end.

Fixpoint spawn_args (l : list event) : list (list string) :=
  match l with
  | [] => []
  | Spawn args _ _ _ :: rest => args :: spawn_args rest
  | _ :: rest => spawn_args rest
  end.

(** The calls that launch the commands [cmds] as the stages [k], [k + 1],
    ... of the pipeline [p]: stage by stage the argument vector of that
    command, its redirections (the read end of the previous pipe on stdin, the
    write end of its own pipe on stdout, the files of the pipeline at the two
    ends), the process group to join, and whether the terminal goes to the
    group.  [fdl] are the pipes as [pipe2] hands them out, [pidl] the pids as
    [posix_spawnp] hands them out. *)
Fixpoint launches (p : ast_pipeline) (cmds : list ast_command) (k : nat)
    (gid prev_fd : Z) (fdl : list (Z * Z)) (pidl : list pid_t) : list event :=
  match cmds, pidl with
  | cmd :: rest, pid :: pidl' =>
      let last := is_last rest in
      let fd := if last then (-1, -1) else hd (-1, -1) fdl in
      Spawn (argv cmd) (file_actions p cmd k last prev_fd fd.2)
            (match k with O => 0 | S _ => gid end) (negb (bg_job p))
        :: launches p rest (S k) (match k with O => pid | S _ => gid end)
             (if last then prev_fd else fd.1) (if last then fdl else tail fdl) pidl'
  | _, _ => []
  end.

(** The record of a job after stage [k] was launched as process [pid]. *)
Definition launched (bg : bool) (k : nat) (pid : pid_t) (cells : list pid_t) (j : job) : job :=
  job_with_status (if bg then BACKGROUND else FOREGROUND)
    (job_with_alive (num_processes_alive j + 1)
       (job_with_pids (Some (<[k := pid]> cells))
          (match k with O => job_with_pgid pid j | S _ => j end))).

(** What launching the stages [k], [k + 1], ... as the processes [pidl]
    has done to the job at [a] and to the log. *)
Definition stages_launched (bg : bool) (a : addr) (k : nat) (gid : Z)
    (pidl : list pid_t) (j : job) (cells : list pid_t) (s s' : shell) : Prop :=
  (exists j',
     heap s' = <[a := j']> (heap s) /\
     jid j' = jid j /\ pipe j' = pipe j /\
     termStateIsSaved j' = termStateIsSaved j /\
     pids j' = Some (take k cells ++ pidl ++ drop (k + length pidl) cells)%list /\
     num_processes_alive j' = num_processes_alive j + Z.of_nat (length pidl) /\
     pgid j' = match k, pidl with O, pid :: _ => pid | _, _ => pgid j end /\
     status j' = match pidl with
                 | [] => status j
                 | _ => if bg then BACKGROUND else FOREGROUND
                 end /\
     stdout_texts (out s') =
       (stdout_texts (out s)
          ++ if bg then replicate (length pidl) (bg_line j') else [])%list) /\
  jid2job s' = jid2job s /\ job_list s' = job_list s /\ history s' = history s /\
  sigchld_blocked s' = sigchld_blocked s /\
  spawn_groups (out s') =
    (spawn_groups (out s)
       ++ match k, pidl with
          | O, pid :: rest => 0 :: replicate (length rest) pid
          | _, _ => replicate (length pidl) gid
          end)%list.

(** [cat | cat &], registered as job 1, before its stages are launched. *)
Definition two_cats : ast_pipeline := pipeline_of [["cat"]; ["cat"]] true.

Definition two_cats_submitted : shell :=
  submitted (empty_shell (sample_answers [Some 100; Some 101])) two_cats
    1%positive stale_job 1 [] [] [].

(** A foreground pipeline of one program that cannot be launched,
    registered as job 1. *)
Definition nonexistent_submitted : shell :=
  submitted (empty_shell (sample_answers [None])) (pipeline_of [["nonexistent"]] false)
    1%positive stale_job 1 [] [] [].



(** * Properties *)

(** ** Proof tools *)

Lemma set_out_id (s : shell) : set_out (out s) s = s.
Proof. by destruct s. Qed.

Lemma set_out_set_out (o1 o2 : list event) (s : shell) :
  set_out o2 (set_out o1 s) = set_out o2 s.
Proof. done. Qed.

(** Running a sequence: one equation per basic action. *)
Section Run.
Context {B : Type}.
Implicit Types (k : unit -> M B) (s : shell).

Lemma bind_assoc {A C} (m : M A) (f : A -> M C) (g : C -> M B) s :
  bind (bind m f) g s = bind m (fun x => bind (f x) g) s.
Proof. unfold bind. by destruct (m s). Qed.

Lemma bind_ret {A} (x : A) (f : A -> M B) s : bind (ret x) f s = f x s.
Proof. done. Qed.

Lemma bind_emit e k s : bind (emit e) k s = k tt (set_out (out s ++ [e]) s).
Proof. done. Qed.

Lemma bind_load a j (f : job -> M B) s :
  heap s !! a = Some j -> bind (load a) f s = f j s.
Proof. intros H. unfold bind, load. by rewrite H. Qed.

Lemma bind_store a j k s :
  bind (store a j) k s = k tt (set_heap (<[a := j]> (heap s)) s).
Proof. done. Qed.

Lemma bind_modify a j (f : job -> job) k s :
  heap s !! a = Some j ->
  bind (modify a f) k s = k tt (set_heap (<[a := f j]> (heap s)) s).
Proof. intros H. unfold modify. rewrite bind_assoc. by rewrite (bind_load a j). Qed.

Lemma bind_print_job a j k s :
  heap s !! a = Some j ->
  bind (print_job a) k s = k tt (set_out (out s ++ [Stdout (job_line j)]) s).
Proof. intros H. unfold print_job. rewrite bind_assoc. by rewrite (bind_load a j). Qed.

Lemma bind_print_bg a j k s :
  heap s !! a = Some j ->
  bind (print_bg a) k s = k tt (set_out (out s ++ [Stdout (bg_line j)]) s).
Proof. intros H. unfold print_bg. rewrite bind_assoc. by rewrite (bind_load a j). Qed.

Lemma bind_killpg pgrp sig r rest (f : Z -> M B) s :
  killpg_results (env s) = r :: rest ->
  bind (killpg pgrp sig) f s =
    f r (set_env (set_killpg_results rest (env s))
           (set_out (out s ++ [Killpg pgrp sig]) s)).
Proof.
  intros H. unfold killpg. rewrite bind_assoc, bind_emit.
  unfold bind. cbn [env set_out]. by rewrite H.
Qed.

Lemma bind_signal_block k s :
  bind signal_block k s =
    k tt (set_blocked true (set_out (out s ++ [SignalBlock]) s)).
Proof. done. Qed.

Lemma bind_signal_unblock k s :
  bind signal_unblock k s =
    k tt (set_blocked false (set_out (out s ++ [SignalUnblock]) s)).
Proof. done. Qed.
End Run.

(** Lookups in a state that was just written. *)
Ltac solve_lookup :=
  cbn [heap out env job_list jid2job history sigchld_blocked
       set_heap set_out set_env set_job_list set_jid2job set_history set_blocked
       killpg_results set_killpg_results];
  first [ eassumption | apply lookup_insert_eq
        | rewrite lookup_insert_ne by done; eassumption ].

Lemma repeat_m_emit (n : nat) (e : event) (s : shell) :
  repeat_m n (emit e) s = Ok tt (set_out (out s ++ replicate n e) s).
Proof.
  revert s; induction n as [|n IH]; intros s; simpl.
  - by rewrite app_nil_r, set_out_id.
  - unfold bind at 1. unfold emit at 1. rewrite IH. simpl.
    by rewrite set_out_set_out, <- app_assoc.
Qed.

(** ** What the reconciler, the waiter and the handler leave alone *)

Lemma modify_run (a : addr) (j : job) (f : job -> job) (s : shell) :
  heap s !! a = Some j ->
  modify a f s = Ok tt (set_heap (<[a := f j]> (heap s)) s).
Proof. intros H. unfold modify. by rewrite (bind_load a j). Qed.

Ltac mrun :=
  repeat first
    [ rewrite bind_assoc | rewrite bind_ret | rewrite bind_emit
    | rewrite bind_store
    | erewrite bind_load by solve_lookup
    | erewrite bind_modify by solve_lookup
    | erewrite bind_print_job by solve_lookup
    | erewrite modify_run by solve_lookup ];
  unfold emit, ret, store.

Lemma on_child_status_runs (a : addr) (j : job) (st : wait_status) (s : shell) :
  heap s !! a = Some j ->
  on_child_status a st s =
    Ok tt (set_out (out s ++ transition_events st (tty s) j)
             (set_heap (<[a := transition st (tty s) j]> (heap s)) s)).
Proof.
  intros Hj. destruct st as [code|sig|sig|];
    cbn [on_child_status transition transition_events].
  - rewrite (bind_load a j) by done.
    destruct (status j =? FOREGROUND); mrun.
    + destruct s; cbn. by rewrite <- app_assoc.
    + destruct s; cbn. by rewrite app_nil_r.
  - rewrite (bind_modify a j) by done.
    destruct (fatal_signal_message sig); mrun; [done|].
    destruct s; cbn. by rewrite app_nil_r.
  - rewrite (bind_load a j) by done.
    destruct (status j =? FOREGROUND).
    + unfold bind at 1. cbv beta.
      rewrite (modify_run a j) by done.
      destruct (sig =? SIGTSTP); mrun;
        destruct s; cbn; by rewrite ?insert_insert_eq, <- ?app_assoc.
    + destruct (sig =? SIGTSTP); mrun;
        destruct s; cbn; by rewrite ?insert_insert_eq, <- ?app_assoc.
  - rewrite (bind_load a j) by done.
    destruct ((status j =? STOPPED) || (status j =? NEEDSTERMINAL)); mrun.
    + destruct s; cbn. by rewrite app_nil_r.
    + destruct s; cbn in *. by rewrite app_nil_r, insert_id.
Qed.

Lemma transition_same_fields (st : wait_status) (t : termios) (j : job) :
  jid (transition st t j) = jid j /\ pipe (transition st t j) = pipe j /\
  pgid (transition st t j) = pgid j /\ pids (transition st t j) = pids j /\
  num_processes_alive (transition st t j) <= num_processes_alive j.
Proof.
  destruct st as [code|sig|sig|]; cbn [transition].
  - cbn. repeat split; lia.
  - cbn. repeat split; lia.
  - destruct (status j =? FOREGROUND); cbn; repeat split; lia.
  - destruct ((status j =? STOPPED) || (status j =? NEEDSTERMINAL)); cbn;
      repeat split; lia.
Qed.

Lemma same_jobs_refl (s : shell) : same_jobs s s.
Proof.
  repeat split; try done. intros b j Hj. exists j. repeat split; [done..|lia].
Qed.

Lemma same_jobs_trans (s1 s2 s3 : shell) :
  same_jobs s1 s2 -> same_jobs s2 s3 -> same_jobs s1 s3.
Proof.
  intros (Ht & Hl & Hh & Hn & Hs) (Ht' & Hl' & Hh' & Hn' & Hs').
  split; [congruence|]. split; [congruence|]. split; [congruence|].
  split; [by auto|].
  intros b j Hj. destruct (Hs b j Hj) as (j2 & Hj2 & ? & ? & ? & ? & ?).
  destruct (Hs' b j2 Hj2) as (j3 & Hj3 & ? & ? & ? & ? & ?).
  exists j3. repeat split; [done|congruence..|lia].
Qed.

Lemma same_jobs_set_out (o : list event) (s : shell) : same_jobs s (set_out o s).
Proof.
  split; [done|]. split; [done|]. split; [done|]. split; [done|].
  intros b j Hj. exists j. repeat split; [done..|lia].
Qed.

Lemma same_jobs_same_heap (s s' : shell) :
  jid2job s' = jid2job s -> job_list s' = job_list s -> history s' = history s ->
  heap s' = heap s -> same_jobs s s'.
Proof.
  intros H1 H2 H3 H4. split; [done|]. split; [done|]. split; [done|].
  rewrite H4. split; [done|].
  intros b j Hj. exists j. repeat split; [done..|lia].
Qed.

Lemma same_jobs_consistent (s s' : shell) :
  same_jobs s s' -> registry_consistent s -> registry_consistent s'.
Proof.
  intros (Ht & _ & _ & _ & Hs) Hcons i a. rewrite Ht. intros Hi.
  destruct (Hcons _ _ Hi) as (j & Hj & Hid).
  destruct (Hs a j Hj) as (j' & Hj' & Hid' & _). exists j'. split; [done|congruence].
Qed.

(** The steps of a sequence: when every step relates the state it starts in
    to the state it ends in, whether it returned or halted, so does the
    sequence. *)
Lemma same_jobs_bind {A B} (m : M A) (k : A -> M B) (s : shell) :
  same_jobs s (final_state (m s)) ->
  (forall x s1, m s = Ok x s1 -> same_jobs s1 (final_state (k x s1))) ->
  same_jobs s (final_state (bind m k s)).
Proof.
  intros Hm Hk. unfold bind. destruct (m s) as [x s1|h s1]; [|done].
  eapply same_jobs_trans; [exact Hm|]. by apply Hk.
Qed.

Lemma same_jobs_returned {A} (m : M A) (x : A) (s s' : shell) :
  same_jobs s (final_state (m s)) -> m s = Ok x s' -> same_jobs s s'.
Proof. intros H E. by rewrite E in H. Qed.

Lemma on_child_status_final (a : addr) (st : wait_status) (s : shell) :
  same_jobs s (final_state (on_child_status a st s)).
Proof.
  destruct (heap s !! a) as [j|] eqn:Hj.
  - rewrite (on_child_status_runs a j st s Hj). cbn [final_state].
    split; [done|]. split; [done|]. split; [done|].
    cbn [heap set_out set_heap]. split.
    + intros b Hb. rewrite lookup_insert_ne; [done|]. congruence.
    + intros b jb Hb. destruct (decide (a = b)) as [->|Hne].
      * rewrite lookup_insert_eq. assert (jb = j) as -> by congruence.
        eexists. split; [done|]. apply transition_same_fields.
      * rewrite lookup_insert_ne by done. exists jb. repeat split; [done..|lia].
  - destruct st; cbn [on_child_status]; unfold modify, bind, load; rewrite Hj;
      apply same_jobs_refl.
Qed.

Lemma scan_pids_final (a : addr) (pid : Z) (st : wait_status) (i n : nat) (s : shell) :
  same_jobs s (final_state (scan_pids a pid st i n s)).
Proof.
  revert i s. induction n as [|n IH]; intros i s; cbn [scan_pids].
  - apply same_jobs_refl.
  - unfold bind at 1, load. destruct (heap s !! a) as [j|]; [|apply same_jobs_refl].
    destruct (pids j) as [cells|]; [|apply same_jobs_refl].
    apply same_jobs_bind; [|intros; apply IH].
    destruct (read_cell s a cells i =? pid);
      [apply on_child_status_final|apply same_jobs_refl].
Qed.

Lemma scan_jobs_final (l : list addr) (pid : Z) (st : wait_status) (s : shell) :
  same_jobs s (final_state (scan_jobs l pid st s)).
Proof.
  revert s. induction l as [|a l IH]; intros s; cbn [scan_jobs].
  - apply same_jobs_refl.
  - apply same_jobs_bind; [apply scan_pids_final|intros; apply IH].
Qed.

Lemma handle_child_status_final (pid : Z) (st : wait_status) (s : shell) :
  same_jobs s (final_state (handle_child_status pid st s)).
Proof.
  unfold handle_child_status. destruct (job_list s) as [|a l] eqn:E.
  - apply same_jobs_set_out.
  - apply scan_jobs_final.
Qed.

Lemma waitpid_final (s : shell) : same_jobs s (final_state (waitpid s)).
Proof.
  unfold waitpid. rewrite bind_emit. cbn [env set_out].
  destruct (waitpid_results (env s)); by apply same_jobs_same_heap.
Qed.

Lemma wait_loop_final (fuel : nat) (a : addr) (s : shell) :
  same_jobs s (final_state (wait_loop fuel a s)).
Proof.
  revert s. induction fuel as [|fuel IH]; intros s; cbn [wait_loop];
    [apply same_jobs_refl|].
  unfold bind at 1, load.
  destruct (heap s !! a) as [j|] eqn:Hj; [|apply same_jobs_refl].
  destruct ((status j =? FOREGROUND) && (0 <? num_processes_alive j));
    [|apply same_jobs_refl].
  apply same_jobs_bind; [apply waitpid_final|]. intros r s1 _.
  destruct (negb (r.1 =? -1)).
  - apply same_jobs_bind; [apply handle_child_status_final|intros; apply IH].
  - by apply same_jobs_same_heap.
Qed.

Lemma wait_for_job_final (a : addr) (s : shell) :
  same_jobs s (final_state (wait_for_job a s)).
Proof.
  unfold wait_for_job.
  apply same_jobs_bind; [destruct (sigchld_blocked s); apply same_jobs_refl|].
  intros _ s1 _. apply same_jobs_bind; [apply wait_loop_final|].
  intros _ s2 _. by apply same_jobs_same_heap.
Qed.

Lemma sigchld_drain_final (fuel : nat) (s : shell) :
  same_jobs s (final_state (sigchld_drain fuel s)).
Proof.
  revert s. induction fuel as [|fuel IH]; intros s; cbn [sigchld_drain];
    [apply same_jobs_refl|].
  destruct (waitpid_results (env s)) as [|r0 rest] eqn:E; [apply same_jobs_refl|].
  apply same_jobs_bind; [apply waitpid_final|]. intros r s1 _.
  destruct (0 <? r.1).
  - apply same_jobs_bind; [apply handle_child_status_final|intros; apply IH].
  - apply same_jobs_refl.
Qed.

Lemma on_child_status_same_jobs (a : addr) (st : wait_status) (s s' : shell) :
  on_child_status a st s = Ok tt s' -> same_jobs s s'.
Proof. apply same_jobs_returned, on_child_status_final. Qed.

Lemma scan_pids_same_jobs (a : addr) (pid : Z) (st : wait_status) (i n : nat)
    (s s' : shell) :
  scan_pids a pid st i n s = Ok tt s' -> same_jobs s s'.
Proof. apply same_jobs_returned, scan_pids_final. Qed.

Lemma scan_jobs_same_jobs (l : list addr) (pid : Z) (st : wait_status) (s s' : shell) :
  scan_jobs l pid st s = Ok tt s' -> same_jobs s s'.
Proof. apply same_jobs_returned, scan_jobs_final. Qed.

Lemma handle_child_status_same_jobs (pid : Z) (st : wait_status) (s s' : shell) :
  handle_child_status pid st s = Ok tt s' -> same_jobs s s'.
Proof. apply same_jobs_returned, handle_child_status_final. Qed.

Lemma wait_loop_same_jobs (fuel : nat) (a : addr) (s s' : shell) :
  wait_loop fuel a s = Ok tt s' -> same_jobs s s'.
Proof. apply same_jobs_returned, wait_loop_final. Qed.

Lemma wait_for_job_same_jobs (a : addr) (s s' : shell) :
  wait_for_job a s = Ok tt s' -> same_jobs s s'.
Proof. apply same_jobs_returned, wait_for_job_final. Qed.

Lemma sigchld_drain_same_jobs (fuel : nat) (s s' : shell) :
  sigchld_drain fuel s = Ok tt s' -> same_jobs s s'.
Proof. apply same_jobs_returned, sigchld_drain_final. Qed.

(** The reconciler returns whenever every job of the list is an allocated
    record with a pid array. *)
Lemma jobs_allocated_same_jobs (s s' : shell) :
  same_jobs s s' -> jobs_allocated s -> jobs_allocated s'.
Proof.
  intros (_ & Hl & _ & _ & Hs) Ha b Hb. rewrite Hl in Hb.
  destruct (Ha b Hb) as (j & cells & Hj & Hc).
  destruct (Hs b j Hj) as (j' & Hj' & _ & _ & _ & Hp & _).
  exists j', cells. split; [done|congruence].
Qed.

Lemma scan_pids_returns (a : addr) (pid : Z) (st : wait_status) (i n : nat) (s : shell) :
  (exists j cells, heap s !! a = Some j /\ pids j = Some cells) ->
  exists s', scan_pids a pid st i n s = Ok tt s'.
Proof.
  revert i s. induction n as [|n IH]; intros i s (j & cells & Hj & Hc);
    cbn [scan_pids]; [by eexists|].
  rewrite (bind_load a j) by done. rewrite Hc. cbv beta iota.
  unfold bind at 1. destruct (read_cell s a cells i =? pid).
  - rewrite (on_child_status_runs a j st s Hj). apply IH.
    exists (transition st (tty s) j), cells. split; [solve_lookup|].
    destruct (transition_same_fields st (tty s) j) as (_ & _ & _ & Hp & _). congruence.
  - unfold ret at 1. apply IH. eauto.
Qed.

Lemma scan_jobs_returns (l : list addr) (pid : Z) (st : wait_status) (s : shell) :
  (forall b, b ∈ l -> exists j cells, heap s !! b = Some j /\ pids j = Some cells) ->
  exists s', scan_jobs l pid st s = Ok tt s'.
Proof.
  revert s. induction l as [|a l IH]; intros s Hl; cbn [scan_jobs]; [by eexists|].
  destruct (scan_pids_returns a pid st 0 sizeof_pids s) as [s1 H1];
    [apply Hl; by left|].
  unfold bind at 1. rewrite H1. apply IH. intros b Hb.
  destruct (Hl b) as (j & cells & Hj & Hc); [by right|].
  apply scan_pids_same_jobs in H1 as (_ & _ & _ & _ & Hs).
  destruct (Hs b j Hj) as (j' & Hj' & _ & _ & _ & Hp & _).
  exists j', cells. split; [done|congruence].
Qed.

Lemma handle_child_status_returns (pid : Z) (st : wait_status) (s : shell) :
  jobs_allocated s -> exists s', handle_child_status pid st s = Ok tt s'.
Proof.
  intros Ha. unfold handle_child_status. destruct (job_list s) as [|a l] eqn:E.
  - by eexists.
  - apply scan_jobs_returns. intros b Hb. apply Ha. by rewrite E.
Qed.

Lemma sigchld_drain_returns (fuel : nat) (s : shell) :
  jobs_allocated s -> exists s', sigchld_drain fuel s = Ok tt s'.
Proof.
  revert s. induction fuel as [|fuel IH]; intros s Ha; cbn [sigchld_drain];
    [by eexists|].
  destruct (waitpid_results (env s)) as [|r rest] eqn:E; [by eexists|].
  unfold waitpid. rewrite bind_assoc, bind_emit. unfold bind at 1.
  cbn [env set_out]. rewrite E.
  set (s1 := set_env _ _).
  assert (jobs_allocated s1) as Ha1 by exact Ha.
  destruct (0 <? r.1); [|by eexists].
  destruct (handle_child_status_returns r.1 r.2 s1 Ha1) as [s2 H2].
  unfold bind at 1. rewrite H2. apply IH.
  eapply jobs_allocated_same_jobs; [by eapply handle_child_status_same_jobs|done].
Qed.

Lemma stopped_shell_allocated : jobs_allocated stopped_shell.
Proof.
  intros a Ha. cbn [job_list stopped_shell] in Ha.
  apply list_elem_of_singleton in Ha as ->. by exists stopped_job, [100].
Qed.

(** ** The registry *)

Lemma first_free_found (t : gmap Z addr) (lo i : Z) (n : nat) :
  lo <= i < lo + Z.of_nat n ->
  t !! i = None ->
  (forall k, lo <= k < i -> is_Some (t !! k)) ->
  first_free t lo n = Some i.
Proof.
  revert lo; induction n as [|n IH]; intros lo Hr Hi Hlt; simpl.
  - lia.
  - destruct (decide (lo = i)) as [->|Hne].
    + by rewrite Hi.
    + destruct (Hlt lo) as [b Hb]; [lia|]. rewrite Hb.
      apply IH; [lia|done|]. intros k Hk. apply Hlt. lia.
Qed.

Lemma first_free_full (t : gmap Z addr) (lo : Z) (n : nat) :
  (forall k, lo <= k < lo + Z.of_nat n -> is_Some (t !! k)) ->
  first_free t lo n = None.
Proof.
  revert lo; induction n as [|n IH]; intros lo H; simpl; [done|].
  destruct (H lo) as [b Hb]; [lia|]. rewrite Hb.
  apply IH. intros k Hk. apply H. lia.
Qed.

Lemma first_free_least (t : gmap Z addr) (lo i : Z) (n : nat) :
  first_free t lo n = Some i ->
  lo <= i < lo + Z.of_nat n /\ t !! i = None /\
  (forall k, lo <= k < i -> is_Some (t !! k)).
Proof.
  revert lo; induction n as [|n IH]; intros lo; simpl; [done|].
  destruct (t !! lo) as [b|] eqn:Hlo.
  - intros H. destruct (IH _ H) as (Hr & Hi & Hlt).
    split; [lia|]. split; [done|].
    intros k Hk. destruct (decide (k = lo)) as [->|]; [by eexists|].
    apply Hlt. lia.
  - intros [= <-]. split; [lia|]. split; [done|]. intros k Hk. lia.
Qed.

(** ** kill *)

(** C9, as the claim states it, fails: job 1 is registered but none of its
    processes is counted as alive any more; [kill 1] marks it [STOPPED] and
    sends no signal at all. *)
Lemma kill_builtin_sends_no_signal_to_finished_job :
  exists s' j',
    get_job_from_jid 1 finished_shell = Some 1%positive /\
    kill_builtin (command_of ["kill"; "1"]) finished_shell = Ok tt s' /\
    heap s' !! 1%positive = Some j' /\
    status j' = STOPPED /\
    out s' = [].
Proof. eexists _, _. repeat split; vm_compute; reflexivity. Qed.

(** C9, as the code has it.  [kill <id>] for an id of a consistent
    registry: the job's status becomes [STOPPED] and every other field of the
    record stays; SIGKILL goes to its process group once per process the
    shell counts as alive, so not at all when that count is zero or below;
    nothing else of the shell changes. *)
Theorem kill_builtin_marks_stopped
    (s : shell) (cmd : ast_command) (arg : string) (a : addr) (j : job) :
  registry_consistent s ->
  argv cmd !! 1%nat = Some arg ->
  get_job_from_jid (atoi arg) s = Some a ->
  heap s !! a = Some j ->
  exists j',
    kill_builtin cmd s =
      Ok tt (set_out (out s ++ replicate (Z.to_nat (num_processes_alive j))
                                  (Killpg (pgid j) SIGKILL))
               (set_heap (<[a := j']> (heap s)) s)) /\
    status j' = STOPPED /\
    pipe j' = pipe j /\ jid j' = jid j /\
    num_processes_alive j' = num_processes_alive j /\
    saved_tty_state j' = saved_tty_state j /\
    termStateIsSaved j' = termStateIsSaved j /\
    pgid j' = pgid j /\ pids j' = pids j /\
    (num_processes_alive j <= 0 ->
     kill_builtin cmd s = Ok tt (set_heap (<[a := j']> (heap s)) s)).
Proof.
  intros Hcons Harg Hget Hj.
  assert (jid j = atoi arg) as Hjid.
  { unfold get_job_from_jid in Hget.
    destruct ((0 <? atoi arg) && (atoi arg <? MAXJOBS)); [|done].
    destruct (Hcons _ _ Hget) as (j0 & Hj0 & Hid). congruence. }
  assert (kill_builtin cmd s =
            Ok tt (set_out (out s ++ replicate (Z.to_nat (num_processes_alive j))
                                        (Killpg (pgid j) SIGKILL))
                     (set_heap (<[a := job_with_status STOPPED j]> (heap s)) s))) as Hrun.
  { unfold kill_builtin, signal_job. rewrite Harg, Hget.
    rewrite (bind_load a j) by done. rewrite Hjid, Z.eqb_refl.
    rewrite (bind_modify a j) by done.
    unfold killpg_. by rewrite repeat_m_emit. }
  exists (job_with_status STOPPED j). split; [exact Hrun|].
  repeat (split; [reflexivity|]).
  intros Hle. rewrite Hrun. replace (Z.to_nat (num_processes_alive j)) with O by lia.
  cbn [replicate]. rewrite app_nil_r. by destruct s.
Qed.

(** The witness: a background job with eight processes alive. *)
Lemma kill_builtin_marks_stopped_witness :
  exists j',
    kill_builtin (command_of ["kill"; "1"]) (wide_shell 8) =
      Ok tt (set_out (out (wide_shell 8)
                        ++ replicate (Z.to_nat (num_processes_alive (wide_job 8 101)))
                             (Killpg (pgid (wide_job 8 101)) SIGKILL))
               (set_heap (<[1%positive := j']> (heap (wide_shell 8))) (wide_shell 8))) /\
    status (wide_job 8 101) = BACKGROUND /\
    status j' = STOPPED.
Proof.
  destruct (kill_builtin_marks_stopped (wide_shell 8) (command_of ["kill"; "1"])
              "1" 1%positive (wide_job 8 101)) as (j' & Hrun & Hst & _).
  - intros i a. cbn [jid2job heap wide_shell]. intros H.
    apply lookup_singleton_Some in H as [<- <-].
    exists (wide_job 8 101). split; reflexivity.
  - reflexivity.
  - reflexivity.
  - reflexivity.
  - exists j'. split; [exact Hrun|]. split; [reflexivity|exact Hst].
Defined.

(** ** The waiter on a job that is not in the foreground *)


(** ** fg *)

(** C7, as the claim states it, fails: when the continue signal cannot be
    delivered, [fg 1] has handed over the terminal and printed the job, and
    then the shell dies in [utils_fatal_error]; the waiter is not entered: no
    [waitpid] is made, the terminal is not taken back and SIGCHLD stays
    blocked. *)
Lemma fg_builtin_dies_when_signal_fails :
  exists s',
    get_job_from_jid 1 stopped_shell_refused = Some 1%positive /\
    fg_builtin (command_of ["fg"; "1"]) stopped_shell_refused = Halt HFatal s' /\
    out s' = [GiveTerminalTo (Some (Termios 5)) 100;
              Stdout ("[1]" ++ TAB ++ "Foreground" ++ TAB ++ TAB ++ "(sleep 100)" ++ NL);
              Killpg 100 SIGCONT;
              Stderr "kill pgid failed 100"] /\
    sigchld_blocked s' = true /\
    waitpid_results (env s') = [(100, WExited 0)].
Proof. eexists. repeat split; vm_compute; reflexivity. Qed.

(** C7, as the code has it.  [fg <id>] for an id of the registry, [r] being
    the answer of [killpg]: the job becomes [FOREGROUND]; the terminal goes to
    its process group, with the saved snapshot if the job holds one and
    without a snapshot otherwise; the record no longer holds a snapshot and
    every other field stays; the job is printed as a foreground job and
    SIGCONT is sent to the process group.  If the signal was delivered
    ([r = 0]) the shell enters the foreground waiter for this job; if not, it
    prints a diagnostic and dies without entering the waiter. *)
Theorem fg_builtin_hands_over_terminal
    (s : shell) (cmd : ast_command) (arg : string) (a : addr) (j : job)
    (r : Z) (rest : list Z) :
  argv cmd !! 1%nat = Some arg ->
  get_job_from_jid (atoi arg) s = Some a ->
  heap s !! a = Some j ->
  killpg_results (env s) = r :: rest ->
  exists (j' : job) (s1 : shell),
    status j' = FOREGROUND /\
    termStateIsSaved j' = false /\
    pipe j' = pipe j /\ jid j' = jid j /\
    num_processes_alive j' = num_processes_alive j /\
    saved_tty_state j' = saved_tty_state j /\
    pgid j' = pgid j /\ pids j' = pids j /\
    s1 = set_env (set_killpg_results rest (env s))
           (set_out (out s ++ [GiveTerminalTo
                                 (if termStateIsSaved j
                                  then Some (saved_tty_state j) else None)
                                 (pgid j);
                               Stdout ("[" ++ pretty (jid j) ++ "]" ++ TAB
                                         ++ "Foreground" ++ TAB ++ TAB
                                         ++ "(" ++ print_cmdline (pipe j) ++ ")" ++ NL);
                               Killpg (pgid j) SIGCONT])
              (set_heap (<[a := j']> (heap s)) s)) /\
    fg_builtin cmd s =
      if r =? 0 then wait_for_job a s1
      else Halt HFatal
             (set_out (out s1 ++ [Stderr ("kill pgid failed " ++ pretty (pgid j))]) s1).
Proof.
  intros Harg Hget Hj Hk.
  exists (job_with_saved_flag false (job_with_status FOREGROUND j)). eexists.
  do 8 (split; [reflexivity|]). split; [reflexivity|].
  unfold fg_builtin. rewrite Harg, Hget.
  rewrite (bind_modify a j) by done.
  erewrite bind_load by solve_lookup.
  cbn [termStateIsSaved pgid saved_tty_state job_with_status].
  destruct (termStateIsSaved j) eqn:Hfl.
  - rewrite !bind_assoc, bind_emit.
    erewrite bind_modify by solve_lookup.
    erewrite bind_print_job by solve_lookup.
    erewrite bind_killpg by solve_lookup.
    destruct (r =? 0); cbn [negb];
      [|unfold utils_fatal_error; rewrite bind_emit; unfold stop]; f_equal;
      destruct s; cbn; by rewrite insert_insert_eq, <- !app_assoc.
  - rewrite bind_emit.
    erewrite bind_print_job by solve_lookup.
    erewrite bind_killpg by solve_lookup.
    destruct (r =? 0); cbn [negb];
      [|unfold utils_fatal_error; rewrite bind_emit; unfold stop]; f_equal;
      destruct s, j; cbn in *; subst; by rewrite <- !app_assoc.
Qed.

(** The witness: the stopped job [sleep 100], whose one process exits while
    the shell waits for it; [fg 1] returns. *)
Lemma fg_builtin_hands_over_terminal_witness :
  (exists (j' : job) (s1 : shell),
     status j' = FOREGROUND /\
     termStateIsSaved j' = false /\
     pipe j' = pipe stopped_job /\ jid j' = 1 /\
     num_processes_alive j' = 1 /\
     saved_tty_state j' = Termios 5 /\
     pgid j' = 100 /\ pids j' = Some [100] /\
     s1 = set_env (set_killpg_results [] (env stopped_shell))
            (set_out [GiveTerminalTo (Some (Termios 5)) 100;
                      Stdout ("[1]" ++ TAB ++ "Foreground" ++ TAB ++ TAB
                                ++ "(sleep 100)" ++ NL);
                      Killpg 100 SIGCONT]
               (set_heap (<[1%positive := j']> (heap stopped_shell)) stopped_shell)) /\
     fg_builtin (command_of ["fg"; "1"]) stopped_shell = wait_for_job 1%positive s1) /\
  termStateIsSaved stopped_job = true /\
  exists s', fg_builtin (command_of ["fg"; "1"]) stopped_shell = Ok tt s'.
Proof.
  split; [|split; [reflexivity|eexists; vm_compute; reflexivity]].
  apply (fg_builtin_hands_over_terminal stopped_shell (command_of ["fg"; "1"])
           "1" 1%positive stopped_job 0 []); reflexivity.
Defined.

(** ** bg *)




(** ** add_job *)

Lemma add_job_registers (s : shell) (p : ast_pipeline) (a : addr) (stale : job)
    (rest : list (addr * job)) (i : Z) :
  job_mallocs (env s) = (a, stale) :: rest ->
  first_free (jid2job s) 1 (Z.to_nat (MAXJOBS - 1)) = Some i ->
  add_job p s =
    Ok a (set_jid2job (<[i := a]> (jid2job s))
            (set_heap (<[a := job_with_jid i (fresh_job p stale)]> (heap s))
               (set_job_list (job_list s ++ [a])
                  (set_env (set_job_mallocs rest (env s)) s)))).
Proof.
  intros Hm Hf. unfold add_job, malloc_job, bind at 1. rewrite Hm.
  rewrite bind_store. unfold bind at 1.
  cbn [jid2job set_job_list set_heap set_env]. rewrite Hf.
  rewrite bind_store. destruct s; cbn. by rewrite insert_insert_eq.
Qed.

Lemma add_job_full (s : shell) (p : ast_pipeline) (a : addr) (stale : job)
    (rest : list (addr * job)) :
  job_mallocs (env s) = (a, stale) :: rest ->
  (forall i, 1 <= i < MAXJOBS -> is_Some (jid2job s !! i)) ->
  add_job p s =
    Halt HAbort
      (set_out (out s ++ [Stderr ("Maximum number of jobs exceeded" ++ NL)])
         (set_heap (<[a := fresh_job p stale]> (heap s))
            (set_job_list (job_list s ++ [a])
               (set_env (set_job_mallocs rest (env s)) s)))).
Proof.
  intros Hm Hfull. unfold add_job, malloc_job, bind at 1. rewrite Hm.
  rewrite bind_store. unfold bind at 1.
  cbn [jid2job set_job_list set_heap set_env].
  rewrite first_free_full.
  - by destruct s.
  - intros k Hk. apply Hfull. unfold MAXJOBS in *. lia.
Qed.

Lemma table_of_ids_lookup (l : list Z) (i : Z) :
  i ∈ l ->
  is_Some ((list_to_map ((fun i => (i, Z.to_pos i)) <$> l) : gmap Z addr) !! i).
Proof.
  intros Hi.
  destruct ((list_to_map ((fun i => (i, Z.to_pos i)) <$> l) : gmap Z addr) !! i)
    as [b|] eqn:E; [by eexists|].
  apply not_elem_of_list_to_map_2 in E. exfalso. apply E.
  rewrite <- list_fmap_compose. apply list_elem_of_fmap. by exists i.
Qed.

Lemma full_shell_is_full (i : Z) :
  1 <= i < MAXJOBS -> is_Some (jid2job full_shell !! i).
Proof.
  intros Hi. apply (table_of_ids_lookup all_ids i).
  apply elem_of_seqZ. unfold MAXJOBS in *. lia.
Qed.

(** C2, as the code has it.  When every id from 1 to MAXJOBS - 1 is taken,
    [add_job] links the new record into the job list, prints "Maximum number
    of jobs exceeded" on the error stream and aborts the shell process: the
    caller never gets a result. *)
Theorem add_job_aborts_when_full
    (s : shell) (p : ast_pipeline) (a : addr) (stale : job)
    (rest : list (addr * job)) :
  job_mallocs (env s) = (a, stale) :: rest ->
  (forall i, 1 <= i < MAXJOBS -> is_Some (jid2job s !! i)) ->
  exists s',
    add_job p s = Halt HAbort s' /\
    out s' = (out s ++ [Stderr ("Maximum number of jobs exceeded" ++ NL)%string])%list /\
    job_list s' = (job_list s ++ [a])%list /\
    jid2job s' = jid2job s.
Proof.
  intros Hm Hfull. eexists. split; [by apply add_job_full|]. done.
Qed.

Lemma add_job_aborts_when_full_witness :
  exists s',
    add_job (pipeline_of [["ls"]] false) full_shell = Halt HAbort s' /\
    out s' = (out full_shell ++ [Stderr ("Maximum number of jobs exceeded" ++ NL)%string])%list /\
    job_list s' = (job_list full_shell ++ [Z.to_pos MAXJOBS])%list /\
    jid2job s' = jid2job full_shell.
Proof.
  apply (add_job_aborts_when_full full_shell (pipeline_of [["ls"]] false)
           (Z.to_pos MAXJOBS) stale_job []).
  - reflexivity.
  - exact full_shell_is_full.
Defined.

(** C2, as the claim states it, fails: with the table full, job creation
    does not come back with an error the shell could recover from; the
    process is aborted. *)
Lemma add_job_full_is_not_recoverable :
  (exists s', add_job (pipeline_of [["ls"]] false) full_shell = Halt HAbort s') /\
  ~ (exists a s', add_job (pipeline_of [["ls"]] false) full_shell = Ok a s').
Proof.
  assert (H := add_job_full full_shell (pipeline_of [["ls"]] false)
                 (Z.to_pos MAXJOBS) stale_job [] eq_refl full_shell_is_full).
  split; [by eexists|]. intros (a & s' & Hok). congruence.
Qed.

(** ** The status reconciler: how far it scans *)

Lemma scan_pids_no_match (s : shell) (a : addr) (j : job) (cells : list pid_t)
    (pid : pid_t) (st : wait_status) (i n : nat) :
  heap s !! a = Some j ->
  pids j = Some cells ->
  (forall k, (i <= k < i + n)%nat -> exists p, cells !! k = Some p /\ p <> pid) ->
  scan_pids a pid st i n s = Ok tt s.
Proof.
  intros Hj Hc. revert i. induction n as [|n IH]; intros i Hk; simpl; [done|].
  rewrite (bind_load a j) by done. rewrite Hc. cbv beta iota.
  destruct (Hk i) as (p & Hp & Hne); [lia|].
  unfold bind at 1, read_cell. rewrite Hp.
  apply Z.eqb_neq in Hne. rewrite Hne. unfold ret at 1.
  apply IH. intros k Hk'. apply Hk. lia.
Qed.

Lemma scan_jobs_no_match (s : shell) (l : list addr) (pid : pid_t) (st : wait_status) :
  (forall a, a ∈ l -> exists j cells,
      heap s !! a = Some j /\ pids j = Some cells /\
      forall k, (k < sizeof_pids)%nat -> exists p, cells !! k = Some p /\ p <> pid) ->
  scan_jobs l pid st s = Ok tt s.
Proof.
  induction l as [|a l IH]; intros H; cbn [scan_jobs]; [done|].
  destruct (H a) as (j & cells & Hj & Hc & Hk); [by left|].
  unfold bind. rewrite (scan_pids_no_match s a j cells); [|done|done|].
  - apply IH. intros b Hb. apply H. by right.
  - intros k Hk'. apply Hk. lia.
Qed.

(** The reconciler never looks at a cell from index [sizeof_pids] on: a
    pid that is stored only there is not found, whatever the job list. *)
Lemma handle_child_status_ignores_late_cells (s : shell) (pid : pid_t) (st : wait_status) :
  job_list s <> [] ->
  (forall a, a ∈ job_list s -> exists j cells,
      heap s !! a = Some j /\ pids j = Some cells /\
      forall k, (k < sizeof_pids)%nat -> exists p, cells !! k = Some p /\ p <> pid) ->
  handle_child_status pid st s = Ok tt s.
Proof.
  intros Hne H. unfold handle_child_status.
  destruct (job_list s) as [|a l] eqn:E; [done|].
  by apply scan_jobs_no_match.
Qed.

(** C1: the code at a failing input.  A job of nine stages with the pids
    101 .. 109, all alive.  The exit of process 109, the ninth stage, is
    reported: the reconciler scans the eight cells [sizeof(job->pids)] allows,
    does not find 109 and changes nothing.  [num_processes_alive] stays 9
    while only 8 processes of the job have not been reported exited. *)
Theorem handle_child_status_underscans :
  handle_child_status 109 (WExited 0) (wide_shell 9) = Ok tt (wide_shell 9) /\
  (wide_job 9 101).(pids) = Some [101; 102; 103; 104; 105; 106; 107; 108; 109] /\
  heap (wide_shell 9) !! 1%positive = Some (wide_job 9 101) /\
  num_processes_alive (wide_job 9 101) = 9 /\
  not_yet_exited [109] (wide_job 9 101) = 8.
Proof.
  split; [|by vm_compute].
  apply handle_child_status_ignores_late_cells; [done|].
  intros a Ha. apply list_elem_of_singleton in Ha as ->.
  exists (wide_job 9 101), (seqZ 101 9). split; [done|]. split; [done|].
  intros k Hk. unfold sizeof_pids in Hk.
  exists (101 + Z.of_nat k). split; [|lia].
  apply lookup_seqZ. lia.
Qed.

(** The same loop on a job of one stage reads seven words past the end of
    the array.  When one of them happens to hold the reported pid, the exit is
    counted a second time: the count of the one live process goes from 1 to
    -1. *)
Lemma handle_child_status_overscans :
  exists s' j',
    handle_child_status 100 (WExited 0) stopped_shell_echo = Ok tt s' /\
    pids stopped_job = Some [100] /\
    num_processes_alive stopped_job = 1 /\
    heap s' !! 1%positive = Some j' /\
    num_processes_alive j' = -1.
Proof. eexists _, _. split; [vm_compute; reflexivity|]. by vm_compute. Qed.

(** C5: the code at a failing input.  A job of eight stages with the pids
    101 .. 108; a status arrives for pid 999, which no job owns.  The
    reconciler returns normally: nothing is printed, nothing changes. *)
Theorem handle_child_status_drops_unknown_pid :
  job_list (wide_shell 8) = [1%positive] /\
  (wide_job 8 101).(pids) = Some [101; 102; 103; 104; 105; 106; 107; 108] /\
  handle_child_status 999 (WExited 0) (wide_shell 8) = Ok tt (wide_shell 8).
Proof.
  split; [done|]. split; [done|].
  apply handle_child_status_ignores_late_cells; [done|].
  intros a Ha. apply list_elem_of_singleton in Ha as ->.
  exists (wide_job 8 101), (seqZ 101 8). split; [done|]. split; [done|].
  intros k Hk. unfold sizeof_pids in Hk.
  exists (101 + Z.of_nat k). split; [|lia].
  apply lookup_seqZ. lia.
Qed.

(** ** The pipeline executor at sample inputs *)

(** C3: the code at a failing input.  [cat | cat &] with both stages
    launched (pids 100 and 101): the announcement "[1] 100" is printed after
    each stage, twice in all. *)
Theorem run_command_announces_every_stage :
  exists s',
    run_command [pipeline_of [["cat"]; ["cat"]] true]
      (empty_shell (sample_answers [Some 100; Some 101])) = Ok tt s' /\
    out s' =
      [TermstateSample; SignalBlock;
       TermstateSample; Pipe2; Spawn ["cat"] [AddDup2 4 1] 0 false; Close 4;
       Stdout ("[1] 100" ++ NL);
       TermstateSample; Spawn ["cat"] [AddDup2 3 0] 100 false; Close 3; Close 3;
       Stdout ("[1] 100" ++ NL);
       SignalBlock; GiveTerminalBackToShell; SignalUnblock;
       SignalUnblock; GiveTerminalBackToShell] /\
    count_stdout ("[1] 100" ++ NL) (out s') = 2%nat.
Proof. eexists. split; [vm_compute; reflexivity|]. split; reflexivity. Qed.

(** C6: the code at a failing input.  A foreground pipeline of one stage
    whose program cannot be launched.  The failure is reported, SIGCHLD is
    unblocked, the record is freed and its id released, the terminal goes back
    to the shell; but the job list still holds the pointer to the freed
    record. *)
Theorem run_command_leaves_dangling_job :
  exists s',
    run_command [pipeline_of [["nonexistent"]] false]
      (empty_shell (sample_answers [None])) = Ok tt s' /\
    out s' = [TermstateSample; SignalBlock; TermstateSample;
              Spawn ["nonexistent"] [] 0 true; Perror "posix_spawnp failed";
              SignalUnblock; GiveTerminalBackToShell] /\
    jid2job s' = ∅ /\
    heap s' !! 1%positive = None /\
    job_list s' = [1%positive].
Proof. eexists. split; [vm_compute; reflexivity|]. by vm_compute. Qed.

(** What the dangling entry leads to: the next child status makes the
    reconciler walk the job list and read the freed record. *)
Lemma dangling_job_is_read_after_free :
  exists s' s'',
    run_command [pipeline_of [["nonexistent"]] false]
      (empty_shell (sample_answers [None])) = Ok tt s' /\
    handle_child_status 100 (WExited 0) s' = Halt HUndefined s''.
Proof. do 2 eexists. split; vm_compute; reflexivity. Qed.

(** C8: the code at a failing input.  With two lines in the history, [!-7]
    selects an entry that does not exist.  The [!-n] branch has no range
    check: it indexes the history at 3 - 7 - 2 = -6, before the array, and
    reports nothing. *)
Theorem history_recall_back_unchecked :
  exists s',
    run_command [pipeline_of [["!-7"]] false]
      (empty_shell (sample_answers [Some 100])) = Halt HUndefined s' /\
    out s' = [TermstateSample; SignalBlock; TermstateSample].
Proof. eexists. split; vm_compute; reflexivity. Qed.

(** ** Every pipeline gets its job before the builtin check *)


Lemma jobs_lines_set_out (s : shell) (o : list event) (i : Z) (n : nat) :
  jobs_lines (set_out o s) i n = jobs_lines s i n.
Proof. revert i; induction n as [|n IH]; intros i; cbn; [done|]. by rewrite IH. Qed.

Lemma jobs_loop_lines (s : shell) (i : Z) (n : nat) :
  registry_live s ->
  jobs_loop i n s = Ok tt (set_out (out s ++ jobs_lines s i n) s).
Proof.
  intros Hlive. revert s i Hlive. induction n as [|n IH]; intros s i Hlive.
  - cbn. by rewrite app_nil_r, set_out_id.
  - cbn [jobs_loop jobs_lines]. unfold bind.
    destruct (get_job_from_jid i s) as [a|] eqn:Hget.
    + assert (is_Some (heap s !! a)) as [j Hj].
      { unfold get_job_from_jid in Hget.
        destruct ((0 <? i) && (i <? MAXJOBS)); [|done]. by eapply Hlive. }
      unfold print_job. rewrite (bind_load a j) by done. rewrite Hj.
      unfold emit. rewrite IH by done.
      rewrite jobs_lines_set_out. cbn [out set_out].
      by rewrite set_out_set_out, <- app_assoc.
    + rewrite IH by done. done.
Qed.









(** ** add_job keeps the registry consistent *)

Lemma add_job_consistent (s s' : shell) (p : ast_pipeline) (a a' : addr)
    (stale : job) (rest : list (addr * job)) :
  registry_consistent s ->
  heap s !! a = None ->
  job_mallocs (env s) = (a, stale) :: rest ->
  add_job p s = Ok a' s' ->
  registry_consistent s'.
Proof.
  intros Hcons Hfresh Hm.
  destruct (first_free (jid2job s) 1 (Z.to_nat (MAXJOBS - 1))) as [i|] eqn:Hf.
  - rewrite (add_job_registers s p a stale rest i Hm Hf). intros [= <- <-].
    intros k b. cbn [jid2job heap set_jid2job set_heap].
    destruct (decide (k = i)) as [->|Hne].
    + rewrite lookup_insert_eq. intros [= <-]. rewrite lookup_insert_eq. by eexists.
    + rewrite lookup_insert_ne by done. intros Hk.
      destruct (Hcons _ _ Hk) as (j & Hj & Hid).
      rewrite lookup_insert_ne by congruence. by exists j.
  - unfold add_job, malloc_job, bind at 1. rewrite Hm.
    rewrite bind_store. unfold bind at 1.
    cbn [jid2job set_job_list set_heap set_env]. rewrite Hf. done.
Qed.

(** ** History recall: the checked branch *)

Lemma isdigit_not_minus (c : ascii) : isdigit c = true -> Ascii.eqb c "-"%char = false.
Proof.
  intros H. destruct (Ascii.eqb_spec c "-"%char) as [->|]; [|done].
  vm_compute in H. discriminate.
Qed.

(** [!n] with [n] below 1 or above the number of history lines: the recall
    reports the error and makes [run_command] return; neither the argument
    vector nor the history nor the registry is touched.  This is the range
    check that the [!-n] branch lacks. *)
Lemma history_recall_forward_checked (a : addr) (k : nat) (cmd : ast_command)
    (name : string) (s : shell) :
  isdigit (char_at name 1) = true ->
  history s <> [] ->
  atoi (string_from name 1) < 1 \/
    Z.of_nat (length (history s)) < atoi (string_from name 1) ->
  history_recall a k cmd name s =
    Ok None (set_out (out s ++ [Stderr ("Improper n-value for !n cmd" ++ NL)]) s).
Proof.
  intros Hd Hne Hrange. unfold history_recall.
  rewrite (isdigit_not_minus _ Hd), Hd. cbn [andb].
  unfold history_size, bind at 1.
  destruct (history s) as [|l h] eqn:E; [done|].
  destruct (history_guard_null s); cbn [negb Z.eqb]; [done|].
  replace (Z.of_nat (length (l :: h)) =? -1) with false by (symmetry; apply Z.eqb_neq; lia).
  cbn [negb].
  replace ((Z.of_nat (length (l :: h)) + 1 <=? atoi (string_from name 1))
           || (atoi (string_from name 1) <? 1)) with true; [done|].
  symmetry. apply orb_true_iff. destruct Hrange; [right|left]; lia.
Qed.

(** * Further properties of the code *)

(** ** The registry: create, delete, reuse *)

Lemma get_job_from_jid_lookup (s : shell) (i : Z) (a : addr) :
  get_job_from_jid i s = Some a -> 0 < i < MAXJOBS /\ jid2job s !! i = Some a.
Proof.
  unfold get_job_from_jid.
  destruct ((0 <? i) && (i <? MAXJOBS)) eqn:E; [|done].
  apply andb_true_iff in E as [H1 H2]. apply Z.ltb_lt in H1, H2. done.
Qed.

Lemma get_job_from_jid_in_range (s : shell) (i : Z) :
  0 < i < MAXJOBS -> get_job_from_jid i s = jid2job s !! i.
Proof.
  intros [H1 H2]. unfold get_job_from_jid.
  apply Z.ltb_lt in H1, H2. by rewrite H1, H2.
Qed.

Lemma get_job_from_jid_same_table (s s' : shell) (i : Z) :
  jid2job s' !! i = jid2job s !! i -> get_job_from_jid i s' = get_job_from_jid i s.
Proof. unfold get_job_from_jid. by intros ->. Qed.

Lemma add_job_takes_smallest_free_id_aux
    (s : shell) (p : ast_pipeline) (a : addr) (stale : job)
    (rest : list (addr * job)) (i : Z) :
  job_mallocs (env s) = (a, stale) :: rest ->
  1 <= i < MAXJOBS ->
  jid2job s !! i = None ->
  (forall k, 1 <= k < i -> is_Some (jid2job s !! k)) ->
  exists s' j,
    add_job p s = Ok a s' /\
    get_job_from_jid i s' = Some a /\
    heap s' !! a = Some j /\
    jid j = i.
Proof.
  intros Hm Hi Hfree Hless.
  eexists _, _. split.
  { apply (add_job_registers s p a stale rest i Hm).
    apply first_free_found; [unfold MAXJOBS in *; lia|done|done]. }
  cbn [heap jid2job set_jid2job set_heap set_job_list set_env].
  split.
  { rewrite get_job_from_jid_in_range by lia. apply lookup_insert_eq. }
  split; [apply lookup_insert_eq|done].
Qed.

(** X1.  [add_job], when the ids below [i] are taken and [i] is free: the
    new record gets the id [i], no process alive and no saved terminal state;
    it is found under [i] afterwards, every other id resolves as before, and
    the record is appended to the job list. *)
Theorem add_job_takes_smallest_free_id
    (s : shell) (p : ast_pipeline) (a : addr) (stale : job)
    (rest : list (addr * job)) (i : Z) :
  job_mallocs (env s) = (a, stale) :: rest ->
  1 <= i < MAXJOBS ->
  jid2job s !! i = None ->
  (forall k, 1 <= k < i -> is_Some (jid2job s !! k)) ->
  exists s' j,
    add_job p s = Ok a s' /\
    get_job_from_jid i s' = Some a /\
    heap s' !! a = Some j /\
    jid j = i /\ pipe j = p /\ num_processes_alive j = 0 /\
    termStateIsSaved j = false /\
    (forall k, k <> i -> get_job_from_jid k s' = get_job_from_jid k s) /\
    job_list s' = (job_list s ++ [a])%list /\
    out s' = out s.
Proof.
  intros Hm Hi Hfree Hless.
  eexists _, _. split.
  { apply (add_job_registers s p a stale rest i Hm).
    apply first_free_found; [unfold MAXJOBS in *; lia|done|done]. }
  cbn [heap jid2job job_list out set_jid2job set_heap set_job_list set_env].
  split.
  { rewrite get_job_from_jid_in_range by lia. apply lookup_insert_eq. }
  split; [apply lookup_insert_eq|].
  repeat (split; [done|]).
  split; [|done].
  intros k Hk. apply get_job_from_jid_same_table.
  cbn [jid2job set_jid2job set_heap]. by rewrite lookup_insert_ne.
Qed.

Lemma add_job_takes_smallest_free_id_witness :
  exists s' j,
    add_job (pipeline_of [["ls"]] false) (empty_shell (sample_answers [])) = Ok 1%positive s' /\
    get_job_from_jid 1 s' = Some 1%positive /\
    heap s' !! 1%positive = Some j /\
    jid j = 1 /\ pipe j = pipeline_of [["ls"]] false /\ num_processes_alive j = 0 /\
    termStateIsSaved j = false /\
    (forall k, k <> 1 ->
       get_job_from_jid k s' = get_job_from_jid k (empty_shell (sample_answers []))) /\
    job_list s' = (job_list (empty_shell (sample_answers [])) ++ [1%positive])%list /\
    out s' = out (empty_shell (sample_answers [])).
Proof.
  apply (add_job_takes_smallest_free_id (empty_shell (sample_answers []))
           (pipeline_of [["ls"]] false) 1%positive stale_job [] 1).
  - reflexivity.
  - unfold MAXJOBS. lia.
  - reflexivity.
  - intros k Hk. lia.
Defined.

(** X2.  [add_job] keeps the registry consistent: if every id of the table
    leads to an allocated record that carries this id, and [malloc] returns an
    address that is not in use, the same holds after [add_job] has returned. *)
Theorem add_job_keeps_registry_consistent
    (s s' : shell) (p : ast_pipeline) (a a' : addr)
    (stale : job) (rest : list (addr * job)) :
  registry_consistent s ->
  heap s !! a = None ->
  job_mallocs (env s) = (a, stale) :: rest ->
  add_job p s = Ok a' s' ->
  registry_consistent s' /\ a' = a.
Proof.
  intros Hcons Hfresh Hm Hrun.
  split; [by eapply add_job_consistent|].
  destruct (first_free (jid2job s) 1 (Z.to_nat (MAXJOBS - 1))) as [i|] eqn:Hf.
  - rewrite (add_job_registers s p a stale rest i Hm Hf) in Hrun. congruence.
  - revert Hrun. unfold add_job, malloc_job, bind at 1. rewrite Hm.
    rewrite bind_store. unfold bind at 1.
    cbn [jid2job set_job_list set_heap set_env]. rewrite Hf. done.
Qed.

Lemma stopped_shell_consistent : registry_consistent stopped_shell_ready.
Proof.
  intros i a. cbn. intros H.
  apply lookup_singleton_Some in H as [<- <-].
  exists stopped_job. split; reflexivity.
Qed.

Lemma add_job_keeps_registry_consistent_witness :
  registry_consistent
    (final_state (add_job (pipeline_of [["ls"]] false) stopped_shell_ready))
  /\ 2%positive = 2%positive.
Proof.
  apply (add_job_keeps_registry_consistent stopped_shell_ready
           _ (pipeline_of [["ls"]] false) 2%positive 2%positive stale_job []).
  - exact stopped_shell_consistent.
  - reflexivity.
  - reflexivity.
  - vm_compute. reflexivity.
Defined.

Lemma delete_job_registered (s : shell) (a : addr) (j : job) :
  heap s !! a = Some j ->
  jid2job s !! jid j = Some a ->
  0 <= jid j < MAXJOBS ->
  delete_job a s =
    Ok tt (set_heap (delete a (heap s))
             (set_jid2job (delete (jid j) (jid2job s)) s)).
Proof.
  intros Hj Ht Hr. unfold delete_job.
  rewrite (bind_load a j) by done.
  replace (jid j =? -1) with false by (symmetry; apply Z.eqb_neq; lia).
  cbn [negb assert]. rewrite bind_ret.
  replace ((0 <=? jid j) && (jid j <? MAXJOBS)) with true
    by (symmetry; apply andb_true_iff; split; [apply Z.leb_le|apply Z.ltb_lt]; lia).
  rewrite Ht.
  rewrite (bind_modify a j) by done.
  unfold bind. destruct s; cbn. by rewrite delete_insert_eq.
Qed.

Lemma delete_registered_consistent (s : shell) (a : addr) (j : job) :
  registry_consistent s ->
  heap s !! a = Some j ->
  registry_consistent
    (set_heap (delete a (heap s)) (set_jid2job (delete (jid j) (jid2job s)) s)).
Proof.
  intros Hcons Hj k b. cbn [jid2job heap set_heap set_jid2job].
  destruct (decide (k = jid j)) as [->|Hne].
  - by rewrite lookup_delete_eq.
  - rewrite lookup_delete_ne by done. intros Hk.
    destruct (Hcons _ _ Hk) as (jb & Hb & Hid).
    exists jb. split; [|done].
    rewrite lookup_delete_ne; [done|]. intros ->. congruence.
Qed.

(** X3.  [delete_job] on a job of a consistent registry: the id no longer
    resolves, the record is freed, every other id and record is as before,
    and the registry stays consistent.  The job list is not touched: the
    record is not unlinked by [delete_job] itself. *)
Theorem delete_job_releases_id
    (s : shell) (i : Z) (a : addr) :
  registry_consistent s ->
  get_job_from_jid i s = Some a ->
  exists s',
    delete_job a s = Ok tt s' /\
    get_job_from_jid i s' = None /\
    heap s' !! a = None /\
    (forall k, k <> i -> get_job_from_jid k s' = get_job_from_jid k s) /\
    (forall b, b <> a -> heap s' !! b = heap s !! b) /\
    job_list s' = job_list s /\
    out s' = out s /\
    registry_consistent s'.
Proof.
  intros Hcons Hget.
  destruct (get_job_from_jid_lookup _ _ _ Hget) as [Hi Ht].
  destruct (Hcons _ _ Ht) as (j & Hj & Hid). subst i.
  eexists. split; [apply (delete_job_registered s a j); [done|done|lia]|].
  cbn [heap jid2job job_list out set_heap set_jid2job].
  split.
  { rewrite get_job_from_jid_in_range by done. apply lookup_delete_eq. }
  split; [apply lookup_delete_eq|].
  split.
  { intros k Hk. apply get_job_from_jid_same_table.
    cbn [jid2job set_heap set_jid2job]. by rewrite lookup_delete_ne. }
  split; [intros b Hb; by rewrite lookup_delete_ne|].
  repeat (split; [done|]).
  by apply delete_registered_consistent.
Qed.

Lemma delete_job_releases_id_witness :
  exists s',
    delete_job 1%positive stopped_shell_ready = Ok tt s' /\
    get_job_from_jid 1 s' = None /\
    heap s' !! 1%positive = None /\
    (forall k, k <> 1 -> get_job_from_jid k s' = get_job_from_jid k stopped_shell_ready) /\
    (forall b, b <> 1%positive -> heap s' !! b = heap stopped_shell_ready !! b) /\
    job_list s' = job_list stopped_shell_ready /\
    out s' = out stopped_shell_ready /\
    registry_consistent s'.
Proof.
  apply (delete_job_releases_id stopped_shell_ready 1 1%positive).
  - exact stopped_shell_consistent.
  - reflexivity.
Defined.

(** X4.  A deleted id is free for reuse: when the ids below [i] are taken
    and job [i] is deleted, the next [add_job] hands out [i] again. *)
Theorem deleted_id_is_reused
    (s : shell) (p : ast_pipeline) (i : Z) (a b : addr) (stale : job)
    (rest : list (addr * job)) :
  registry_consistent s ->
  get_job_from_jid i s = Some a ->
  (forall k, 1 <= k < i -> is_Some (jid2job s !! k)) ->
  job_mallocs (env s) = (b, stale) :: rest ->
  exists s1 s2 j,
    delete_job a s = Ok tt s1 /\
    add_job p s1 = Ok b s2 /\
    get_job_from_jid i s2 = Some b /\
    heap s2 !! b = Some j /\ jid j = i.
Proof.
  intros Hcons Hget Hless Hm.
  destruct (get_job_from_jid_lookup _ _ _ Hget) as [Hi Ht].
  destruct (Hcons _ _ Ht) as (j & Hj & Hid). subst i.
  set (s1 := set_heap (delete a (heap s))
               (set_jid2job (delete (jid j) (jid2job s)) s)).
  destruct (add_job_takes_smallest_free_id_aux s1 p b stale rest (jid j))
    as (s2 & j2 & Hadd & Hget2 & Hj2 & Hid2); [done|lia| |  |].
  - apply lookup_delete_eq.
  - intros k Hk. cbn [jid2job s1 set_heap set_jid2job].
    rewrite lookup_delete_ne by lia. by apply Hless.
  - exists s1, s2, j2. split; [apply (delete_job_registered s a j); [done|done|lia]|].
    done.
Qed.

Lemma deleted_id_is_reused_witness :
  exists s1 s2 j,
    delete_job 1%positive stopped_shell_ready = Ok tt s1 /\
    add_job (pipeline_of [["ls"]] false) s1 = Ok 2%positive s2 /\
    get_job_from_jid 1 s2 = Some 2%positive /\
    heap s2 !! 2%positive = Some j /\ jid j = 1.
Proof.
  apply (deleted_id_is_reused stopped_shell_ready (pipeline_of [["ls"]] false)
           1 1%positive 2%positive stale_job []).
  - exact stopped_shell_consistent.
  - reflexivity.
  - intros k Hk. lia.
  - reflexivity.
Defined.

(** ** The loops over all job ids *)

Lemma registered_record (s : shell) (k : Z) (a : addr) :
  registry_consistent s ->
  get_job_from_jid k s = Some a ->
  exists j, heap s !! a = Some j /\ jid j = k /\ 0 < k < MAXJOBS /\
            jid2job s !! k = Some a.
Proof.
  intros Hcons Hget.
  destruct (get_job_from_jid_lookup _ _ _ Hget) as [Hr Ht].
  destruct (Hcons _ _ Ht) as (j & Hj & Hid). by exists j.
Qed.

Lemma exit_loop_clears (i : Z) (n : nat) (s : shell) :
  registry_consistent s ->
  exists s', exit_loop i n s = Ok tt s' /\ cleared i n s s'.
Proof.
  revert i s. induction n as [|n IH]; intros i s Hcons.
  - exists s. split; [done|].
    split; [done|]. split; [done|]. split; [done|]. split; [|done].
    intros k a Hk. split; [cbn; lia|done].
  - cbn [exit_loop]. unfold bind at 1.
    destruct (get_job_from_jid i s) as [a0|] eqn:Hget.
    + destruct (registered_record s i a0 Hcons Hget) as (j0 & Hj0 & Hid0 & Hr0 & Ht0).
      subst i.
      rewrite (delete_job_registered s a0 j0) by (done || lia).
      set (s1 := set_heap _ _).
      assert (registry_consistent s1) as Hcons1
        by (by apply delete_registered_consistent).
      destruct (IH (jid j0 + 1) s1 Hcons1) as (s' & Hrun & Hc' & Ho & Hl & Hreg & Hnone & Hheap).
      exists s'. split; [done|].
      split; [done|]. split; [done|]. split; [done|].
      assert (get_job_from_jid (jid j0) s1 = None) as Hgone.
      { rewrite get_job_from_jid_in_range by done. apply lookup_delete_eq. }
      assert (forall k, k <> jid j0 -> get_job_from_jid k s1 = get_job_from_jid k s) as Hsame.
      { intros k Hk. apply get_job_from_jid_same_table.
        cbn [jid2job s1 set_heap set_jid2job]. by rewrite lookup_delete_ne. }
      split; [|split].
      * intros k a Hk. destruct (decide (k = jid j0)) as [->|Hne].
        -- assert (a = a0) as -> by congruence.
           split; [|lia]. intros _. split; [by apply Hnone|].
           apply Hheap. apply lookup_delete_eq.
        -- destruct (registered_record s k a Hcons Hk) as (j & Hj & Hid & _).
           assert (a <> a0) as Hna by (intros ->; congruence).
           rewrite <- (Hsame k Hne) in Hk.
           destruct (Hreg k a Hk) as [Hin Hout].
           split.
           ++ intros Hrange. apply Hin. lia.
           ++ intros Hrange. destruct Hout as [H1 H2]; [lia|].
              split; [done|]. rewrite H2.
              cbn [heap s1 set_heap]. by rewrite lookup_delete_ne.
      * intros k Hk. apply Hnone.
        destruct (decide (k = jid j0)) as [->|Hne]; [done|]. by rewrite Hsame.
      * intros b Hb. apply Hheap. cbn [heap s1 set_heap].
        destruct (decide (a0 = b)) as [->|Hne]; [apply lookup_delete_eq|].
        by rewrite lookup_delete_ne.
    + destruct (IH (i + 1) s Hcons) as (s' & Hrun & Hc' & Ho & Hl & Hreg & Hnone & Hheap).
      exists s'. split; [done|].
      split; [done|]. split; [done|]. split; [done|].
      split; [|done].
      intros k a Hk. assert (k <> i) as Hne by (intros ->; congruence).
      destruct (Hreg k a Hk) as [Hin Hout].
      split; intros Hrange; [apply Hin|apply Hout]; lia.
Qed.

(** X5.  [exit_builtin] on a consistent registry frees every registered job
    and releases its id, prints nothing, leaves the job list as it is, and
    ends the shell with status 0. *)
Theorem exit_builtin_deletes_every_job (s : shell) :
  registry_consistent s ->
  exists s',
    exit_builtin s = Halt (HExit 0) s' /\
    (forall k, get_job_from_jid k s' = None) /\
    (forall k a, get_job_from_jid k s = Some a -> heap s' !! a = None) /\
    job_list s' = job_list s /\
    out s' = out s.
Proof.
  intros Hcons.
  destruct (exit_loop_clears 1 (Z.to_nat (MAXJOBS - 1)) s Hcons)
    as (s' & Hrun & Hc' & Ho & Hl & Hreg & Hnone & Hheap).
  exists s'. unfold exit_builtin, bind. rewrite Hrun.
  split; [done|]. split; [|split; [|done]].
  - intros k. destruct (get_job_from_jid k s) as [a|] eqn:Hk; [|by apply Hnone].
    destruct (get_job_from_jid_lookup _ _ _ Hk) as [Hr _].
    apply (Hreg k a Hk). unfold MAXJOBS in *. lia.
  - intros k a Hk.
    destruct (get_job_from_jid_lookup _ _ _ Hk) as [Hr _].
    apply (Hreg k a Hk). unfold MAXJOBS in *. lia.
Qed.

Lemma exit_builtin_deletes_every_job_witness :
  exists s',
    exit_builtin stopped_shell_ready = Halt (HExit 0) s' /\
    (forall k, get_job_from_jid k s' = None) /\
    (forall k a, get_job_from_jid k stopped_shell_ready = Some a -> heap s' !! a = None) /\
    job_list s' = job_list stopped_shell_ready /\
    out s' = out stopped_shell_ready.
Proof.
  apply (exit_builtin_deletes_every_job stopped_shell_ready).
  exact stopped_shell_consistent.
Defined.

Lemma filter_kept (s : shell) (l : list addr) :
  filter (fun b => ~ (is_Some (heap s !! b) /\ heap s !! b = None)) l = l.
Proof.
  induction l as [|b l IH]; [done|].
  rewrite filter_cons_True; [by rewrite IH|].
  intros [[j Hj] Hn]. congruence.
Qed.

Lemma reap_loop_reaps (i : Z) (n : nat) (s : shell) :
  registry_consistent s ->
  exists s', reap_loop i n s = Ok tt s' /\ reaped i n s s'.
Proof.
  revert i s. induction n as [|n IH]; intros i s Hcons.
  - exists s. split; [done|].
    split; [done|]. split; [done|]. split; [by rewrite filter_kept|]. split; [|done].
    intros k a j Hk Hj. split; [cbn; lia|done].
  - cbn [reap_loop]. unfold bind at 1.
    destruct (get_job_from_jid i s) as [a0|] eqn:Hget.
    + destruct (registered_record s i a0 Hcons Hget) as (j0 & Hj0 & Hid0 & Hr0 & Ht0).
      subst i. rewrite (bind_load a0 j0) by done.
      destruct (num_processes_alive j0 =? 0) eqn:Halive.
      * (* the job is reaped *)
        apply Z.eqb_eq in Halive.
        unfold list_remove, bind at 1.
        rewrite (delete_job_registered _ a0 j0) by (done || lia).
        set (s1 := set_heap _ _).
        assert (registry_consistent s1) as Hcons1.
        { apply (delete_registered_consistent
                   (set_job_list (filter (fun b => b <> a0) (job_list s)) s) a0 j0);
            done. }
        destruct (IH (jid j0 + 1) s1 Hcons1)
          as (s' & Hrun & Hc' & Ho & Hfil & Hreg & Hnone & Hheap & Hlist).
        exists s'. split; [done|]. split; [done|]. split; [done|].
        split.
        { rewrite Hfil. cbn [job_list heap s1 set_heap set_jid2job set_job_list].
          rewrite list_filter_filter. apply list_filter_iff. intros b.
          destruct (decide (b = a0)) as [->|Hne].
          - split; [tauto|]. intros Hb. exfalso. apply Hb. split; [by eexists|].
            apply Hheap. apply lookup_delete_eq.
          - rewrite lookup_delete_ne by done. tauto. }
        assert (get_job_from_jid (jid j0) s1 = None) as Hgone.
        { rewrite get_job_from_jid_in_range by done. apply lookup_delete_eq. }
        assert (forall k, k <> jid j0 -> get_job_from_jid k s1 = get_job_from_jid k s)
          as Hsame.
        { intros k Hk. apply get_job_from_jid_same_table.
          cbn [jid2job s1 set_heap set_jid2job set_job_list].
          by rewrite lookup_delete_ne. }
        split; [|split; [|split]].
        -- intros k a j Hk Hj. destruct (decide (k = jid j0)) as [->|Hne].
           ++ assert (a = a0) as -> by congruence.
              assert (j = j0) as -> by congruence.
              split; [|lia]. intros _. split; [by apply Hnone|]. split.
              ** apply Hheap. apply lookup_delete_eq.
              ** apply Hlist. cbn [job_list s1 set_heap set_jid2job set_job_list].
                 rewrite list_elem_of_filter. tauto.
           ++ destruct (registered_record s k a Hcons Hk) as (j' & Hj' & Hid & _).
              assert (a <> a0) as Hna by (intros ->; congruence).
              rewrite <- (Hsame k Hne) in Hk.
              assert (heap s1 !! a = Some j) as Hj1.
              { cbn [heap s1 set_heap]. by rewrite lookup_delete_ne. }
              destruct (Hreg k a j Hk Hj1) as [Hin Hout].
              split; intros Hrange; [apply Hin|apply Hout]; lia.
        -- intros k Hk. apply Hnone.
           destruct (decide (k = jid j0)) as [->|Hne]; [done|]. by rewrite Hsame.
        -- intros b Hb. apply Hheap. cbn [heap s1 set_heap].
           destruct (decide (a0 = b)) as [->|Hne]; [apply lookup_delete_eq|].
           by rewrite lookup_delete_ne.
        -- intros b Hb. apply Hlist.
           cbn [job_list s1 set_heap set_jid2job set_job_list].
           rewrite list_elem_of_filter. tauto.
      * (* a process is alive: the job stays *)
        apply Z.eqb_neq in Halive. unfold ret at 1.
        destruct (IH (jid j0 + 1) s Hcons)
          as (s' & Hrun & Hc' & Ho & Hfil & Hreg & Hnone & Hheap & Hlist).
        exists s'. split; [done|]. split; [done|]. split; [done|].
        split; [done|]. split; [|done].
        intros k a j Hk Hj. destruct (Hreg k a j Hk Hj) as [Hin Hout].
        split; intros Hrange.
        -- apply Hin. split; [|tauto].
           assert (k <> jid j0) by (intros ->; assert (a = a0) by congruence;
                                     subst; assert (j = j0) by congruence; subst; tauto).
           lia.
        -- apply Hout. intros [Hr Hz]. apply Hrange. split; [lia|done].
    + destruct (IH (i + 1) s Hcons)
        as (s' & Hrun & Hc' & Ho & Hfil & Hreg & Hnone & Hheap & Hlist).
      exists s'. split; [done|]. split; [done|]. split; [done|].
      split; [done|]. split; [|done].
      intros k a j Hk Hj. assert (k <> i) as Hne by (intros ->; congruence).
      destruct (Hreg k a j Hk Hj) as [Hin Hout].
      split; intros Hrange; [apply Hin|apply Hout]; lia.
Qed.

(** X6.  The reaping loop of [main] on a consistent registry: every
    registered job with no process alive is unlinked from the job list, freed,
    and its id released; every registered job with a count other than zero
    stays exactly as it was: same id, same record, and in the job list if it
    was there; what remains registered afterwards has a count other than zero.
    The job list loses exactly the records the loop has freed and keeps the
    order of the others.  Nothing is printed and the registry stays
    consistent. *)
Theorem reap_loop_frees_finished_jobs (s : shell) :
  registry_consistent s ->
  exists s',
    reap_loop 1 (Z.to_nat (MAXJOBS - 1)) s = Ok tt s' /\
    (forall k a j, get_job_from_jid k s = Some a -> heap s !! a = Some j ->
       num_processes_alive j = 0 ->
       get_job_from_jid k s' = None /\ heap s' !! a = None /\ a ∉ job_list s') /\
    (forall k a j, get_job_from_jid k s = Some a -> heap s !! a = Some j ->
       num_processes_alive j <> 0 ->
       get_job_from_jid k s' = Some a /\ heap s' !! a = Some j /\
       (a ∈ job_list s -> a ∈ job_list s')) /\
    (forall k a, get_job_from_jid k s' = Some a ->
       exists j, heap s' !! a = Some j /\ num_processes_alive j <> 0) /\
    job_list s' =
      filter (fun b => ~ (is_Some (heap s !! b) /\ heap s' !! b = None)) (job_list s) /\
    (forall b, b ∈ job_list s' -> b ∈ job_list s) /\
    registry_consistent s' /\
    out s' = out s.
Proof.
  intros Hcons.
  destruct (reap_loop_reaps 1 (Z.to_nat (MAXJOBS - 1)) s Hcons)
    as (s' & Hrun & Hc' & Ho & Hfil & Hreg & Hnone & Hheap & Hlist).
  exists s'. split; [done|].
  assert (forall k a, get_job_from_jid k s = Some a ->
            1 <= k < 1 + Z.of_nat (Z.to_nat (MAXJOBS - 1))) as Hrange.
  { intros k a Hk. destruct (get_job_from_jid_lookup _ _ _ Hk) as [Hr _].
    unfold MAXJOBS in *. lia. }
  split; [|split; [|split; [|split; [done|split; [|done]]]]].
  - intros k a j Hk Hj Hz. apply (Hreg k a j Hk Hj). split; [by eapply Hrange|done].
  - intros k a j Hk Hj Hz.
    destruct (Hreg k a j Hk Hj) as [_ Hout]. destruct Hout as [H1 H2]; [tauto|].
    split; [done|]. split; [done|].
    intros Hin. rewrite Hfil. apply list_elem_of_filter. split; [|done].
    intros [_ Hn]. congruence.
  - intros k a Hk'.
    destruct (get_job_from_jid k s) as [a1|] eqn:Hk.
    2:{ rewrite (Hnone k Hk) in Hk'. done. }
    destruct (registered_record s k a1 Hcons Hk) as (j & Hj & _).
    destruct (Hreg k a1 j Hk Hj) as [Hin Hout].
    destruct (decide (num_processes_alive j = 0)) as [Hz|Hnz].
    + destruct Hin as [Hgone _]; [split; [by eapply Hrange|done]|]. congruence.
    + destruct Hout as [Hs Hh]; [tauto|].
      assert (a = a1) as -> by congruence. by exists j.
  - intros b. rewrite Hfil, list_elem_of_filter. tauto.
Qed.

(** The witness: two registered jobs, the first stopped with a process
    alive, the second finished. *)
Lemma reap_loop_frees_finished_jobs_witness :
  exists s',
    reap_loop 1 (Z.to_nat (MAXJOBS - 1)) two_jobs_shell = Ok tt s' /\
    (forall k a j, get_job_from_jid k two_jobs_shell = Some a ->
       heap two_jobs_shell !! a = Some j ->
       num_processes_alive j = 0 ->
       get_job_from_jid k s' = None /\ heap s' !! a = None /\ a ∉ job_list s') /\
    (forall k a j, get_job_from_jid k two_jobs_shell = Some a ->
       heap two_jobs_shell !! a = Some j ->
       num_processes_alive j <> 0 ->
       get_job_from_jid k s' = Some a /\ heap s' !! a = Some j /\
       (a ∈ job_list two_jobs_shell -> a ∈ job_list s')) /\
    (forall k a, get_job_from_jid k s' = Some a ->
       exists j, heap s' !! a = Some j /\ num_processes_alive j <> 0) /\
    job_list s' =
      filter (fun b => ~ (is_Some (heap two_jobs_shell !! b) /\ heap s' !! b = None))
        (job_list two_jobs_shell) /\
    (forall b, b ∈ job_list s' -> b ∈ job_list two_jobs_shell) /\
    registry_consistent s' /\
    out s' = out two_jobs_shell.
Proof.
  apply (reap_loop_frees_finished_jobs two_jobs_shell).
  intros i a. cbn [jid2job heap two_jobs_shell]. intros H.
  apply lookup_insert_Some in H as [[<- <-]|[Hne H]].
  - eexists. split; reflexivity.
  - apply lookup_singleton_Some in H as [<- <-]. eexists. split; reflexivity.
Defined.
(** ** Builtins: arguments that name no job *)

Lemma get_job_from_jid_out_of_range (s : shell) (i : Z) :
  i <= 0 \/ MAXJOBS <= i -> get_job_from_jid i s = None.
Proof.
  intros H. unfold get_job_from_jid.
  destruct (0 <? i) eqn:E1; [|done]. destruct (i <? MAXJOBS) eqn:E2; [|done].
  apply Z.ltb_lt in E1, E2. lia.
Qed.

(** X7.  [fg], [bg], [kill] and [stop] with an argument whose value, as
    [atoi] reads it into a C [int], names no job of the table (an unused id,
    or a number outside 1 .. MAXJOBS - 1): each prints its own error on the
    error stream, with that value; no job, no registry structure and no signal
    is touched. *)
Theorem builtins_report_unknown_job
    (s : shell) (cmd : ast_command) (arg : string) :
  argv cmd !! 1%nat = Some arg ->
  get_job_from_jid (atoi arg) s = None ->
  fg_builtin cmd s =
    Ok tt (set_out (out s ++ [Stderr ("fg " ++ pretty (atoi arg)
                                       ++ " failed, no such job" ++ NL)]) s) /\
  bg_builtin cmd s =
    Ok tt (set_out (out s ++ [Stderr ("bg " ++ pretty (atoi arg)
                                       ++ " failed, no such job" ++ NL)]) s) /\
  kill_builtin cmd s =
    Ok tt (set_out (out s ++ [Stderr ("attempt to kill " ++ pretty (atoi arg)
                                       ++ " failed, no such process" ++ NL)]) s) /\
  stop_builtin cmd s =
    Ok tt (set_out (out s ++ [Stderr ("attempt to stop " ++ pretty (atoi arg)
                                       ++ " failed, no such process" ++ NL)]) s).
Proof.
  intros Harg Hget.
  unfold fg_builtin, bg_builtin, kill_builtin, stop_builtin, signal_job.
  rewrite Harg, Hget. done.
Qed.

Lemma builtins_report_unknown_job_witness :
  fg_builtin (command_of ["fg"; "x7"]) stopped_shell =
    Ok tt (set_out (out stopped_shell
                      ++ [Stderr ("fg " ++ pretty (atoi "x7")
                                   ++ " failed, no such job" ++ NL)]) stopped_shell) /\
  bg_builtin (command_of ["fg"; "x7"]) stopped_shell =
    Ok tt (set_out (out stopped_shell
                      ++ [Stderr ("bg " ++ pretty (atoi "x7")
                                   ++ " failed, no such job" ++ NL)]) stopped_shell) /\
  kill_builtin (command_of ["fg"; "x7"]) stopped_shell =
    Ok tt (set_out (out stopped_shell
                      ++ [Stderr ("attempt to kill " ++ pretty (atoi "x7")
                                   ++ " failed, no such process" ++ NL)]) stopped_shell) /\
  stop_builtin (command_of ["fg"; "x7"]) stopped_shell =
    Ok tt (set_out (out stopped_shell
                      ++ [Stderr ("attempt to stop " ++ pretty (atoi "x7")
                                   ++ " failed, no such process" ++ NL)]) stopped_shell).
Proof.
  apply (builtins_report_unknown_job stopped_shell (command_of ["fg"; "x7"]) "x7");
    reflexivity.
Defined.

(** [atoi] reads its argument into an [int]: 2^32 + 1 reads as 1 and names
    job 1, 2^32 reads as 0 and names no job. *)
Lemma atoi_reads_an_int :
  atoi "4294967297" = 1 /\
  atoi "4294967296" = 0 /\
  atoi "-7" = -7 /\
  (exists s', kill_builtin (command_of ["kill"; "4294967297"]) stopped_shell = Ok tt s' /\
              out s' = [Killpg 100 SIGKILL]) /\
  kill_builtin (command_of ["kill"; "4294967296"]) stopped_shell =
    Ok tt (set_out [Stderr ("attempt to kill 0 failed, no such process" ++ NL)]
             stopped_shell).
Proof.
  repeat split; try (vm_compute; reflexivity).
  eexists. split; vm_compute; reflexivity.
Qed.

(** X8.  [bg <id>] for a job whose status is not [STOPPED] (running in the
    background or foreground, or stopped for the terminal): the builtin
    prints "this job: <id> is already running" and does nothing else; no
    signal is sent and the status is unchanged. *)
Theorem bg_builtin_refuses_running_job
    (s : shell) (cmd : ast_command) (arg : string) (a : addr) (j : job) :
  argv cmd !! 1%nat = Some arg ->
  get_job_from_jid (atoi arg) s = Some a ->
  heap s !! a = Some j ->
  status j <> STOPPED ->
  bg_builtin cmd s =
    Ok tt (set_out (out s ++ [Stderr ("this job: " ++ pretty (atoi arg)
                                       ++ " is already running" ++ NL)]) s).
Proof.
  intros Harg Hget Hj Hst. unfold bg_builtin. rewrite Harg, Hget.
  rewrite (bind_load a j) by done.
  apply Z.eqb_neq in Hst. rewrite Hst. done.
Qed.

Lemma bg_builtin_refuses_running_job_witness :
  bg_builtin (command_of ["bg"; "1"]) (wide_shell 8) =
    Ok tt (set_out (out (wide_shell 8)
                      ++ [Stderr ("this job: " ++ pretty (atoi "1")
                                   ++ " is already running" ++ NL)]) (wide_shell 8)).
Proof.
  apply (bg_builtin_refuses_running_job (wide_shell 8) (command_of ["bg"; "1"])
           "1" 1%positive (wide_job 8 101)); [reflexivity..|discriminate].
Defined.

(** X9.  [stop <id>] for an id of a consistent registry: the job's status
    becomes [STOPPED], every other field of the record stays, and SIGSTOP goes
    to its process group, once per process the shell counts as alive (not at
    all when the count is zero or below); nothing else of the shell
    changes. *)
Theorem stop_builtin_marks_stopped
    (s : shell) (cmd : ast_command) (arg : string) (a : addr) (j : job) :
  registry_consistent s ->
  argv cmd !! 1%nat = Some arg ->
  get_job_from_jid (atoi arg) s = Some a ->
  heap s !! a = Some j ->
  stop_builtin cmd s =
    Ok tt (set_out (out s ++ replicate (Z.to_nat (num_processes_alive j))
                                (Killpg (pgid j) SIGSTOP))
             (set_heap (<[a := job_with_status STOPPED j]> (heap s)) s)) /\
  status (job_with_status STOPPED j) = STOPPED /\
  pipe (job_with_status STOPPED j) = pipe j /\
  jid (job_with_status STOPPED j) = jid j /\
  num_processes_alive (job_with_status STOPPED j) = num_processes_alive j /\
  saved_tty_state (job_with_status STOPPED j) = saved_tty_state j /\
  termStateIsSaved (job_with_status STOPPED j) = termStateIsSaved j /\
  pgid (job_with_status STOPPED j) = pgid j /\
  pids (job_with_status STOPPED j) = pids j.
Proof.
  intros Hcons Harg Hget Hj.
  destruct (registered_record s _ a Hcons Hget) as (j0 & Hj0 & Hjid & _).
  assert (j0 = j) as -> by congruence.
  split; [|done].
  unfold stop_builtin, signal_job. rewrite Harg, Hget.
  rewrite (bind_load a j) by done. rewrite Hjid, Z.eqb_refl.
  rewrite (bind_modify a j) by done.
  unfold killpg_. by rewrite repeat_m_emit.
Qed.

(** The witness: a background job with eight processes alive. *)
Lemma stop_builtin_marks_stopped_witness :
  stop_builtin (command_of ["stop"; "1"]) (wide_shell 8) =
    Ok tt (set_out (out (wide_shell 8)
                      ++ replicate (Z.to_nat (num_processes_alive (wide_job 8 101)))
                           (Killpg (pgid (wide_job 8 101)) SIGSTOP))
             (set_heap (<[1%positive := job_with_status STOPPED (wide_job 8 101)]>
                          (heap (wide_shell 8))) (wide_shell 8))) /\
  status (wide_job 8 101) = BACKGROUND /\
  status (job_with_status STOPPED (wide_job 8 101)) = STOPPED.
Proof.
  destruct (stop_builtin_marks_stopped (wide_shell 8) (command_of ["stop"; "1"])
              "1" 1%positive (wide_job 8 101)) as (Hrun & Hst & _); [|reflexivity..|].
  - intros i a. cbn. intros H.
    apply lookup_singleton_Some in H as [<- <-].
    eexists. split; reflexivity.
  - split; [exact Hrun|]. split; [reflexivity|exact Hst].
Defined.
(** ** The foreground waiter *)

Lemma wait_loop_leaves (fuel : nat) (a : addr) (s s' : shell) :
  wait_loop fuel a s = Ok tt s' ->
  exists j', heap s' !! a = Some j' /\
             (status j' <> FOREGROUND \/ num_processes_alive j' <= 0).
Proof.
  revert s. induction fuel as [|fuel IH]; intros s; cbn [wait_loop]; [done|].
  unfold bind at 1, load.
  destruct (heap s !! a) as [j|] eqn:Hj; [|done].
  destruct ((status j =? FOREGROUND) && (0 <? num_processes_alive j)) eqn:Hc.
  - unfold bind at 1. destruct (waitpid s) as [r s1|h s1]; [|done].
    destruct (negb (r.1 =? -1)); [|done].
    unfold bind at 1.
    destruct (handle_child_status r.1 r.2 s1) as [u s2|h s2]; [|done].
    apply IH.
  - intros [= <-]. exists j. split; [done|].
    apply andb_false_iff in Hc as [Hc|Hc].
    + left. by apply Z.eqb_neq.
    + right. apply Z.ltb_ge in Hc. done.
Qed.

(** X10.  Whenever [wait_for_job] returns, SIGCHLD was blocked on entry and
    is unblocked on exit, the job is no longer a foreground job with a
    process alive, and the last two things the shell did were to take the
    terminal back and to unblock SIGCHLD. *)
Theorem wait_for_job_postcondition (a : addr) (s s' : shell) :
  wait_for_job a s = Ok tt s' ->
  sigchld_blocked s = true /\
  sigchld_blocked s' = false /\
  (exists j', heap s' !! a = Some j' /\
              (status j' <> FOREGROUND \/ num_processes_alive j' <= 0)) /\
  (exists o, out s' = (o ++ [GiveTerminalBackToShell; SignalUnblock])%list).
Proof.
  unfold wait_for_job. unfold bind at 1.
  destruct (sigchld_blocked s) eqn:Hb; [|done]. cbn [assert ret].
  unfold bind at 1.
  destruct (wait_loop _ a s) as [u s1|h s1] eqn:Hw; [|done].
  destruct u. apply wait_loop_leaves in Hw as (j' & Hj' & Hc).
  rewrite bind_emit. unfold signal_unblock. intros [= <-].
  split; [done|]. split; [done|]. split.
  - exists j'. done.
  - exists (out s1). cbn. by rewrite <- app_assoc.
Qed.

Lemma wait_for_job_postcondition_witness :
  sigchld_blocked sleeping_shell = true /\
  sigchld_blocked (final_state (wait_for_job 1%positive sleeping_shell)) = false /\
  (exists j', heap (final_state (wait_for_job 1%positive sleeping_shell)) !! 1%positive
                = Some j' /\
              (status j' <> FOREGROUND \/ num_processes_alive j' <= 0)) /\
  (exists o, out (final_state (wait_for_job 1%positive sleeping_shell))
             = (o ++ [GiveTerminalBackToShell; SignalUnblock])%list).
Proof.
  apply (wait_for_job_postcondition 1%positive sleeping_shell).
  vm_compute. reflexivity.
Defined.

(** X11.  In the waiter, a failing [waitpid] (result -1) while the job is in
    the foreground with a process alive is fatal: the shell prints the
    diagnostic and terminates; it neither takes the terminal back nor
    unblocks SIGCHLD. *)
Theorem wait_for_job_waitpid_failure_is_fatal
    (a : addr) (j : job) (s : shell) (st : wait_status)
    (rest : list (Z * wait_status)) :
  sigchld_blocked s = true ->
  heap s !! a = Some j ->
  status j = FOREGROUND ->
  0 < num_processes_alive j ->
  waitpid_results (env s) = (-1, st) :: rest ->
  wait_for_job a s =
    Halt HFatal
      (set_out (out s ++ [Waitpid; Stderr "waitpid failed, see code for explanation"])
         (set_env (set_waitpid_results rest (env s)) s)).
Proof.
  intros Hb Hj Hst Halive Hw. unfold wait_for_job.
  unfold bind at 1. rewrite Hb. cbn [assert ret].
  unfold bind at 1. cbn [wait_loop].
  rewrite (bind_load a j) by done.
  rewrite Hst. apply Z.ltb_lt in Halive. rewrite Halive. cbn [Z.eqb FOREGROUND andb].
  unfold waitpid. rewrite bind_assoc, bind_emit.
  unfold bind at 1. cbn [env set_out]. rewrite Hw. cbn [fst negb Z.eqb Pos.eqb].
  unfold utils_fatal_error. rewrite bind_emit. unfold stop.
  destruct s; cbn. by rewrite <- app_assoc.
Qed.

Lemma wait_for_job_waitpid_failure_is_fatal_witness :
  let s := set_env (set_waitpid_results [(-1, WExited 0)] (env foreground_shell))
             foreground_shell in
  wait_for_job 1%positive s =
    Halt HFatal
      (set_out (out s ++ [Waitpid; Stderr "waitpid failed, see code for explanation"])
         (set_env (set_waitpid_results [] (env s)) s)).
Proof.
  apply (wait_for_job_waitpid_failure_is_fatal 1%positive
           (job_with_status FOREGROUND (wide_job 8 101))
           (set_env (set_waitpid_results [(-1, WExited 0)] (env foreground_shell))
              foreground_shell) (WExited 0) []); reflexivity.
Defined.

(** ** The status reconciler: one transition for the owning job *)

(** X12.  Whatever status is reported for whatever pid, and whether the
    pid arrays of the jobs are long or short, in the state
    [handle_child_status] ends in the registry structures and the history are
    the same, no record was allocated or freed, every job has kept its id,
    pipeline, process group and pid array, and no count of live processes has
    grown; a consistent registry is still consistent.  The function returns
    whenever every job of the list is an allocated record with a pid array;
    otherwise it reads through a dangling or a NULL pointer. *)
Theorem handle_child_status_keeps_registry (pid : Z) (st : wait_status) (s : shell) :
  let s' := final_state (handle_child_status pid st s) in
  same_jobs s s' /\
  (registry_consistent s -> registry_consistent s') /\
  (jobs_allocated s -> handle_child_status pid st s = Ok tt s').
Proof.
  cbv zeta. split; [apply handle_child_status_final|]. split.
  - apply same_jobs_consistent, handle_child_status_final.
  - intros Ha. destruct (handle_child_status_returns pid st s Ha) as [s1 H1].
    by rewrite H1.
Qed.

Lemma handle_child_status_keeps_registry_witness :
  same_jobs stopped_shell
    (final_state (handle_child_status 100 (WExited 0) stopped_shell)) /\
  registry_consistent (final_state (handle_child_status 100 (WExited 0) stopped_shell)) /\
  handle_child_status 100 (WExited 0) stopped_shell =
    Ok tt (final_state (handle_child_status 100 (WExited 0) stopped_shell)).
Proof.
  destruct (handle_child_status_keeps_registry 100 (WExited 0) stopped_shell)
    as (H1 & H2 & H3).
  split; [exact H1|]. split.
  - apply H2. exact stopped_shell_consistent.
  - apply H3, stopped_shell_allocated.
Defined.

Lemma scan_pids_one_match (s : shell) (a : addr) (j : job) (cells : list Z)
    (pid : Z) (st : wait_status) (k0 i n : nat) :
  heap s !! a = Some j ->
  pids j = Some cells ->
  (forall k, (i <= k < i + n)%nat -> is_Some (cells !! k)) ->
  (i <= k0 < i + n)%nat ->
  cells !! k0 = Some pid ->
  (forall k, (i <= k < i + n)%nat -> k <> k0 -> cells !! k <> Some pid) ->
  scan_pids a pid st i n s = on_child_status a st s.
Proof.
  intros Hj Hc. revert i. induction n as [|n IH]; intros i Hall Hk0 Hpid Hother; [lia|].
  cbn [scan_pids]. rewrite (bind_load a j) by done. rewrite Hc. cbv beta iota.
  destruct (decide (i = k0)) as [->|Hne].
  - unfold bind at 1, read_cell. rewrite Hpid, Z.eqb_refl.
    rewrite (on_child_status_runs a j st s Hj).
    apply (scan_pids_no_match _ a (transition st (tty s) j) cells).
    + solve_lookup.
    + destruct (transition_same_fields st (tty s) j) as (_ & _ & _ & Hp & _). congruence.
    + intros k Hk. destruct (Hall k) as [p Hp]; [lia|].
      exists p. split; [done|]. intros ->. apply (Hother k); [lia|lia|done].
  - destruct (Hall i) as [p Hp]; [lia|]. unfold bind at 1, read_cell. rewrite Hp.
    assert (p <> pid) as Hpp by (intros ->; apply (Hother i); [lia|done|done]).
    apply Z.eqb_neq in Hpp. rewrite Hpp. unfold ret at 1.
    apply IH; [|lia|done|].
    + intros k Hk. apply Hall. lia.
    + intros k Hk. apply Hother. lia.
Qed.

Lemma scans_clean_after (s : shell) (pid : Z) (a b : addr) (j1 : job) (o : list event) :
  b <> a ->
  scans_clean s pid b ->
  scans_clean (set_out o (set_heap (<[a := j1]> (heap s)) s)) pid b.
Proof.
  intros Hne (j & cells & Hj & Hc & Hk). exists j, cells.
  split; [|done]. cbn [heap set_out set_heap]. by rewrite lookup_insert_ne.
Qed.

(** X13.  The owning job is found once: the pid sits in exactly one of the
    first [sizeof_pids] cells of job [a], every job of the list has at least
    that many cells, no other job holds the pid there, and [a] is in the list
    once.  Then [handle_child_status] applies exactly one transition of the
    table to the record of [a] and touches no other record: an exit or a fatal
    signal lowers the count by one, a stop sets [STOPPED] (saving the terminal
    modes if the job was in the foreground), a continue turns [STOPPED] or
    [NEEDSTERMINAL] into [BACKGROUND]. *)
Theorem handle_child_status_applies_one_transition
    (s : shell) (pid : Z) (st : wait_status) (a : addr) (j : job)
    (cells : list Z) (k0 : nat) (l1 l2 : list addr) :
  job_list s = (l1 ++ a :: l2)%list ->
  a ∉ l1 -> a ∉ l2 ->
  (forall b, b ∈ (l1 ++ l2)%list -> scans_clean s pid b) ->
  heap s !! a = Some j ->
  pids j = Some cells ->
  (sizeof_pids <= length cells)%nat ->
  (k0 < sizeof_pids)%nat ->
  cells !! k0 = Some pid ->
  (forall k, (k < sizeof_pids)%nat -> k <> k0 -> cells !! k <> Some pid) ->
  handle_child_status pid st s =
    Ok tt (set_out (out s ++ transition_events st (tty s) j)
             (set_heap (<[a := transition st (tty s) j]> (heap s)) s)).
Proof.
  intros Hl Hn1 Hn2 Hclean Hj Hc Hlen Hk0 Hpid Hother.
  unfold handle_child_status.
  destruct (job_list s) as [|x0 l0] eqn:E; [by destruct l1|]. rewrite Hl.
  clear E x0 l0 Hl.
  assert (forall l s0, (forall b, b ∈ l -> scans_clean s0 pid b) ->
            forall m, scan_jobs (l ++ m) pid st s0 = scan_jobs m pid st s0) as Hskip.
  { intros l. induction l as [|b l IH]; intros s0 Hb m; [done|].
    cbn [app scan_jobs]. unfold bind.
    destruct (Hb b) as (jb & cb & Hjb & Hcb & Hkb); [by left|].
    rewrite (scan_pids_no_match s0 b jb cb); [|done|done|intros k Hk; apply Hkb; lia].
    apply IH. intros c Hc'. apply Hb. by right. }
  rewrite Hskip by (intros b Hb; apply Hclean, elem_of_app; by left).
  cbn [scan_jobs]. unfold bind.
  rewrite (scan_pids_one_match s a j cells pid st k0); [|done|done| |lia|done|].
  - rewrite (on_child_status_runs a j st s Hj).
    apply scan_jobs_no_match. intros b Hb.
    assert (b <> a) as Hne by (intros ->; done).
    destruct (Hclean b) as (jb & cb & Hjb & Hcb & Hkb); [apply elem_of_app; by right|].
    exists jb, cb. split; [|done].
    cbn [heap set_out set_heap]. by rewrite lookup_insert_ne.
  - intros k Hk. apply lookup_lt_is_Some. lia.
  - intros k Hk. apply Hother. lia.
Qed.

Lemma handle_child_status_applies_one_transition_witness :
  handle_child_status 103 (WStopped SIGTSTP) foreground_shell =
    Ok tt (set_out (out foreground_shell
                      ++ transition_events (WStopped SIGTSTP) (tty foreground_shell)
                           (job_with_status FOREGROUND (wide_job 8 101)))
             (set_heap (<[1%positive := transition (WStopped SIGTSTP) (tty foreground_shell)
                                          (job_with_status FOREGROUND (wide_job 8 101))]>
                          (heap foreground_shell)) foreground_shell)).
Proof.
  apply (handle_child_status_applies_one_transition foreground_shell 103
           (WStopped SIGTSTP) 1%positive (job_with_status FOREGROUND (wide_job 8 101))
           (seqZ 101 8) 2 [] []).
  - reflexivity.
  - apply not_elem_of_nil.
  - apply not_elem_of_nil.
  - intros b Hb. by apply elem_of_nil in Hb.
  - reflexivity.
  - reflexivity.
  - vm_compute. lia.
  - vm_compute. lia.
  - reflexivity.
  - intros k Hk Hne. unfold sizeof_pids in Hk.
    rewrite lookup_seqZ. intros [Heq _]. lia.
Defined.

(** ** The waiter keeps the registry *)

(** X14.  In the state the foreground waiter ends in, whether it returned
    or the shell died in it, however many statuses it has consumed and however
    long the pid arrays of the jobs are: the registry structures and the
    history are the same, no record was allocated or freed, and every job has
    kept its id, pipeline, process group and pid array; no count of live
    processes has grown; a consistent registry is still consistent. *)
Theorem wait_for_job_keeps_registry (a : addr) (s : shell) :
  let s' := final_state (wait_for_job a s) in
  same_jobs s s' /\ (registry_consistent s -> registry_consistent s').
Proof.
  cbv zeta. split; [apply wait_for_job_final|].
  apply same_jobs_consistent, wait_for_job_final.
Qed.

Lemma wait_for_job_keeps_registry_witness :
  same_jobs sleeping_shell (final_state (wait_for_job 1%positive sleeping_shell)) /\
  registry_consistent (final_state (wait_for_job 1%positive sleeping_shell)) /\
  exists s', wait_for_job 1%positive sleeping_shell = Ok tt s'.
Proof.
  destruct (wait_for_job_keeps_registry 1%positive sleeping_shell) as (H1 & H2).
  split; [exact H1|]. split.
  - apply H2. intros i a. cbn [jid2job heap sleeping_shell set_heap stopped_shell].
    intros H. apply lookup_singleton_Some in H as [<- <-].
    eexists. split; reflexivity.
  - eexists. vm_compute. reflexivity.
Defined.
(** ** Listings *)

Lemma jobs_lines_omap (s : shell) (i : Z) (n : nat) :
  jobs_lines s i n = omap (job_event s) (seqZ i (Z.of_nat n)).
Proof.
  revert i. induction n as [|n IH]; intros i; [by rewrite seqZ_nil by lia|].
  rewrite seqZ_cons by lia. cbn [jobs_lines].
  replace (Z.pred (Z.of_nat (S n))) with (Z.of_nat n) by lia.
  rewrite IH. unfold Z.succ.
  assert (forall l, omap (job_event s) (i :: l)
                    = (option_list (job_event s i) ++ omap (job_event s) l)%list) as ->
    by (intros l; cbn; by destruct (job_event s i)).
  f_equal. unfold job_event.
  destruct (get_job_from_jid i s) as [a|]; [|done].
  by destruct (heap s !! a).
Qed.

(** X15.  [jobs], when every id of the table leads to an allocated record:
    the output is the job lines of the registered jobs in ascending order of
    id, each job once, and nothing else of the shell changes. *)
Theorem jobs_builtin_lists_ascending (s : shell) :
  registry_live s ->
  jobs_builtin s =
    Ok tt (set_out (out s ++ omap (job_event s) (seqZ 1 (MAXJOBS - 1))) s).
Proof.
  intros Hlive. unfold jobs_builtin. rewrite jobs_loop_lines by done.
  rewrite jobs_lines_omap. by rewrite Z2Nat.id by (unfold MAXJOBS; lia).
Qed.

Lemma jobs_builtin_lists_ascending_witness :
  jobs_builtin stopped_shell =
    Ok tt (set_out (out stopped_shell
                      ++ omap (job_event stopped_shell) (seqZ 1 (MAXJOBS - 1)))
             stopped_shell).
Proof.
  apply (jobs_builtin_lists_ascending stopped_shell).
  intros i a. cbn. intros H.
  apply lookup_singleton_Some in H as [<- <-]. by eexists.
Defined.

Lemma history_lines_lookup (h : list string) (k : Z) (i : nat) (line : string) :
  h !! i = Some line ->
  history_lines k h !! i =
    Some (Stdout ("[" ++ pretty (k + Z.of_nat i + 1) ++ "]: " ++ line ++ NL)).
Proof.
  revert k i. induction h as [|x h IH]; intros k i; [done|].
  destruct i as [|i]; cbn [history_lines].
  - intros [= ->]. rewrite lookup_cons. by rewrite Z.add_0_r.
  - rewrite !lookup_cons. intros H. rewrite (IH (k + 1) i H).
    by replace (k + 1 + Z.of_nat i + 1) with (k + Z.of_nat (S i) + 1) by lia.
Qed.

Lemma history_lines_length (h : list string) (k : Z) :
  length (history_lines k h) = length h.
Proof. revert k. induction h as [|x h IH]; intros k; cbn; [done|]. by rewrite IH. Qed.

(** X16.  [history] prints one line per history entry, oldest first, the
    entry at position [i] (counted from 0) as "[i+1]: <line>"; nothing else
    of the shell changes, and an empty history prints nothing. *)
Theorem history_custom_builtin_numbers_from_one (s : shell) :
  exists lines,
    history_custom_builtin s = Ok tt (set_out (out s ++ lines) s) /\
    length lines = length (history s) /\
    forall (i : nat) (line : string),
      history s !! i = Some line ->
      lines !! i =
        Some (Stdout ("[" ++ pretty (Z.of_nat i + 1) ++ "]: " ++ line ++ NL)).
Proof.
  exists (history_lines 0 (history s)). split; [done|].
  split; [apply history_lines_length|].
  intros i line H. by rewrite (history_lines_lookup _ 0 i line H).
Qed.

(** ** History recall within range *)

Lemma recall_entry_runs (s : shell) (a : addr) (j : job) (k : nat)
    (cmd : ast_command) (i : Z) (line : string) (r : strtok_result) :
  0 <= i ->
  history s !! Z.to_nat i = Some line ->
  strtok2 line = Some r ->
  heap s !! a = Some j ->
  recall_entry a k cmd i s =
    Ok (recalled_command r cmd) (recalled s a j k (Z.to_nat i) r cmd).
Proof.
  intros Hi Hline Htok Hj. unfold recall_entry.
  replace (i <? 0) with false by (symmetry; apply Z.ltb_ge; lia).
  rewrite Hline, Htok.
  unfold bind at 1. erewrite bind_modify by solve_lookup.
  rewrite bind_emit. unfold ret, recalled, recalled_command.
  by destruct s.
Qed.

Lemma history_size_runs (s : shell) :
  history s <> [] ->
  history_guard_null s = false ->
  history_size s = Ok (Z.of_nat (length (history s))) s.
Proof.
  intros Hne Hg. unfold history_size. rewrite Hg.
  by destruct (history s).
Qed.

Lemma recall_entry_blank (s : shell) (a : addr) (k : nat) (cmd : ast_command)
    (i : Z) (line : string) :
  0 <= i ->
  history s !! Z.to_nat i = Some line ->
  strtok2 line = None ->
  recall_entry a k cmd i s = Halt HUndefined s.
Proof.
  intros Hi Hline Htok. unfold recall_entry.
  replace (i <? 0) with false by (symmetry; apply Z.ltb_ge; lia).
  by rewrite Hline, Htok.
Qed.

Lemma recalled_command_argv (r : strtok_result) (cmd : ast_command) :
  argv (recalled_command r cmd)
    = tok1 r :: match tok2 r with Some t => [t] | None => [] end /\
  (1 <= length (argv (recalled_command r cmd)) <= 2)%nat.
Proof.
  split; [reflexivity|].
  unfold recalled_command. cbn. destruct (tok2 r); cbn; lia.
Qed.

(** X17.  [!n] with [1 <= n <=] the number of history lines, in a stage of
    the job whose record is at [a]; the entry recalled is entry [n - 1]
    counted from the oldest.  If the cell before the history array reads as
    NULL the recall only reports "Improper n-value" and makes [run_command]
    return.  Otherwise, if the entry contains a word, the stage gets a vector
    of its first word and, if present, its second word (never more than two),
    "Running command from history:" is printed with the line as [strtok] left
    it, and the stored history line is cut after its first word; if the entry
    is empty or blank, the code passes NULL to [strdup] and the run is
    undefined from there. *)
Theorem history_recall_forward_in_range
    (s : shell) (a : addr) (j : job) (k : nat) (cmd : ast_command) (name : string) :
  isdigit (char_at name 1) = true ->
  1 <= atoi (string_from name 1) <= Z.of_nat (length (history s)) ->
  heap s !! a = Some j ->
  exists line,
    history s !! Z.to_nat (atoi (string_from name 1) - 1) = Some line /\
    history_recall a k cmd name s =
      (if history_guard_null s then
         Ok None (set_out (out s ++ [Stderr ("Improper n-value for !n cmd" ++ NL)]) s)
       else
         match strtok2 line with
         | Some r =>
             Ok (Some (recalled_command r cmd))
                (recalled s a j k (Z.to_nat (atoi (string_from name 1) - 1)) r cmd)
         | None => Halt HUndefined s
         end) /\
    (forall r, strtok2 line = Some r ->
       argv (recalled_command r cmd)
         = tok1 r :: match tok2 r with Some t => [t] | None => [] end /\
       (1 <= length (argv (recalled_command r cmd)) <= 2)%nat).
Proof.
  intros Hd Hn Hj.
  destruct (lookup_lt_is_Some_2 (history s) (Z.to_nat (atoi (string_from name 1) - 1)))
    as [line Hline]; [lia|].
  exists line. split; [done|]. split; [|intros r _; apply recalled_command_argv].
  unfold history_recall. rewrite (isdigit_not_minus _ Hd), Hd. cbn [andb].
  unfold bind at 1, history_size.
  destruct (history s) as [|l0 h] eqn:E; [cbn in Hn; lia|]. rewrite <- E in *.
  destruct (history_guard_null s); [done|].
  replace (Z.of_nat (length (history s)) =? -1) with false
    by (symmetry; apply Z.eqb_neq; lia).
  cbn [negb].
  replace ((Z.of_nat (length (history s)) + 1 <=? atoi (string_from name 1))
           || (atoi (string_from name 1) <? 1)) with false.
  2:{ symmetry. apply orb_false_iff. split; [apply Z.leb_gt|apply Z.ltb_ge]; lia. }
  unfold bind at 1.
  destruct (strtok2 line) as [r|] eqn:Htok.
  - by rewrite (recall_entry_runs s a j k cmd _ line r) by (done || lia).
  - by rewrite (recall_entry_blank s a k cmd _ line) by (done || lia).
Qed.

(** The witness: [!1] when the oldest history line is [sleep 100]. *)
Lemma history_recall_forward_in_range_witness :
  exists line,
    history stopped_shell !! Z.to_nat (atoi (string_from "!1" 1) - 1) = Some line /\
    history_recall 1%positive 0 (command_of ["!1"]) "!1" stopped_shell =
      (if history_guard_null stopped_shell then
         Ok None (set_out (out stopped_shell
                             ++ [Stderr ("Improper n-value for !n cmd" ++ NL)])
                    stopped_shell)
       else
         match strtok2 line with
         | Some r =>
             Ok (Some (recalled_command r (command_of ["!1"])))
                (recalled stopped_shell 1%positive stopped_job 0
                   (Z.to_nat (atoi (string_from "!1" 1) - 1)) r (command_of ["!1"]))
         | None => Halt HUndefined stopped_shell
         end) /\
    (forall r, strtok2 line = Some r ->
       argv (recalled_command r (command_of ["!1"]))
         = tok1 r :: match tok2 r with Some t => [t] | None => [] end /\
       (1 <= length (argv (recalled_command r (command_of ["!1"]))) <= 2)%nat).
Proof.
  apply (history_recall_forward_in_range stopped_shell 1%positive stopped_job 0
           (command_of ["!1"]) "!1"); [reflexivity| |reflexivity].
  vm_compute. split; discriminate.
Defined.

(** What the sample runs give: [!1] and [!-1] on the history [sleep 100],
    [bg 1] start the stage as [sleep 100] and as [bg 1]; on a history whose
    only line is blank the recall reads through NULL. *)
Lemma history_recall_sample_runs :
  (exists s', history_recall 1%positive 0 (command_of ["!1"]) "!1" stopped_shell
                = Ok (Some (command_of ["sleep"; "100"])) s' /\
              history s' = ["sleep"; "bg 1"] /\
              out s' = [Stdout ("Running command from history: sleep" ++ NL)]) /\
  (exists s', history_recall 1%positive 0 (command_of ["!-0"]) "!-0" stopped_shell
                = Ok (Some (command_of ["bg"; "1"])) s' /\
              history s' = ["sleep 100"; "bg"] /\
              out s' = [Stdout ("Running command from history: bg" ++ NL)]) /\
  history_recall 1%positive 0 (command_of ["!1"]) "!1"
      (set_history ["  "; "!1"] stopped_shell)
    = Halt HUndefined (set_history ["  "; "!1"] stopped_shell).
Proof.
  split; [|split].
  - eexists. repeat split; vm_compute; reflexivity.
  - eexists. repeat split; vm_compute; reflexivity.
  - vm_compute. reflexivity.
Qed.

(** X18.  [!-n] with [n] below the number of history lines, in a stage of
    the job whose record is at [a]; the entry recalled is the one [n] places
    before the newest (the newest being, in the read loop, the recall line
    itself).  The effects are those of [!n]: if the cell before the history
    array reads as NULL, only "Improper n-value" and a return; otherwise, for
    an entry that contains a word, a vector of at most two words, the message,
    and the stored line cut after its first word; for an empty or blank entry,
    NULL passed to [strdup]. *)
Theorem history_recall_back_in_range
    (s : shell) (a : addr) (j : job) (k : nat) (cmd : ast_command) (name : string) :
  char_at name 1 = "-"%char ->
  isdigit (char_at name 2) = true ->
  0 <= atoi (string_from name 2) < Z.of_nat (length (history s)) ->
  heap s !! a = Some j ->
  exists line,
    history s !! Z.to_nat (Z.of_nat (length (history s)) - 1 - atoi (string_from name 2))
      = Some line /\
    history_recall a k cmd name s =
      (if history_guard_null s then
         Ok None (set_out (out s ++ [Stderr ("Improper n-value for !-n cmd" ++ NL)]) s)
       else
         match strtok2 line with
         | Some r =>
             Ok (Some (recalled_command r cmd))
                (recalled s a j k
                   (Z.to_nat (Z.of_nat (length (history s)) - 1
                              - atoi (string_from name 2)))
                   r cmd)
         | None => Halt HUndefined s
         end) /\
    (forall r, strtok2 line = Some r ->
       argv (recalled_command r cmd)
         = tok1 r :: match tok2 r with Some t => [t] | None => [] end /\
       (1 <= length (argv (recalled_command r cmd)) <= 2)%nat).
Proof.
  intros Hm Hd Hn Hj.
  destruct (lookup_lt_is_Some_2 (history s)
              (Z.to_nat (Z.of_nat (length (history s)) - 1 - atoi (string_from name 2))))
    as [line Hline]; [lia|].
  exists line. split; [done|]. split; [|intros r _; apply recalled_command_argv].
  unfold history_recall. rewrite Hm, Hd. cbn [andb Ascii.eqb Bool.eqb].
  unfold bind at 1, history_size.
  destruct (history s) as [|l0 h] eqn:E; [cbn in Hn; lia|]. rewrite <- E in *.
  destruct (history_guard_null s); [done|].
  replace (Z.of_nat (length (history s)) =? -1) with false
    by (symmetry; apply Z.eqb_neq; lia).
  cbn [negb]. unfold bind at 1.
  replace (Z.of_nat (length (history s)) + 1 - atoi (string_from name 2) - 2)
    with (Z.of_nat (length (history s)) - 1 - atoi (string_from name 2)) by lia.
  destruct (strtok2 line) as [r|] eqn:Htok.
  - by rewrite (recall_entry_runs s a j k cmd _ line r) by (done || lia).
  - by rewrite (recall_entry_blank s a k cmd _ line) by (done || lia).
Qed.

(** The witness: [!-1] when the history is [sleep 100], [bg 1]. *)
Lemma history_recall_back_in_range_witness :
  exists line,
    history stopped_shell
      !! Z.to_nat (Z.of_nat (length (history stopped_shell)) - 1
                   - atoi (string_from "!-1" 2)) = Some line /\
    history_recall 1%positive 0 (command_of ["!-1"]) "!-1" stopped_shell =
      (if history_guard_null stopped_shell then
         Ok None (set_out (out stopped_shell
                             ++ [Stderr ("Improper n-value for !-n cmd" ++ NL)])
                    stopped_shell)
       else
         match strtok2 line with
         | Some r =>
             Ok (Some (recalled_command r (command_of ["!-1"])))
                (recalled stopped_shell 1%positive stopped_job 0
                   (Z.to_nat (Z.of_nat (length (history stopped_shell)) - 1
                              - atoi (string_from "!-1" 2)))
                   r (command_of ["!-1"]))
         | None => Halt HUndefined stopped_shell
         end) /\
    (forall r, strtok2 line = Some r ->
       argv (recalled_command r (command_of ["!-1"]))
         = tok1 r :: match tok2 r with Some t => [t] | None => [] end /\
       (1 <= length (argv (recalled_command r (command_of ["!-1"]))) <= 2)%nat).
Proof.
  apply (history_recall_back_in_range stopped_shell 1%positive stopped_job 0
           (command_of ["!-1"]) "!-1"); [reflexivity|reflexivity| |reflexivity].
  vm_compute. split; [discriminate|reflexivity].
Defined.
(** ** Launching the stages of a pipeline *)

Lemma bind_pipe2 {B} (r : option (Z * Z)) (rest : list (option (Z * Z)))
    (f : option (Z * Z) -> M B) (s : shell) :
  pipe2_results (env s) = r :: rest ->
  bind pipe2 f s =
    f r (set_env (set_pipe2_results rest (env s)) (set_out (out s ++ [Pipe2]) s)).
Proof.
  intros H. unfold pipe2. rewrite bind_assoc, bind_emit.
  unfold bind. cbn [env set_out]. by rewrite H.
Qed.

Lemma bind_posix_spawnp {B} (args : list string) (acts : list file_action)
    (g : Z) (tc : bool) (r : option Z) (rest : list (option Z))
    (f : option Z -> M B) (s : shell) :
  spawn_results (env s) = r :: rest ->
  bind (posix_spawnp args acts g tc) f s =
    f r (set_env (set_spawn_results rest (env s))
           (set_out (out s ++ [Spawn args acts g tc]) s)).
Proof.
  intros H. unfold posix_spawnp. rewrite bind_assoc, bind_emit.
  unfold bind. cbn [env set_out]. by rewrite H.
Qed.

Lemma spawn_groups_app (l1 l2 : list event) :
  spawn_groups (l1 ++ l2) = (spawn_groups l1 ++ spawn_groups l2)%list.
Proof.
  induction l1 as [|e l1 IH]; [done|]. destruct e; cbn; by rewrite ?IH.
Qed.

Lemma spawn_events_app (l1 l2 : list event) :
  spawn_events (l1 ++ l2) = (spawn_events l1 ++ spawn_events l2)%list.
Proof.
  induction l1 as [|e l1 IH]; [done|]. destruct e; cbn; by rewrite ?IH.
Qed.

Lemma spawn_args_events (l : list event) : spawn_args (spawn_events l) = spawn_args l.
Proof. induction l as [|e l IH]; [done|]. destruct e; cbn; by rewrite ?IH. Qed.

Lemma spawn_args_app (l1 l2 : list event) :
  spawn_args (l1 ++ l2) = (spawn_args l1 ++ spawn_args l2)%list.
Proof.
  induction l1 as [|e l1 IH]; [done|]. destruct e; cbn; by rewrite ?IH.
Qed.

Lemma spawn_args_launches (p : ast_pipeline) (cmds : list ast_command) (k : nat)
    (gid prev_fd : Z) (fdl : list (Z * Z)) (pidl : list pid_t) :
  length pidl = length cmds ->
  spawn_args (launches p cmds k gid prev_fd fdl pidl) = argv <$> cmds.
Proof.
  revert k gid prev_fd fdl pidl.
  induction cmds as [|c rest IH]; intros k gid prev_fd fdl pidl Hl.
  - by destruct pidl.
  - destruct pidl as [|pid pidl]; [done|]. cbn [launches spawn_args fmap list_fmap].
    f_equal. apply IH. cbn in Hl. lia.
Qed.

Lemma stdout_texts_app (l1 l2 : list event) :
  stdout_texts (l1 ++ l2) = (stdout_texts l1 ++ stdout_texts l2)%list.
Proof.
  induction l1 as [|e l1 IH]; [done|]. destruct e; cbn; by rewrite ?IH.
Qed.

Lemma run_stage_external (a : addr) (p : ast_pipeline) (k : nat) (cmd : ast_command)
    (last : bool) (gid prev_fd : Z) (s : shell) :
  external cmd = true ->
  run_stage a p k cmd last gid prev_fd s =
    spawn_stage a p k cmd last gid prev_fd (set_out (out s ++ [TermstateSample]) s).
Proof.
  unfold external, run_stage. rewrite bind_emit.
  destruct (argv cmd) as [|name args]; [done|].
  unfold builtin_name. intros H. apply andb_true_iff in H as [Hb Hx].
  apply negb_true_iff in Hb, Hx.
  repeat (apply orb_false_iff in Hb as [Hb ?]).
  by repeat match goal with H : String.eqb _ _ = false |- _ => rewrite H; clear H end;
     rewrite Hx.
Qed.

Ltac finish_stage :=
  eexists _, _; split; [reflexivity|];
  cbn [heap jid2job job_list history sigchld_blocked out env
       set_heap set_out set_env set_blocked
       spawn_results pipe2_results set_spawn_results set_pipe2_results];
  rewrite ?insert_insert_eq;
  repeat split; try done;
  rewrite <- ?app_assoc, ?spawn_groups_app, ?spawn_events_app, ?stdout_texts_app; cbn;
  rewrite ?app_nil_r; try done.

Lemma spawn_stage_launches (a : addr) (p : ast_pipeline) (k : nat) (cmd : ast_command)
    (last : bool) (gid prev_fd : Z) (s : shell) (j : job) (cells : list Z)
    (pid : Z) (srest : list (option Z)) (fd : Z * Z) :
  heap s !! a = Some j ->
  pids j = Some cells ->
  (k < length cells)%nat ->
  spawn_results (env s) = Some pid :: srest ->
  (last = false -> exists prest, pipe2_results (env s) = Some fd :: prest) ->
  (last = true -> fd = (-1, -1)) ->
  exists s' prev',
    spawn_stage a p k cmd last gid prev_fd s =
      Ok (Continue, (match k with O => pid | S _ => gid end, prev')) s' /\
    prev' = (if last then prev_fd else fd.1) /\
    spawn_events (out s') =
      (spawn_events (out s)
         ++ [Spawn (argv cmd) (file_actions p cmd k last prev_fd fd.2)
               (match k with O => 0 | S _ => gid end) (negb (bg_job p))])%list /\
    heap s' = <[a := launched (bg_job p) k pid cells j]> (heap s) /\
    jid2job s' = jid2job s /\ job_list s' = job_list s /\ history s' = history s /\
    sigchld_blocked s' = sigchld_blocked s /\
    spawn_results (env s') = srest /\
    pipe2_results (env s') =
      (if last then pipe2_results (env s) else tail (pipe2_results (env s))) /\
    spawn_groups (out s') =
      (spawn_groups (out s) ++ [match k with O => 0 | S _ => gid end])%list /\
    stdout_texts (out s') =
      (stdout_texts (out s)
         ++ if bg_job p then [bg_line (launched (bg_job p) k pid cells j)] else [])%list.
Proof.
  intros Hj Hc Hk Hs Hp Hfd. unfold spawn_stage, launched.
  apply Nat.ltb_lt in Hk.
  destruct last.
  - rewrite (Hfd eq_refl). cbn [negb fst snd]. rewrite bind_ret.
    erewrite bind_posix_spawnp by solve_lookup.
    destruct k as [|k].
    + erewrite bind_modify by solve_lookup. rewrite bind_assoc.
      erewrite bind_load by solve_lookup. cbn [pids job_with_pgid]. rewrite Hc, Hk.
      rewrite bind_store. erewrite bind_modify by solve_lookup.
      destruct (prev_fd =? -1), (bg_job p); cbn [negb]; mrun;
        try (erewrite bind_print_bg by solve_lookup);
        try (erewrite bind_modify by solve_lookup); mrun; finish_stage.
    + rewrite bind_ret, bind_assoc.
      erewrite bind_load by solve_lookup. rewrite Hc, Hk.
      rewrite bind_store. erewrite bind_modify by solve_lookup.
      destruct (prev_fd =? -1), (bg_job p); cbn [negb]; mrun;
        try (erewrite bind_print_bg by solve_lookup);
        try (erewrite bind_modify by solve_lookup); mrun; finish_stage.
  - destruct (Hp eq_refl) as (prest & Hpipe). destruct fd as [rd wr].
    cbn [negb fst snd].
    erewrite bind_pipe2 by solve_lookup. cbv beta iota.
    erewrite bind_posix_spawnp by solve_lookup.
    destruct k as [|k].
    + erewrite bind_modify by solve_lookup. rewrite bind_assoc.
      erewrite bind_load by solve_lookup. cbn [pids job_with_pgid]. rewrite Hc, Hk.
      rewrite bind_store. erewrite bind_modify by solve_lookup.
      destruct (prev_fd =? -1), (bg_job p); cbn [negb]; mrun;
        try (erewrite bind_print_bg by solve_lookup);
        try (erewrite bind_modify by solve_lookup); mrun; rewrite ?Hpipe; finish_stage.
    + rewrite bind_ret, bind_assoc.
      erewrite bind_load by solve_lookup. rewrite Hc, Hk.
      rewrite bind_store. erewrite bind_modify by solve_lookup.
      destruct (prev_fd =? -1), (bg_job p); cbn [negb]; mrun;
        try (erewrite bind_print_bg by solve_lookup);
        try (erewrite bind_modify by solve_lookup); mrun; rewrite ?Hpipe; finish_stage.
Qed.

Lemma bg_line_same (j1 j2 : job) :
  jid j1 = jid j2 -> pgid j1 = pgid j2 -> bg_line j1 = bg_line j2.
Proof. unfold bg_line. by intros -> ->. Qed.

Lemma launched_fields (bg : bool) (k : nat) (pid : Z) (cells : list Z) (j : job) :
  jid (launched bg k pid cells j) = jid j /\
  pipe (launched bg k pid cells j) = pipe j /\
  termStateIsSaved (launched bg k pid cells j) = termStateIsSaved j /\
  pgid (launched bg k pid cells j) = match k with O => pid | S _ => pgid j end /\
  num_processes_alive (launched bg k pid cells j) = num_processes_alive j + 1 /\
  status (launched bg k pid cells j) = (if bg then BACKGROUND else FOREGROUND) /\
  pids (launched bg k pid cells j) = Some (<[k := pid]> cells).
Proof. by destruct k. Qed.

Lemma run_stages_launch (a : addr) (p : ast_pipeline) (cmds : list ast_command) :
  forall (k : nat) (gid prev_fd : Z) (s : shell) (j : job) (cells pidl : list Z)
         (fdl : list (Z * Z)) (srest : list (option Z)) (prest : list (option (Z * Z))),
    Forall (fun c => external c = true) cmds ->
    heap s !! a = Some j ->
    pids j = Some cells ->
    (k + length cmds <= length cells)%nat ->
    length pidl = length cmds ->
    spawn_results (env s) = ((Some <$> pidl) ++ srest)%list ->
    length fdl = pred (length cmds) ->
    pipe2_results (env s) = ((Some <$> fdl) ++ prest)%list ->
    exists s',
      run_stages a p cmds k gid prev_fd s = Ok Continue s' /\
      stages_launched (bg_job p) a k gid pidl j cells s s' /\
      spawn_results (env s') = srest /\
      pipe2_results (env s') = prest /\
      spawn_events (out s') =
        (spawn_events (out s) ++ launches p cmds k gid prev_fd fdl pidl)%list.
Proof.
  induction cmds as [|c rest IH];
    intros k gid prev_fd s j cells pidl fdl srest prest Hext Hj Hc Hlen Hpl Hsp Hfl Hpp.
  - destruct pidl; [|done]. destruct fdl; [|done].
    exists s. split; [done|].
    split; [|split; [done|split; [done|cbn; by rewrite app_nil_r]]].
    split; [|repeat split; try done; destruct k; cbn; by rewrite app_nil_r].
    exists j. split; [by rewrite insert_id|].
    repeat split; try done.
    + cbn. by rewrite Nat.add_0_r, take_drop.
    + cbn. lia.
    + by destruct k.
    + destruct (bg_job p); cbn; by rewrite app_nil_r.
  - destruct pidl as [|pid pidl]; [done|].
    apply Forall_cons in Hext as [Hc0 Hext].
    cbn [length] in Hlen, Hpl, Hfl. cbn [run_stages].
    unfold bind at 1. rewrite run_stage_external by done.
    set (s0 := set_out (out s ++ [TermstateSample]) s).
    set (fd := if is_last rest then (-1, -1) else hd (-1, -1) fdl).
    destruct (spawn_stage_launches a p k c (is_last rest) gid prev_fd s0 j cells pid
                ((Some <$> pidl) ++ srest)%list fd)
      as (s1 & prev' & Hrun & Hprev & He1 & Hh1 & Ht1 & Hl1 & Hhi1 & Hb1 & Hs1 & Hp1
          & Hg1 & Ho1);
      [done|done|lia|done| | |].
    { intros Hlast. destruct rest as [|c' rest']; [done|].
      destruct fdl as [|fd0 fdl]; [done|]. by exists ((Some <$> fdl) ++ prest)%list. }
    { intros Hlast. subst fd. by rewrite Hlast. }
    rewrite Hrun. cbv beta iota.
    set (j1 := launched (bg_job p) k pid cells j) in *.
    destruct (launched_fields (bg_job p) k pid cells j)
      as (Fid & Fpipe & Fflag & Fpgid & Falive & Fstatus & Fpids).
    fold j1 in Fid, Fpipe, Fflag, Fpgid, Falive, Fstatus, Fpids.
    set (fdl' := if is_last rest then fdl else tail fdl).
    assert (length fdl' = pred (length rest) /\
            pipe2_results (env s1) = ((Some <$> fdl') ++ prest)%list) as (Hfl' & Hpp').
    { rewrite Hp1. subst fdl'. destruct rest as [|c' rest'].
      - by destruct fdl.
      - destruct fdl as [|fd0 fdl]; [done|].
        split; [cbn in *; lia|]. cbn [is_last tail]. change (pipe2_results (env s0)) with
          (pipe2_results (env s)). by rewrite Hpp. }
    destruct (IH (S k) (match k with O => pid | S _ => gid end) prev' s1 j1
                (<[k := pid]> cells) pidl fdl' srest prest)
      as (s' & Hrun' & ((j' & Hh' & Hid' & Hpi' & Hfl2 & Hpids' & Hal' & Hpg' & Hst' & Ho')
                         & Ht' & Hl' & Hhi' & Hb' & Hg') & Hs' & Hp' & He');
      [done| rewrite Hh1; apply lookup_insert_eq | done
      | rewrite length_insert; lia | lia | done | done | done |].
    clearbody j1.
    exists s'. split; [done|].
    split; [|split; [done|split; [done|]]].
    2:{ rewrite He', He1. subst s0. cbn [out set_out launches].
        rewrite spawn_events_app. cbn [spawn_events]. rewrite app_nil_r, <- app_assoc.
        by rewrite Hprev. }
    assert (pgid j' = pgid j1) as Hpg1 by done.
    split.
    + exists j'. split; [by rewrite Hh', Hh1, insert_insert_eq|].
      split; [congruence|]. split; [congruence|]. split; [congruence|].
      split.
      { rewrite Hpids'. f_equal.
        rewrite (take_S_r _ _ pid) by (apply list_lookup_insert_eq; lia).
        rewrite take_insert_ge by lia.
        rewrite drop_insert_lt by lia.
        rewrite <- app_assoc. cbn [app length].
        by replace (k + S (length pidl))%nat with (S k + length pidl)%nat by lia. }
      split; [rewrite Hal', Falive; cbn [length]; lia|].
      split; [rewrite Hpg1, Fpgid; by destruct k|].
      split; [rewrite Hst', Fstatus; by destruct pidl|].
      rewrite Ho', Ho1. subst s0. cbn [out set_out].
      rewrite stdout_texts_app. cbn [stdout_texts]. rewrite app_nil_r.
      destruct (bg_job p); [|by rewrite app_nil_r].
      rewrite <- app_assoc. cbn [length replicate app].
      by rewrite (bg_line_same j1 j') by congruence.
    + subst s0.
      cbn [jid2job job_list history sigchld_blocked out set_out] in Ht1, Hl1, Hhi1, Hb1.
      split; [congruence|]. split; [congruence|]. split; [congruence|].
      split; [congruence|].
      rewrite Hg', Hg1. cbn [out set_out].
      rewrite spawn_groups_app. cbn [spawn_groups]. rewrite app_nil_r, <- app_assoc.
      by destruct k.
Qed.

(** X19.  A pipeline whose commands are all programs (no builtin, no
    recall) and whose launches all succeed: the stages are launched in order,
    the k-th [posix_spawnp] with the argument vector of the k-th command, with
    its redirections (stdin from the previous pipe, stdout to its own pipe,
    the files of the pipeline at the two ends) and with the terminal request
    of a foreground pipeline; the first one founds a new process group (group
    argument 0), every later one joins the group of the first pid.
    Afterwards the job's pid array holds the pids in stage order, the count of
    live processes has grown by the number of stages, the process group of the
    job is the first pid, and the status is [BACKGROUND] or [FOREGROUND] as
    the pipeline asks.  The registry structures and the history are
    untouched. *)
Theorem run_stages_launches_in_order
    (a : addr) (p : ast_pipeline) (cmds : list ast_command) (s : shell) (j : job)
    (cells : list Z) (pid0 : Z) (pidl : list Z) (fdl : list (Z * Z))
    (srest : list (option Z)) (prest : list (option (Z * Z))) :
  Forall (fun c => external c = true) cmds ->
  heap s !! a = Some j ->
  pids j = Some cells ->
  length cells = length cmds ->
  length (pid0 :: pidl) = length cmds ->
  spawn_results (env s) = ((Some <$> pid0 :: pidl) ++ srest)%list ->
  length fdl = pred (length cmds) ->
  pipe2_results (env s) = ((Some <$> fdl) ++ prest)%list ->
  exists s' j',
    run_stages a p cmds 0 0 (-1) s = Ok Continue s' /\
    heap s' = <[a := j']> (heap s) /\
    pids j' = Some (pid0 :: pidl) /\
    num_processes_alive j' = num_processes_alive j + Z.of_nat (length cmds) /\
    pgid j' = pid0 /\
    status j' = (if bg_job p then BACKGROUND else FOREGROUND) /\
    jid j' = jid j /\ pipe j' = pipe j /\
    spawn_groups (out s') =
      (spawn_groups (out s) ++ 0 :: replicate (length pidl) pid0)%list /\
    jid2job s' = jid2job s /\ job_list s' = job_list s /\ history s' = history s /\
    spawn_results (env s') = srest /\ pipe2_results (env s') = prest /\
    spawn_args (out s') = (spawn_args (out s) ++ (argv <$> cmds))%list /\
    spawn_events (out s') =
      (spawn_events (out s) ++ launches p cmds 0 0 (-1) fdl (pid0 :: pidl))%list.
Proof.
  intros Hext Hj Hc Hlen Hpl Hsp Hfl Hpp.
  destruct (run_stages_launch a p cmds 0 0 (-1) s j cells (pid0 :: pidl) fdl srest prest)
    as (s' & Hrun & ((j' & Hh & Hid & Hpi & _ & Hpids & Hal & Hpg & Hst & _)
                      & Ht & Hl & Hhi & _ & Hg) & Hs & Hp & He);
    [done|done|done|lia|done|done|done|done|].
  exists s', j'. split; [done|]. split; [done|]. split.
  { rewrite Hpids. cbn [take app]. rewrite drop_ge by lia. by rewrite app_nil_r. }
  split; [rewrite Hal; lia|].
  do 10 (split; [done|]). split; [|done].
  rewrite <- (spawn_args_events (out s')), He, spawn_args_app, spawn_args_events.
  by rewrite spawn_args_launches.
Qed.

Lemma two_cats_submitted_job :
  heap two_cats_submitted !! 1%positive = Some (submitted_job two_cats stale_job 1 []).
Proof. reflexivity. Qed.

(** The witness: [cat | cat &] with the pipe (3, 4) and the pids 100 and
    101.  The first [cat] writes to the pipe and founds the group, the second
    reads from the pipe and joins the group 100. *)
Lemma run_stages_launches_in_order_witness :
  exists s' j',
    run_stages 1%positive two_cats (commands two_cats) 0 0 (-1) two_cats_submitted
      = Ok Continue s' /\
    heap s' = <[1%positive := j']> (heap two_cats_submitted) /\
    pids j' = Some [100; 101] /\
    num_processes_alive j' =
      num_processes_alive (submitted_job two_cats stale_job 1 [])
        + Z.of_nat (length (commands two_cats)) /\
    pgid j' = 100 /\
    status j' = (if bg_job two_cats then BACKGROUND else FOREGROUND) /\
    jid j' = jid (submitted_job two_cats stale_job 1 []) /\
    pipe j' = pipe (submitted_job two_cats stale_job 1 []) /\
    spawn_groups (out s') =
      (spawn_groups (out two_cats_submitted) ++ 0 :: replicate (length [101]) 100)%list /\
    jid2job s' = jid2job two_cats_submitted /\
    job_list s' = job_list two_cats_submitted /\
    history s' = history two_cats_submitted /\
    spawn_results (env s') = [] /\ pipe2_results (env s') = [] /\
    spawn_args (out s') = [["cat"]; ["cat"]] /\
    spawn_events (out s') =
      [Spawn ["cat"] [AddDup2 4 1] 0 false; Spawn ["cat"] [AddDup2 3 0] 100 false].
Proof.
  apply (run_stages_launches_in_order 1%positive two_cats (commands two_cats)
           two_cats_submitted (submitted_job two_cats stale_job 1 [])
           [0; 0] 100 [101] [(3, 4)] [] []); try reflexivity.
  repeat constructor.
Defined.

(** X20.  For the same pipelines: a background pipeline prints its
    announcement "[id] pgid" once per launched stage (so as many times as it
    has stages), every time the same line; a foreground pipeline prints
    nothing while its stages are launched. *)
Theorem run_stages_announces_per_stage
    (a : addr) (p : ast_pipeline) (cmds : list ast_command) (s : shell) (j : job)
    (cells : list Z) (pid0 : Z) (pidl : list Z) (fdl : list (Z * Z))
    (srest : list (option Z)) (prest : list (option (Z * Z))) :
  Forall (fun c => external c = true) cmds ->
  heap s !! a = Some j ->
  pids j = Some cells ->
  length cells = length cmds ->
  length (pid0 :: pidl) = length cmds ->
  spawn_results (env s) = ((Some <$> pid0 :: pidl) ++ srest)%list ->
  length fdl = pred (length cmds) ->
  pipe2_results (env s) = ((Some <$> fdl) ++ prest)%list ->
  exists s',
    run_stages a p cmds 0 0 (-1) s = Ok Continue s' /\
    stdout_texts (out s') =
      (stdout_texts (out s)
         ++ if bg_job p
            then replicate (length cmds)
                   ("[" ++ pretty (jid j) ++ "] " ++ pretty pid0 ++ NL)%string
            else [])%list.
Proof.
  intros Hext Hj Hc Hlen Hpl Hsp Hfl Hpp.
  destruct (run_stages_launch a p cmds 0 0 (-1) s j cells (pid0 :: pidl) fdl srest prest)
    as (s' & Hrun & ((j' & Hh & Hid & Hpi & _ & Hpids & Hal & Hpg & Hst & Ho)
                      & _) & _);
    [done|done|done|lia|done|done|done|done|].
  exists s'. split; [done|]. rewrite Ho. f_equal.
  destruct (bg_job p); [|done]. rewrite Hpl. f_equal.
  unfold bg_line. by rewrite Hid, Hpg.
Qed.

Lemma run_stages_announces_per_stage_witness :
  exists s',
    run_stages 1%positive two_cats (commands two_cats) 0 0 (-1) two_cats_submitted
      = Ok Continue s' /\
    stdout_texts (out s') =
      (stdout_texts (out two_cats_submitted)
         ++ if bg_job two_cats
            then replicate (length (commands two_cats))
                   ("[" ++ pretty (jid (submitted_job two_cats stale_job 1 [])) ++ "] "
                        ++ pretty 100 ++ NL)%string
            else [])%list.
Proof.
  apply (run_stages_announces_per_stage 1%positive two_cats (commands two_cats)
           two_cats_submitted (submitted_job two_cats stale_job 1 [])
           [0; 0] 100 [101] [(3, 4)] [] []); try reflexivity.
  repeat constructor.
Defined.

(** ** A launch that fails *)

(** X21.  A stage that is a program and cannot be launched, in the job at
    [a] registered under its id: the failure is reported, SIGCHLD is
    unblocked, the record is freed and its id released, the terminal is handed
    back, and the stages after it are not launched: [run_command] returns.
    The job list is left as it was, so it still names the freed record;
    processes launched for earlier stages are neither signalled nor waited
    for. *)
Theorem run_stages_abandons_job_on_failure
    (a : addr) (p : ast_pipeline) (c : ast_command) (rest : list ast_command)
    (k : nat) (gid prev_fd : Z) (s : shell) (j : job)
    (fd : Z * Z) (srest : list (option Z)) (prest : list (option (Z * Z))) :
  external c = true ->
  heap s !! a = Some j ->
  jid2job s !! jid j = Some a ->
  0 <= jid j < MAXJOBS ->
  spawn_results (env s) = None :: srest ->
  (rest <> [] -> pipe2_results (env s) = Some fd :: prest) ->
  exists s' evs,
    run_stages a p (c :: rest) k gid prev_fd s = Ok Return s' /\
    heap s' = delete a (heap s) /\
    jid2job s' = delete (jid j) (jid2job s) /\
    job_list s' = job_list s /\
    sigchld_blocked s' = false /\
    out s' = (out s ++ evs ++ [Perror "posix_spawnp failed"; SignalUnblock;
                               GiveTerminalBackToShell])%list /\
    length (spawn_groups evs) = 1%nat /\
    (forall g sig, Killpg g sig ∉ evs) /\ Waitpid ∉ evs.
Proof.
  intros Hext Hj Ht Hr Hs Hp. cbn [run_stages]. unfold bind at 1.
  rewrite run_stage_external by done. unfold spawn_stage.
  destruct rest as [|c' rest']; cbn [is_last negb].
  - rewrite bind_ret. erewrite bind_posix_spawnp by solve_lookup. cbv beta iota.
    rewrite bind_emit, bind_signal_unblock. unfold bind at 1.
    erewrite delete_job_registered; [|solve_lookup|done|done].
    rewrite bind_emit. unfold ret. eexists _, [_; _].
    split; [reflexivity|]. cbn [heap jid2job job_list sigchld_blocked out jid
                               set_heap set_jid2job set_out set_blocked set_env].
    repeat (split; [try done; by rewrite <- !app_assoc|]).
    split.
    + intros g sig H. repeat (apply elem_of_cons in H as [H|H]; [done|]).
      by apply elem_of_nil in H.
    + intros H. repeat (apply elem_of_cons in H as [H|H]; [done|]).
      by apply elem_of_nil in H.
  - destruct fd as [rd wr]. rewrite (bind_pipe2 (Some (rd, wr)) prest) by (by apply Hp).
    cbv beta iota. erewrite bind_posix_spawnp by solve_lookup. cbv beta iota.
    rewrite bind_emit, bind_signal_unblock. unfold bind at 1.
    erewrite delete_job_registered; [|solve_lookup|done|done].
    rewrite bind_emit. unfold ret. eexists _, [_; _; _].
    split; [reflexivity|]. cbn [heap jid2job job_list sigchld_blocked out jid
                               set_heap set_jid2job set_out set_blocked set_env].
    repeat (split; [try done; by rewrite <- !app_assoc|]).
    split.
    + intros g sig H. repeat (apply elem_of_cons in H as [H|H]; [done|]).
      by apply elem_of_nil in H.
    + intros H. repeat (apply elem_of_cons in H as [H|H]; [done|]).
      by apply elem_of_nil in H.
Qed.

Lemma run_stages_abandons_job_on_failure_witness :
  exists s' evs,
    run_stages 1%positive (pipeline_of [["nonexistent"]] false)
      [command_of ["nonexistent"]] 0 0 (-1) nonexistent_submitted = Ok Return s' /\
    heap s' = delete 1%positive (heap nonexistent_submitted) /\
    jid2job s' =
      delete (jid (submitted_job (pipeline_of [["nonexistent"]] false) stale_job 1 []))
        (jid2job nonexistent_submitted) /\
    job_list s' = job_list nonexistent_submitted /\
    sigchld_blocked s' = false /\
    out s' = (out nonexistent_submitted ++ evs
                ++ [Perror "posix_spawnp failed"; SignalUnblock;
                    GiveTerminalBackToShell])%list /\
    length (spawn_groups evs) = 1%nat /\
    (forall g sig, Killpg g sig ∉ evs) /\ Waitpid ∉ evs.
Proof.
  apply (run_stages_abandons_job_on_failure 1%positive
           (pipeline_of [["nonexistent"]] false) (command_of ["nonexistent"]) []
           0 0 (-1) nonexistent_submitted
           (submitted_job (pipeline_of [["nonexistent"]] false) stale_job 1 [])
           (0, 0) [] []).
  - reflexivity.
  - reflexivity.
  - reflexivity.
  - unfold MAXJOBS. cbn. lia.
  - reflexivity.
  - intros H. done.
Defined.

(** ** A prompt cycle with a builtin *)




(** ** The SIGCHLD handler *)

(** X23.  In the state the SIGCHLD handler ends in, however many pending
    statuses it has drained and however long the pid arrays of the jobs are:
    the registry structures and the history are the same, no record was
    allocated or freed, every job has kept its id, pipeline, process group and
    pid array, and no count of live processes has grown; a consistent registry
    is still consistent.  The handler returns whenever every job of the list
    is an allocated record with a pid array. *)
Theorem sigchld_handler_keeps_registry (s : shell) :
  let s' := final_state (sigchld_handler s) in
  same_jobs s s' /\
  (registry_consistent s -> registry_consistent s') /\
  (jobs_allocated s -> sigchld_handler s = Ok tt s').
Proof.
  cbv zeta. split; [apply sigchld_drain_final|]. split.
  - apply same_jobs_consistent, sigchld_drain_final.
  - intros Ha. unfold sigchld_handler.
    destruct (sigchld_drain_returns (length (waitpid_results (env s))) s Ha)
      as [s1 H1].
    by rewrite H1.
Qed.

Lemma sigchld_handler_keeps_registry_witness :
  same_jobs stopped_shell (final_state (sigchld_handler stopped_shell)) /\
  registry_consistent (final_state (sigchld_handler stopped_shell)) /\
  sigchld_handler stopped_shell = Ok tt (final_state (sigchld_handler stopped_shell)).
Proof.
  destruct (sigchld_handler_keeps_registry stopped_shell) as (H1 & H2 & H3).
  split; [exact H1|]. split.
  - apply H2. exact stopped_shell_consistent.
  - apply H3, stopped_shell_allocated.
Defined.
(** ** The pid array cannot be allocated *)

(** X24.  When the job is registered but [malloc] fails for its pid array,
    the pipeline is given up with "memory allocation failed for job PIDs
    list": nothing is launched, [run_command] returns at once and leaves
    SIGCHLD blocked, and the job stays registered under its id with no process
    alive and a NULL pid array. *)
Theorem run_command_without_pid_array
    (s : shell) (p : ast_pipeline) (more : list ast_pipeline) (a : addr)
    (stale : job) (i : Z) (rest_j : list (addr * job))
    (rest_p : list (option (list Z))) :
  job_mallocs (env s) = (a, stale) :: rest_j ->
  pids_mallocs (env s) = None :: rest_p ->
  1 <= i < MAXJOBS ->
  jid2job s !! i = None ->
  (forall k, 1 <= k < i -> is_Some (jid2job s !! k)) ->
  exists s' j,
    run_command (p :: more) s = Ok tt s' /\
    out s' = (out s ++ [TermstateSample; SignalBlock;
                        Stderr ("memory allocation failed for job PIDs list" ++ NL)])%list /\
    sigchld_blocked s' = true /\
    get_job_from_jid i s' = Some a /\
    heap s' !! a = Some j /\
    jid j = i /\ num_processes_alive j = 0 /\ pids j = None /\
    job_list s' = (job_list s ++ [a])%list.
Proof.
  intros Hj Hp Hi Hfree Hless.
  unfold run_command. rewrite bind_emit, bind_signal_block.
  set (s0 := set_blocked true _).
  unfold bind at 1. cbn [run_pipelines]. unfold bind at 1.
  unfold run_pipeline. unfold bind at 1.
  rewrite (add_job_registers s0 p a stale rest_j i) by
    (done || (apply first_free_found; [unfold MAXJOBS in *; lia|done|done])).
  unfold bind at 1, malloc_pids.
  cbn [env set_jid2job set_heap set_job_list set_env pids_mallocs set_job_mallocs].
  change (pids_mallocs (env s0)) with (pids_mallocs (env s)). rewrite Hp.
  cbn [fmap option_fmap option_map].
  erewrite bind_modify by solve_lookup.
  rewrite bind_emit. unfold ret.
  eexists _, _. split; [reflexivity|].
  cbn [out sigchld_blocked heap job_list set_out set_heap set_jid2job set_job_list
       set_env set_blocked s0].
  split; [by rewrite <- !app_assoc|]. split; [done|].
  split; [rewrite get_job_from_jid_in_range by lia; apply lookup_insert_eq|].
  split; [apply lookup_insert_eq|]. done.
Qed.

Lemma run_command_without_pid_array_witness :
  let s := set_env (set_pids_mallocs [None] (env stopped_shell_ready))
             stopped_shell_ready in
  exists s' j,
    run_command (pipeline_of [["ls"]] false :: []) s = Ok tt s' /\
    out s' = (out s ++ [TermstateSample; SignalBlock;
                        Stderr ("memory allocation failed for job PIDs list" ++ NL)])%list /\
    sigchld_blocked s' = true /\
    get_job_from_jid 2 s' = Some 2%positive /\
    heap s' !! 2%positive = Some j /\
    jid j = 2 /\ num_processes_alive j = 0 /\ pids j = None /\
    job_list s' = (job_list s ++ [2%positive])%list.
Proof.
  apply (run_command_without_pid_array
           (set_env (set_pids_mallocs [None] (env stopped_shell_ready))
              stopped_shell_ready)
           (pipeline_of [["ls"]] false) [] 2%positive stale_job 2 [] []).
  - reflexivity.
  - reflexivity.
  - unfold MAXJOBS. lia.
  - reflexivity.
  - intros k Hk. assert (k = 1) as -> by lia. by eexists.
Defined.

(** * The job of a pipeline that starts with a builtin *)














(** [fg 1] and [bg 1] typed while job 1 is stopped: the pipeline gets the
    record 2 under the id 2, and that record is still registered, with no
    process alive, when [run_command] returns. *)
Lemma fg_bg_pipelines_leave_job :
  (exists s' j',
     run_command [pipeline_of [["fg"; "1"]] false] stopped_shell_ready = Ok tt s' /\
     get_job_from_jid 2 s' = Some 2%positive /\
     heap s' !! 2%positive = Some j' /\
     jid j' = 2 /\ num_processes_alive j' = 0) /\
  (exists s' j',
     run_command [pipeline_of [["bg"; "1"]] false] stopped_shell_ready = Ok tt s' /\
     get_job_from_jid 2 s' = Some 2%positive /\
     heap s' !! 2%positive = Some j' /\
     jid j' = 2 /\ num_processes_alive j' = 0).
Proof.
  split; eexists _, _; (split; [vm_compute; reflexivity|]);
    repeat split; vm_compute; reflexivity.
Qed.

(** With [fg] the count can fall below 0: the pid array of the new job is
    never written for a builtin, so it holds what [malloc] left there; when
    that is the pid the waiter is told about, the reconciler counts the exit
    against the new job as well. *)
Lemma fg_pipeline_can_lower_own_count :
  exists s' j',
    run_command [pipeline_of [["fg"; "1"]] false] stopped_shell_stale_pids = Ok tt s' /\
    get_job_from_jid 2 s' = Some 2%positive /\
    heap s' !! 2%positive = Some j' /\
    pids j' = Some [100] /\
    num_processes_alive j' = -1.
Proof.
  eexists _, _. split; [vm_compute; reflexivity|].
  repeat split; vm_compute; reflexivity.
Qed.
